(** * Craftopia back end: a shallow embedding of the catalogue API

    The first half of the file embeds the TypeScript sources, one module
    per source file:

    - [Chars], [Utils]        src/utils/response.ts
    - [Types]                 src/types/index.ts
    - [Config]                src/config/index.ts
    - [Jwt], [AuthUtils]      jsonwebtoken (symbolic) and src/utils/auth.ts
    - [Store], [Mongoose]     the collections and Mongoose documents
    - [CategoryModel], [DecorModel], [UserModel]   src/models
    - [DecorController], [UserController], [AuthController]   src/controllers
    - [AuthMiddleware]        src/middlewares/auth.ts
    - [ListEndpoints], [UserRoutes]   the list controllers and src/routes
    - [TokenUtils], [OptionalAuth], [DecorVirtuals], [DecorUpdates],
      [DecorRoutes], [CategoryController], [Stats], [Cloudinary]
                              further functions of the same files
    - [Sessions]              sequences of requests
    - [Utf16], [Identifiers]  [generateSlug] over UTF-16 code units, and
                              the notation of identifiers

    The second half states and proves the properties.

    The strings of the stores are modelled by [string] (code units below
    256, that is, Latin-1 text); [Utf16] treats [generateSlug] on lists of
    UTF-16 code units.  Integers are modelled by [Z], other numbers by
    [Q], dates by seconds.  A request is handled from start to end before
    the next one begins. *)

From Stdlib Require Import ZArith QArith Qround String Ascii List Bool Lia.
From stdpp Require Import gmap strings.
Import ListNotations.

Local Open Scope string_scope.
Local Open Scope Z_scope.

(* ===================================================================== *)
(** ** Characters and the regular-expression classes used by the code     *)
(* ===================================================================== *)

Module Chars.

Definition code (c : ascii) : N := N_of_ascii c.

Definition between (lo hi : N) (c : ascii) : bool :=
  ((lo <=? code c) && (code c <=? hi))%N.

Definition isUpper : ascii -> bool := between 65 90.
Definition isLower : ascii -> bool := between 97 122.
Definition isDigit : ascii -> bool := between 48 57.
Definition isUnderscore (c : ascii) : bool := (code c =? 95)%N.
Definition isHyphen (c : ascii) : bool := (code c =? 45)%N.

(** [\w] of a JavaScript regular expression without the [u] flag:
    [A-Za-z0-9_]. *)
Definition isWordChar (c : ascii) : bool :=
  isUpper c || isLower c || isDigit c || isUnderscore c.

(** [\s], and the characters removed by [String.prototype.trim]: the
    white space and line terminators of ECMAScript that lie below 256:
    TAB, LF, VT, FF, CR, SPACE and NO-BREAK SPACE. *)
Definition isSpace (c : ascii) : bool :=
  between 9 13 c || (code c =? 32)%N || (code c =? 160)%N.

(** The class [[\s_-]]. *)
Definition isSeparator (c : ascii) : bool :=
  isSpace c || isUnderscore c || isHyphen c.

(** The complement of the class [[^\w\s-]]: what the first [replace] of
    [generateSlug] keeps. *)
Definition isKept (c : ascii) : bool :=
  isWordChar c || isSpace c || isHyphen c.

(** [toLowerCase] on one code unit: A-Z, and the Latin-1 capitals
    U+00C0..U+00DE except the multiplication sign U+00D7. *)
Definition toLowerChar (c : ascii) : ascii :=
  if isUpper c then ascii_of_N (code c + 32)
  else if between 192 222 c && negb (code c =? 215)%N
       then ascii_of_N (code c + 32)
       else c.

Definition hyphen : ascii := "-"%char.

(** What a slug is made of. *)
Definition isSlugChar (c : ascii) : bool :=
  isLower c || isDigit c || isHyphen c.

End Chars.

(* ===================================================================== *)
(** ** src/utils/response.ts                                              *)
(* ===================================================================== *)

Module Utils.
Import Chars.

Section ListScans.
Context {A : Type} (p : A -> bool).

(** Drop the longest prefix whose elements satisfy [p]. *)
Fixpoint dropWhileStart (l : list A) : list A :=
  match l with
  | [] => []
  | x :: r => if p x then dropWhileStart r else l
  end.

(** Drop the longest suffix whose elements satisfy [p]. *)
Fixpoint dropWhileEnd (l : list A) : list A :=
  match l with
  | [] => []
  | x :: r =>
      match dropWhileEnd r with
      | [] => if p x then [] else [x]
      | r' => x :: r'
      end
  end.
End ListScans.

(** [String.prototype.toLowerCase]. *)
Definition toLowerCase (l : list ascii) : list ascii := map toLowerChar l.

(** [String.prototype.trim]. *)
Definition trim (l : list ascii) : list ascii :=
  dropWhileEnd isSpace (dropWhileStart isSpace l).

(** [.replace(/[^\w\s-]/g, "")]: delete every character outside the
    class. *)
Definition removeSpecial (l : list ascii) : list ascii :=
  List.filter isKept l.

(** [.replace(/[\s_-]+/g, "-")]: a left-to-right scan; [inRun] tells that
    the current run of separators has already produced its hyphen. *)
Fixpoint hyphenate (inRun : bool) (l : list ascii) : list ascii :=
  match l with
  | [] => []
  | c :: r =>
      if isSeparator c
      then (if inRun then hyphenate true r else hyphen :: hyphenate true r)
      else c :: hyphenate false r
  end.

(** [.replace(/^-+|-+$/g, "")]: the leading run and the trailing run of
    hyphens are deleted. *)
Definition stripHyphens (l : list ascii) : list ascii :=
  dropWhileEnd isHyphen (dropWhileStart isHyphen l).

Definition generateSlugChars (text : list ascii) : list ascii :=
  stripHyphens (hyphenate false (removeSpecial (trim (toLowerCase text)))).

(** [generateSlug] of src/utils/response.ts, lines 52-59. *)
Definition generateSlug (text : string) : string :=
  string_of_list_ascii (generateSlugChars (list_ascii_of_string text)).

(** *** The slug as the claim words it

    The words of a text are its maximal runs of characters that are
    neither white space, underscores nor hyphens; the slug joins the words
    of the lower-cased text without its special characters by single
    hyphens. *)

Definition startsWord (l : list ascii) : bool :=
  match l with
  | c :: _ => negb (isSeparator c)
  | [] => false
  end.

Definition consWord (c : ascii) (ws : list (list ascii)) : list (list ascii) :=
  match ws with
  | w :: ws' => (c :: w) :: ws'
  | [] => [[c]]
  end.

Fixpoint slugWords (l : list ascii) : list (list ascii) :=
  match l with
  | [] => []
  | c :: r =>
      if isSeparator c then slugWords r
      else if startsWord r then consWord c (slugWords r)
           else [c] :: slugWords r
  end.

Fixpoint joinHyphen (ws : list (list ascii)) : list ascii :=
  match ws with
  | [] => []
  | [w] => w
  | w :: ws' => w ++ hyphen :: joinHyphen ws'
  end.

Definition slugSpec (text : list ascii) : list ascii :=
  joinHyphen (slugWords (removeSpecial (toLowerCase text))).

(** No two hyphens in a row. *)
Fixpoint noDoubleHyphen (l : list ascii) : bool :=
  match l with
  | c :: ((c' :: _) as r) => negb (isHyphen c && isHyphen c') && noDoubleHyphen r
  | _ => true
  end.

(** [Math.ceil(a / b)] for integers [a] and [b <> 0]. *)
Definition ceilDiv (a b : Z) : Z := - ((- a) / b).

Record Pagination := {
  pg_page : Z;
  pg_limit : Z;
  pg_total : Z;
  pg_pages : Z;
  pg_skip : Z;
  pg_hasNext : bool;
  pg_hasPrev : bool
}.

(** [getPagination] of src/utils/response.ts, lines 85-100. *)
Definition getPagination (page limit total : Z) : Pagination :=
  let currentPage := Z.max 1 page in
  let itemsPerPage := Z.min (Z.max 1 limit) 100 in
  let totalPages := ceilDiv total itemsPerPage in
  let skip := (currentPage - 1) * itemsPerPage in
  {| pg_page := currentPage;
     pg_limit := itemsPerPage;
     pg_total := total;
     pg_pages := totalPages;
     pg_skip := skip;
     pg_hasNext := currentPage <? totalPages;
     pg_hasPrev := 1 <? currentPage |}.

End Utils.

(* ===================================================================== *)
(** ** src/types/index.ts                                                 *)
(* ===================================================================== *)

Module Types.

(** An identifier, by the text that [toHexString] gives for it. *)
Definition ObjectId := string.

Inductive UserRole := USER | ADMIN | SUPER_ADMIN.

Definition UserRole_eqb (a b : UserRole) : bool :=
  match a, b with
  | USER, USER | ADMIN, ADMIN | SUPER_ADMIN, SUPER_ADMIN => true
  | _, _ => false
  end.

(** The order "user below admin below super_admin", used to say what
    lowering a role means. *)
Definition roleRank (r : UserRole) : Z :=
  match r with USER => 0 | ADMIN => 1 | SUPER_ADMIN => 2 end.

Inductive DecorStatus := ACTIVE | INACTIVE | OUT_OF_STOCK | DISCONTINUED.

Definition DecorStatus_eqb (a b : DecorStatus) : bool :=
  match a, b with
  | ACTIVE, ACTIVE | INACTIVE, INACTIVE
  | OUT_OF_STOCK, OUT_OF_STOCK | DISCONTINUED, DISCONTINUED => true
  | _, _ => false
  end.

(** [IAuthUser] without the registered JWT claims [iat] and [exp]. *)
Record IAuthUser := {
  au_id : ObjectId;
  au_email : string;
  au_role : UserRole
}.

(** [IUser]. *)
Record IUser := {
  u_firstName : string;
  u_lastName : string;
  u_email : string;
  u_phoneNumber : option string;
  u_password : string;
  u_role : UserRole;
  u_isActive : bool;
  u_emailVerified : bool;
  u_lastLogin : option Z;
  u_createdAt : Z;
  u_updatedAt : Z
}.

(** The response envelope [ApiResponse<T>] together with the HTTP status
    it is sent with. *)
Record Response (T : Type) := {
  res_status : Z;
  res_success : bool;
  res_message : string;
  res_data : option T
}.
Arguments res_status {T}.
Arguments res_success {T}.
Arguments res_message {T}.
Arguments res_data {T}.

(** [res.status(code).json(successResponse(message, data))]. *)
Definition successResponse {T} (code : Z) (message : string) (data : option T)
  : Response T :=
  {| res_status := code; res_success := true;
     res_message := message; res_data := data |}.

(** [res.status(code).json(errorResponse(message))]. *)
Definition errorResponse {T} (code : Z) (message : string) : Response T :=
  {| res_status := code; res_success := false;
     res_message := message; res_data := None |}.

End Types.

(* ===================================================================== *)
(** ** src/config/index.ts (src/unnamed/part_002)                         *)
(* ===================================================================== *)

Module Config.

(** The variables of [process.env] the modelled code reads. *)
Record Env := {
  env_JWT_SECRET : option string;
  env_JWT_EXPIRE : option string;
  env_JWT_REFRESH_SECRET : option string
}.

(** A string option in a boolean position: [undefined] and the empty
    string are falsy. *)
Definition truthy (v : option string) : bool :=
  match v with
  | Some s => negb (String.eqb s "")
  | None => false
  end.

(** [v || d]. *)
Definition orElse (v : option string) (d : string) : string :=
  match v with
  | Some s => if String.eqb s "" then d else s
  | None => d
  end.

(** [JWT_SECRET: process.env.JWT_SECRET || "your-super-secret-jwt-key"]. *)
Definition JWT_SECRET (env : Env) : string :=
  orElse (env_JWT_SECRET env) "your-super-secret-jwt-key".

(** [JWT_EXPIRE: process.env.JWT_EXPIRE || "7d"]. *)
Definition JWT_EXPIRE (env : Env) : string :=
  orElse (env_JWT_EXPIRE env) "7d".

End Config.

(* ===================================================================== *)
(** ** The jsonwebtoken library, symbolically                             *)
(* ===================================================================== *)

(** A signed token is its payload, its [iat] and [exp] claims (seconds) and
    the key it was signed with: a signature verifies under a key exactly when
    it was made with that key.  A string that is no token of this form is
    [Malformed]. *)
Module Jwt.
Import Types.

Record Signed := {
  jwt_payload : IAuthUser;
  jwt_iat : Z;
  jwt_exp : Z;
  jwt_key : string
}.

Inductive Token :=
| Malformed (raw : string)
| Wellformed (t : Signed).

Definition digitValue (c : ascii) : option Z :=
  if Chars.isDigit c then Some (Z.of_N (Chars.code c) - 48) else None.

Definition unitSeconds (c : ascii) : option Z :=
  if Ascii.eqb c "s" then Some 1
  else if Ascii.eqb c "m" then Some 60
  else if Ascii.eqb c "h" then Some 3600
  else if Ascii.eqb c "d" then Some 86400
  else if Ascii.eqb c "w" then Some 604800
  else None.

(** The time spans of the [ms] package that the code base uses: a decimal
    number followed by one of the units s, m, h, d, w, in seconds.  Other
    spellings are outside the model and read as invalid. *)
Fixpoint timespanFrom (acc : Z) (seen : bool) (s : string) : option Z :=
  match s with
  | EmptyString => None
  | String c rest =>
      match digitValue c with
      | Some d => timespanFrom (10 * acc + d) true rest
      | None =>
          match unitSeconds c, rest with
          | Some u, EmptyString => if seen then Some (acc * u) else None
          | _, _ => None
          end
      end
  end.

Definition timespan (s : string) : option Z := timespanFrom 0 false s.

(** [jwt.sign(payload, secret, { expiresIn })] at time [now]; [None] is a
    thrown error. *)
Definition sign (payload : IAuthUser) (secret : string) (expiresIn : string)
    (now : Z) : option Token :=
  match timespan expiresIn with
  | Some span =>
      Some (Wellformed {| jwt_payload := payload; jwt_iat := now;
                          jwt_exp := now + span; jwt_key := secret |})
  | None => None
  end.

(** [jwt.verify(token, secret)] at time [now]; [None] is a thrown error:
    no secret, a malformed token, a signature made with another key, or
    [now >= exp]. *)
Definition verify (token : Token) (secret : option string) (now : Z)
  : option Signed :=
  match secret, token with
  | Some key, Wellformed t =>
      if negb (String.eqb key "") && String.eqb (jwt_key t) key
         && (now <? jwt_exp t)
      then Some t else None
  | _, _ => None
  end.

End Jwt.

(* ===================================================================== *)
(** ** src/utils/auth.ts                                                  *)
(* ===================================================================== *)

Module AuthUtils.
Import Types Config.

(** [generateTokens], lines 42-63; [None] is a thrown error. *)
Definition generateTokens (env : Env) (now : Z) (payload : IAuthUser)
  : option (Jwt.Token * Jwt.Token) :=
  if negb (truthy (Some (JWT_SECRET env))) then None
  else
    match Jwt.sign payload (JWT_SECRET env) (orElse (Some (JWT_EXPIRE env)) "24h") now,
          Jwt.sign payload (JWT_SECRET env) "7d" now with
    | Some accessToken, Some refreshToken => Some (accessToken, refreshToken)
    | _, _ => None
    end.

(** [verifyToken], lines 68-74. *)
Definition verifyToken (env : Env) (now : Z) (token : Jwt.Token)
  : option Jwt.Signed :=
  if negb (truthy (Some (JWT_SECRET env))) then None
  else Jwt.verify token (Some (JWT_SECRET env)) now.

End AuthUtils.

(* ===================================================================== *)
(** ** The document store                                                 *)
(* ===================================================================== *)

(** The three collections, keyed by [_id].  Prices and other numbers that
    need not be integers are rationals; dates are seconds. *)
Module Store.
Import Types.

Definition user_with_firstName (v : string) (u : IUser) : IUser :=
  {| u_firstName := v; u_lastName := u_lastName u; u_email := u_email u;
     u_phoneNumber := u_phoneNumber u; u_password := u_password u;
     u_role := u_role u; u_isActive := u_isActive u;
     u_emailVerified := u_emailVerified u; u_lastLogin := u_lastLogin u;
     u_createdAt := u_createdAt u; u_updatedAt := u_updatedAt u |}.
Definition user_with_lastName (v : string) (u : IUser) : IUser :=
  {| u_firstName := u_firstName u; u_lastName := v; u_email := u_email u;
     u_phoneNumber := u_phoneNumber u; u_password := u_password u;
     u_role := u_role u; u_isActive := u_isActive u;
     u_emailVerified := u_emailVerified u; u_lastLogin := u_lastLogin u;
     u_createdAt := u_createdAt u; u_updatedAt := u_updatedAt u |}.
Definition user_with_role (v : UserRole) (u : IUser) : IUser :=
  {| u_firstName := u_firstName u; u_lastName := u_lastName u;
     u_email := u_email u; u_phoneNumber := u_phoneNumber u;
     u_password := u_password u; u_role := v; u_isActive := u_isActive u;
     u_emailVerified := u_emailVerified u; u_lastLogin := u_lastLogin u;
     u_createdAt := u_createdAt u; u_updatedAt := u_updatedAt u |}.
Definition user_with_isActive (v : bool) (u : IUser) : IUser :=
  {| u_firstName := u_firstName u; u_lastName := u_lastName u;
     u_email := u_email u; u_phoneNumber := u_phoneNumber u;
     u_password := u_password u; u_role := u_role u; u_isActive := v;
     u_emailVerified := u_emailVerified u; u_lastLogin := u_lastLogin u;
     u_createdAt := u_createdAt u; u_updatedAt := u_updatedAt u |}.
Definition user_with_lastLogin (v : option Z) (u : IUser) : IUser :=
  {| u_firstName := u_firstName u; u_lastName := u_lastName u;
     u_email := u_email u; u_phoneNumber := u_phoneNumber u;
     u_password := u_password u; u_role := u_role u;
     u_isActive := u_isActive u; u_emailVerified := u_emailVerified u;
     u_lastLogin := v; u_createdAt := u_createdAt u;
     u_updatedAt := u_updatedAt u |}.
Definition user_with_updatedAt (v : Z) (u : IUser) : IUser :=
  {| u_firstName := u_firstName u; u_lastName := u_lastName u;
     u_email := u_email u; u_phoneNumber := u_phoneNumber u;
     u_password := u_password u; u_role := u_role u;
     u_isActive := u_isActive u; u_emailVerified := u_emailVerified u;
     u_lastLogin := u_lastLogin u; u_createdAt := u_createdAt u;
     u_updatedAt := v |}.

Record Category := {
  c_name : string;
  c_slug : option string;
  c_description : option string;
  c_icon : option string;
  c_isActive : bool;
  c_decorCount : Z;
  c_createdBy : ObjectId;
  c_createdAt : Z;
  c_updatedAt : Z
}.

Definition category_with_slug (v : option string) (c : Category) : Category :=
  {| c_name := c_name c; c_slug := v; c_description := c_description c;
     c_icon := c_icon c; c_isActive := c_isActive c;
     c_decorCount := c_decorCount c; c_createdBy := c_createdBy c;
     c_createdAt := c_createdAt c; c_updatedAt := c_updatedAt c |}.
Definition category_with_decorCount (v : Z) (c : Category) : Category :=
  {| c_name := c_name c; c_slug := c_slug c;
     c_description := c_description c; c_icon := c_icon c;
     c_isActive := c_isActive c; c_decorCount := v;
     c_createdBy := c_createdBy c; c_createdAt := c_createdAt c;
     c_updatedAt := c_updatedAt c |}.
Definition category_with_createdAt (v : Z) (c : Category) : Category :=
  {| c_name := c_name c; c_slug := c_slug c;
     c_description := c_description c; c_icon := c_icon c;
     c_isActive := c_isActive c; c_decorCount := c_decorCount c;
     c_createdBy := c_createdBy c; c_createdAt := v;
     c_updatedAt := c_updatedAt c |}.
Definition category_with_updatedAt (v : Z) (c : Category) : Category :=
  {| c_name := c_name c; c_slug := c_slug c;
     c_description := c_description c; c_icon := c_icon c;
     c_isActive := c_isActive c; c_decorCount := c_decorCount c;
     c_createdBy := c_createdBy c; c_createdAt := c_createdAt c;
     c_updatedAt := v |}.

Record Dimensions := {
  dim_length : option Q;
  dim_width : option Q;
  dim_height : option Q;
  dim_weight : option Q
}.

Record Rating := { rating_average : Q; rating_count : Z }.

Record Decor := {
  d_name : string;
  d_slug : option string;
  d_description : string;
  d_category : ObjectId;
  d_price : Q;
  d_originalPrice : option Q;
  d_stock : Z;
  d_status : DecorStatus;
  d_featured : bool;
  d_images : list string;
  d_tags : list string;
  d_materials : list string;
  d_dimensions : option Dimensions;
  d_careInstructions : option string;
  d_rating : Rating;
  d_views : Z;
  d_salesCount : Z;
  d_createdBy : ObjectId;
  d_createdAt : Z;
  d_updatedAt : Z
}.

(** Functional updates of one field. *)
Definition decor_with_name (v : string) (d : Decor) : Decor :=
  {| d_name := v; d_slug := d_slug d; d_description := d_description d;
     d_category := d_category d; d_price := d_price d;
     d_originalPrice := d_originalPrice d; d_stock := d_stock d;
     d_status := d_status d; d_featured := d_featured d;
     d_images := d_images d; d_tags := d_tags d;
     d_materials := d_materials d; d_dimensions := d_dimensions d;
     d_careInstructions := d_careInstructions d; d_rating := d_rating d;
     d_views := d_views d; d_salesCount := d_salesCount d;
     d_createdBy := d_createdBy d; d_createdAt := d_createdAt d;
     d_updatedAt := d_updatedAt d |}.
Definition decor_with_slug (v : option string) (d : Decor) : Decor :=
  {| d_name := d_name d; d_slug := v; d_description := d_description d;
     d_category := d_category d; d_price := d_price d;
     d_originalPrice := d_originalPrice d; d_stock := d_stock d;
     d_status := d_status d; d_featured := d_featured d;
     d_images := d_images d; d_tags := d_tags d;
     d_materials := d_materials d; d_dimensions := d_dimensions d;
     d_careInstructions := d_careInstructions d; d_rating := d_rating d;
     d_views := d_views d; d_salesCount := d_salesCount d;
     d_createdBy := d_createdBy d; d_createdAt := d_createdAt d;
     d_updatedAt := d_updatedAt d |}.
Definition decor_with_category (v : ObjectId) (d : Decor) : Decor :=
  {| d_name := d_name d; d_slug := d_slug d;
     d_description := d_description d; d_category := v;
     d_price := d_price d; d_originalPrice := d_originalPrice d;
     d_stock := d_stock d; d_status := d_status d;
     d_featured := d_featured d; d_images := d_images d;
     d_tags := d_tags d; d_materials := d_materials d;
     d_dimensions := d_dimensions d;
     d_careInstructions := d_careInstructions d; d_rating := d_rating d;
     d_views := d_views d; d_salesCount := d_salesCount d;
     d_createdBy := d_createdBy d; d_createdAt := d_createdAt d;
     d_updatedAt := d_updatedAt d |}.
Definition decor_with_price (v : Q) (d : Decor) : Decor :=
  {| d_name := d_name d; d_slug := d_slug d;
     d_description := d_description d; d_category := d_category d;
     d_price := v; d_originalPrice := d_originalPrice d;
     d_stock := d_stock d; d_status := d_status d;
     d_featured := d_featured d; d_images := d_images d;
     d_tags := d_tags d; d_materials := d_materials d;
     d_dimensions := d_dimensions d;
     d_careInstructions := d_careInstructions d; d_rating := d_rating d;
     d_views := d_views d; d_salesCount := d_salesCount d;
     d_createdBy := d_createdBy d; d_createdAt := d_createdAt d;
     d_updatedAt := d_updatedAt d |}.
Definition decor_with_originalPrice (v : option Q) (d : Decor) : Decor :=
  {| d_name := d_name d; d_slug := d_slug d;
     d_description := d_description d; d_category := d_category d;
     d_price := d_price d; d_originalPrice := v; d_stock := d_stock d;
     d_status := d_status d; d_featured := d_featured d;
     d_images := d_images d; d_tags := d_tags d;
     d_materials := d_materials d; d_dimensions := d_dimensions d;
     d_careInstructions := d_careInstructions d; d_rating := d_rating d;
     d_views := d_views d; d_salesCount := d_salesCount d;
     d_createdBy := d_createdBy d; d_createdAt := d_createdAt d;
     d_updatedAt := d_updatedAt d |}.
Definition decor_with_stock (v : Z) (d : Decor) : Decor :=
  {| d_name := d_name d; d_slug := d_slug d;
     d_description := d_description d; d_category := d_category d;
     d_price := d_price d; d_originalPrice := d_originalPrice d;
     d_stock := v; d_status := d_status d; d_featured := d_featured d;
     d_images := d_images d; d_tags := d_tags d;
     d_materials := d_materials d; d_dimensions := d_dimensions d;
     d_careInstructions := d_careInstructions d; d_rating := d_rating d;
     d_views := d_views d; d_salesCount := d_salesCount d;
     d_createdBy := d_createdBy d; d_createdAt := d_createdAt d;
     d_updatedAt := d_updatedAt d |}.
Definition decor_with_status (v : DecorStatus) (d : Decor) : Decor :=
  {| d_name := d_name d; d_slug := d_slug d;
     d_description := d_description d; d_category := d_category d;
     d_price := d_price d; d_originalPrice := d_originalPrice d;
     d_stock := d_stock d; d_status := v; d_featured := d_featured d;
     d_images := d_images d; d_tags := d_tags d;
     d_materials := d_materials d; d_dimensions := d_dimensions d;
     d_careInstructions := d_careInstructions d; d_rating := d_rating d;
     d_views := d_views d; d_salesCount := d_salesCount d;
     d_createdBy := d_createdBy d; d_createdAt := d_createdAt d;
     d_updatedAt := d_updatedAt d |}.
Definition decor_with_createdAt (v : Z) (d : Decor) : Decor :=
  {| d_name := d_name d; d_slug := d_slug d;
     d_description := d_description d; d_category := d_category d;
     d_price := d_price d; d_originalPrice := d_originalPrice d;
     d_stock := d_stock d; d_status := d_status d;
     d_featured := d_featured d; d_images := d_images d;
     d_tags := d_tags d; d_materials := d_materials d;
     d_dimensions := d_dimensions d;
     d_careInstructions := d_careInstructions d; d_rating := d_rating d;
     d_views := d_views d; d_salesCount := d_salesCount d;
     d_createdBy := d_createdBy d; d_createdAt := v;
     d_updatedAt := d_updatedAt d |}.
Definition decor_with_updatedAt (v : Z) (d : Decor) : Decor :=
  {| d_name := d_name d; d_slug := d_slug d;
     d_description := d_description d; d_category := d_category d;
     d_price := d_price d; d_originalPrice := d_originalPrice d;
     d_stock := d_stock d; d_status := d_status d;
     d_featured := d_featured d; d_images := d_images d;
     d_tags := d_tags d; d_materials := d_materials d;
     d_dimensions := d_dimensions d;
     d_careInstructions := d_careInstructions d; d_rating := d_rating d;
     d_views := d_views d; d_salesCount := d_salesCount d;
     d_createdBy := d_createdBy d; d_createdAt := d_createdAt d;
     d_updatedAt := v |}.

Record Db := {
  db_users : gmap string IUser;
  db_categories : gmap string Category;
  db_decors : gmap string Decor
}.

Definition with_users (m : gmap string IUser) (db : Db) : Db :=
  {| db_users := m; db_categories := db_categories db;
     db_decors := db_decors db |}.
Definition with_categories (m : gmap string Category) (db : Db) : Db :=
  {| db_users := db_users db; db_categories := m;
     db_decors := db_decors db |}.
Definition with_decors (m : gmap string Decor) (db : Db) : Db :=
  {| db_users := db_users db; db_categories := db_categories db;
     db_decors := m |}.

End Store.

(* ===================================================================== *)
(** ** Mongoose documents                                                 *)
(* ===================================================================== *)

(** A document in memory: its fields, whether it has never been stored, and
    the paths assigned since it was loaded or constructed. *)
Module Mongoose.
Import Types.

Section Documents.
Context {F P : Type} `{EqDecision P}.

Record Document := {
  doc_id : ObjectId;
  doc_fields : F;
  doc_isNew : bool;
  doc_modified : list P
}.

(** [doc.isModified(path)]. *)
Definition isModified (p : P) (d : Document) : bool :=
  bool_decide (p ∈ doc_modified d).

(** [doc.isModified()]. *)
Definition anyModified (d : Document) : bool :=
  match doc_modified d with [] => false | _ => true end.

(** [doc.path = value], after the schema setter has produced the fields
    [f']: the path becomes modified when the document is new, when the
    path is modified already, or when the value differs ([changed]). *)
Definition assign (p : P) (changed : bool) (f' : F) (d : Document)
  : Document :=
  {| doc_id := doc_id d;
     doc_fields := f';
     doc_isNew := doc_isNew d;
     doc_modified :=
       if isModified p d then doc_modified d
       else if doc_isNew d || changed then p :: doc_modified d
            else doc_modified d |}.

(** A document as [Model.findById] returns it. *)
Definition hydrate (id : ObjectId) (f : F) : Document :=
  {| doc_id := id; doc_fields := f; doc_isNew := false;
     doc_modified := [] |}.

(** [new Model(values)]: the paths given to the constructor are
    modified, the defaults are not. *)
Definition construct (id : ObjectId) (f : F) (given : list P) : Document :=
  {| doc_id := id; doc_fields := f; doc_isNew := true;
     doc_modified := given |}.

(** What [save] leaves once the write has succeeded, and what the post
    hooks therefore see: [isNew] is false and no path is modified. *)
Definition reset (d : Document) : Document :=
  {| doc_id := doc_id d; doc_fields := doc_fields d; doc_isNew := false;
     doc_modified := [] |}.

Definition with_fields (f : F) (d : Document) : Document :=
  {| doc_id := doc_id d; doc_fields := f; doc_isNew := doc_isNew d;
     doc_modified := doc_modified d |}.
End Documents.
Arguments Document : clear implicits.

End Mongoose.

(* ===================================================================== *)
(** ** src/models/Category.ts (src/unnamed/part_001)                      *)
(* ===================================================================== *)

Module CategoryModel.
Import Types Store Mongoose Utils.

Inductive Path :=
| P_name | P_slug | P_description | P_icon | P_isActive | P_decorCount
| P_createdBy.

#[global] Instance CategoryPath_eq_dec : EqDecision Path.
Proof. solve_decision. Defined.

Abbreviation CategoryDoc := (Document Category Path).

(** The schema setter [lowercase: true] of [slug]. *)
Definition lowerString (s : string) : string :=
  string_of_list_ascii (toLowerCase (list_ascii_of_string s)).

(** The schema setter [trim: true] of [name]. *)
Definition trimString (s : string) : string :=
  string_of_list_ascii (trim (list_ascii_of_string s)).

Definition optString_eqb (a b : option string) : bool :=
  match a, b with
  | Some x, Some y => String.eqb x y
  | None, None => true
  | _, _ => false
  end.

(** [this.slug = v]. *)
Definition set_slug (v : string) (d : CategoryDoc) : CategoryDoc :=
  let v' := lowerString v in
  assign P_slug (negb (optString_eqb (Some v') (c_slug (doc_fields d))))
         (category_with_slug (Some v') (doc_fields d)) d.

(** [categorySchema.pre("save")], lines 54-58 of the model. *)
Definition preSave (d : CategoryDoc) : CategoryDoc :=
  if isModified P_name d
  then set_slug (generateSlug (c_name (doc_fields d))) d
  else d.

Definition maxLength (n : nat) (s : option string) : bool :=
  match s with
  | Some v => Nat.leb (String.length v) n
  | None => true
  end.

(** The validators of the schema. *)
Definition validate (c : Category) : bool :=
  negb (String.eqb (c_name c) "")
  && Nat.leb (String.length (c_name c)) 100
  && maxLength 500 (c_description c)
  && negb (String.eqb (c_createdBy c) "").

(** The option [timestamps: true]. *)
Definition timestamps (now : Z) (d : CategoryDoc) : CategoryDoc :=
  if doc_isNew d
  then with_fields
         (category_with_updatedAt now (category_with_createdAt now (doc_fields d))) d
  else if anyModified d
       then with_fields (category_with_updatedAt now (doc_fields d)) d
       else d.

(** The unique index on [slug]: is the slug held by another document? *)
Definition slugTaken (db : Db) (id : ObjectId) (slug : option string) : bool :=
  existsb (fun kv => negb (String.eqb (fst kv) id)
                     && optString_eqb (c_slug (snd kv)) slug)
          (map_to_list (db_categories db)).

(** [doc.save()]: validation, the pre hooks, the write; [None] is a thrown
    error and leaves the store as it was. *)
Definition save (now : Z) (d : CategoryDoc) (db : Db)
  : Db * option CategoryDoc :=
  if negb (validate (doc_fields d)) then (db, None)
  else
    let d' := preSave (timestamps now d) in
    let present := bool_decide (is_Some (db_categories db !! doc_id d)) in
    if slugTaken db (doc_id d) (c_slug (doc_fields d'))
       || (if doc_isNew d' then present else negb present)
    then (db, None)
    else
      (with_categories (<[doc_id d' := doc_fields d']> (db_categories db)) db,
       Some (reset d')).

(** [Category.findByIdAndUpdate(id, { $inc: { decorCount: n } })]; a
    missing category is left missing. *)
Definition incDecorCount (now : Z) (id : ObjectId) (n : Z) (db : Db) : Db :=
  with_categories
    (alter (fun c => category_with_updatedAt now
                       (category_with_decorCount (c_decorCount c + n) c))
           id (db_categories db)) db.

End CategoryModel.

(* ===================================================================== *)
(** ** src/models/Decor.ts                                                *)
(* ===================================================================== *)

Module DecorModel.
Import Types Store Mongoose Utils.

Inductive Path :=
| P_name | P_slug | P_description | P_category | P_price | P_originalPrice
| P_stock | P_status | P_featured | P_images | P_tags | P_materials
| P_dimensions | P_careInstructions | P_rating | P_views | P_salesCount
| P_createdBy.

#[global] Instance DecorPath_eq_dec : EqDecision Path.
Proof. solve_decision. Defined.

Abbreviation DecorDoc := (Document Decor Path).

(** [Math.round(val * 100) / 100], in exact arithmetic. *)
Definition round2 (val : Q) : Q :=
  (inject_Z (Qfloor (val * inject_Z 100 + (1 # 2))) / inject_Z 100)%Q.

(** A number in a boolean position: zero is falsy. *)
Definition Qtruthy (q : Q) : bool := negb (Qeq_bool q 0).

Definition optQ_eqb (a b : option Q) : bool :=
  match a, b with
  | Some x, Some y => Qeq_bool x y
  | None, None => true
  | _, _ => false
  end.

(** *** Assignments, through the schema setters *)

(** [this.name = v] ([trim: true]). *)
Definition set_name (v : string) (d : DecorDoc) : DecorDoc :=
  let v' := CategoryModel.trimString v in
  assign P_name (negb (String.eqb v' (d_name (doc_fields d))))
         (decor_with_name v' (doc_fields d)) d.

(** [this.slug = v] ([lowercase: true]). *)
Definition set_slug (v : string) (d : DecorDoc) : DecorDoc :=
  let v' := CategoryModel.lowerString v in
  assign P_slug
         (negb (CategoryModel.optString_eqb (Some v') (d_slug (doc_fields d))))
         (decor_with_slug (Some v') (doc_fields d)) d.

(** [this.category = v]. *)
Definition set_category (v : ObjectId) (d : DecorDoc) : DecorDoc :=
  assign P_category (negb (String.eqb v (d_category (doc_fields d))))
         (decor_with_category v (doc_fields d)) d.

(** [this.price = v] ([set: val => Math.round(val * 100) / 100]). *)
Definition set_price (v : Q) (d : DecorDoc) : DecorDoc :=
  let v' := round2 v in
  assign P_price (negb (Qeq_bool v' (d_price (doc_fields d))))
         (decor_with_price v' (doc_fields d)) d.

(** The setter of [originalPrice]:
    [val => (val ? Math.round(val * 100) / 100 : val)]. *)
Definition originalPrice_setter (v : option Q) : option Q :=
  match v with
  | Some q => if Qtruthy q then Some (round2 q) else Some q
  | None => None
  end.

(** [this.originalPrice = v]; [None] is [undefined]. *)
Definition set_originalPrice (v : option Q) (d : DecorDoc) : DecorDoc :=
  let v' := originalPrice_setter v in
  assign P_originalPrice
         (negb (optQ_eqb v' (d_originalPrice (doc_fields d))))
         (decor_with_originalPrice v' (doc_fields d)) d.

(** [this.stock = v]. *)
Definition set_stock (v : Z) (d : DecorDoc) : DecorDoc :=
  assign P_stock (negb (v =? d_stock (doc_fields d)))
         (decor_with_stock v (doc_fields d)) d.

(** [this.status = v]. *)
Definition set_status (v : DecorStatus) (d : DecorDoc) : DecorDoc :=
  assign P_status (negb (DecorStatus_eqb v (d_status (doc_fields d))))
         (decor_with_status v (doc_fields d)) d.

(** *** [decorSchema.pre("save")], lines 196-216 *)

(** Generate slug from name. *)
Definition preSave_slug (d : DecorDoc) : DecorDoc :=
  if isModified P_name d
  then set_slug (generateSlug (d_name (doc_fields d))) d
  else d.

(** Auto-update status based on stock. *)
Definition preSave_status (d : DecorDoc) : DecorDoc :=
  if isModified P_stock d then
    if (d_stock (doc_fields d) =? 0)
       && negb (DecorStatus_eqb (d_status (doc_fields d)) DISCONTINUED)
    then set_status OUT_OF_STOCK d
    else if (0 <? d_stock (doc_fields d))
            && DecorStatus_eqb (d_status (doc_fields d)) OUT_OF_STOCK
         then set_status ACTIVE d
         else d
  else d.

(** [this.originalPrice && this.price >= this.originalPrice]. *)
Definition originalPriceNotAbovePrice (f : Decor) : bool :=
  match d_originalPrice f with
  | Some o => Qtruthy o && Qle_bool o (d_price f)
  | None => false
  end.

(** Ensure price is always lower than originalPrice if set. *)
Definition preSave_originalPrice (d : DecorDoc) : DecorDoc :=
  if originalPriceNotAbovePrice (doc_fields d)
  then set_originalPrice None d
  else d.

Definition preSave (d : DecorDoc) : DecorDoc :=
  preSave_originalPrice (preSave_status (preSave_slug d)).

(** *** The validators of the schema *)

Definition minZero (q : option Q) : bool :=
  match q with
  | Some v => Qle_bool 0 v
  | None => true
  end.

Definition validDimensions (o : option Dimensions) : bool :=
  match o with
  | Some x => minZero (dim_length x) && minZero (dim_width x)
              && minZero (dim_height x) && minZero (dim_weight x)
  | None => true
  end.

Definition validate (f : Decor) : bool :=
  negb (String.eqb (d_name f) "")
  && Nat.leb (String.length (d_name f)) 200
  && negb (String.eqb (d_description f) "")
  && Nat.leb (String.length (d_description f)) 2000
  && negb (String.eqb (d_category f) "")
  && Qle_bool 0 (d_price f)
  && minZero (d_originalPrice f)
  && (0 <=? d_stock f)
  && Nat.leb (length (d_images f)) 10
  && Nat.leb (length (d_tags f)) 20
  && Nat.ltb 0 (length (d_materials f))
  && Nat.leb (length (d_materials f)) 15
  && validDimensions (d_dimensions f)
  && CategoryModel.maxLength 1000 (d_careInstructions f)
  && Qle_bool 0 (rating_average (d_rating f))
  && Qle_bool (rating_average (d_rating f)) (inject_Z 5)
  && (0 <=? rating_count (d_rating f))
  && (0 <=? d_views f)
  && (0 <=? d_salesCount f)
  && negb (String.eqb (d_createdBy f) "").

(** The option [timestamps: true]. *)
Definition timestamps (now : Z) (d : DecorDoc) : DecorDoc :=
  if doc_isNew d
  then with_fields
         (decor_with_updatedAt now (decor_with_createdAt now (doc_fields d))) d
  else if anyModified d
       then with_fields (decor_with_updatedAt now (doc_fields d)) d
       else d.

(** The unique index on [slug]: is the slug held by another document? *)
Definition slugTaken (db : Db) (id : ObjectId) (slug : option string) : bool :=
  existsb (fun kv => negb (String.eqb (fst kv) id)
                     && CategoryModel.optString_eqb (d_slug (snd kv)) slug)
          (map_to_list (db_decors db)).

(** [decorSchema.post("save")], lines 218-226: it runs on the document as
    the successful write has left it. *)
Definition postSave (now : Z) (d : DecorDoc) (db : Db) : Db :=
  if isModified P_category d || doc_isNew d
  then CategoryModel.incDecorCount now (d_category (doc_fields d)) 1 db
  else db.

(** [decorSchema.post("deleteOne", { document: true, query: false })],
    lines 228-238. *)
Definition postDeleteOne (now : Z) (d : DecorDoc) (db : Db) : Db :=
  CategoryModel.incDecorCount now (d_category (doc_fields d)) (-1) db.

(** [doc.save()]: the validators, then the pre hooks in the order of their
    registration (time stamps, then the hook of the schema), the write,
    and the post hook on the document after [reset].  [None] is a thrown
    error and leaves the store as it was.  The document is one that was
    constructed, or loaded and changed, within the request, so replacing
    the stored document and updating its modified paths coincide. *)
Definition save (now : Z) (d : DecorDoc) (db : Db) : Db * option DecorDoc :=
  if negb (validate (doc_fields d)) then (db, None)
  else
    let d' := preSave (timestamps now d) in
    let present := bool_decide (is_Some (db_decors db !! doc_id d)) in
    if slugTaken db (doc_id d) (d_slug (doc_fields d'))
       || (if doc_isNew d' then present else negb present)
    then (db, None)
    else
      let saved := reset d' in
      (postSave now saved
         (with_decors (<[doc_id d' := doc_fields d']> (db_decors db)) db),
       Some saved).

(** [Decor.findById(id)]. *)
Definition findById (id : ObjectId) (db : Db) : option DecorDoc :=
  hydrate id <$> db_decors db !! id.

(** [doc.deleteOne()]: document middleware runs. *)
Definition deleteOne (now : Z) (d : DecorDoc) (db : Db) : Db :=
  postDeleteOne now d (with_decors (delete (doc_id d) (db_decors db)) db).

(** [Decor.findByIdAndDelete(id)]: a query ([findOneAndDelete]); the
    schema registers no query middleware, and document middleware does
    not run for queries. *)
Definition findByIdAndDelete (id : ObjectId) (db : Db) : Db :=
  with_decors (delete id (db_decors db)) db.

End DecorModel.

(* ===================================================================== *)
(** ** src/controllers/decorController.ts                                 *)
(* ===================================================================== *)

Module DecorController.
Import Types Store Mongoose DecorModel.

(** A numeric field of [req.body]: text of a multipart form, which is
    truthy whenever it is not empty, or a JSON number, which is truthy
    unless it is zero.  [raw_value] is [Number(field)]. *)
Inductive Raw (A : Type) :=
| FormText (raw_value : A)
| JsonNumber (raw_value : A).
Arguments FormText {A}.
Arguments JsonNumber {A}.

Definition raw_value {A} (r : Raw A) : A :=
  match r with FormText v | JsonNumber v => v end.

Definition raw_truthy {A} (isZero : A -> bool) (r : Raw A) : bool :=
  match r with
  | FormText _ => true
  | JsonNumber v => negb (isZero v)
  end.

(** The body of [POST /decors], after the JSON fields of a form have been
    parsed. *)
Record CreateDecorBody := {
  body_name : string;
  body_description : string;
  body_category : ObjectId;
  body_price : Raw Q;
  body_originalPrice : option (Raw Q);
  body_stock : Raw Z;
  body_featured : bool;
  body_tags : list string;
  body_materials : list string;
  body_careInstructions : option string;
  body_dimensions : option Dimensions
}.

(** [originalPrice ? Number(originalPrice) : undefined]. *)
Definition originalPriceOf (o : option (Raw Q)) : option Q :=
  match o with
  | Some r => if raw_truthy (fun q => Qeq_bool q 0) r
              then Some (raw_value r) else None
  | None => None
  end.

(** [new Decor({ ... })] of lines 73-87: the fields given to the
    constructor pass through the setters of the schema; status, rating and
    the counters take their defaults. *)
Definition newDecor (id : ObjectId) (createdBy : ObjectId)
    (images : list string) (b : CreateDecorBody) : DecorDoc :=
  let originalPrice := originalPrice_setter (originalPriceOf (body_originalPrice b)) in
  construct id
    {| d_name := CategoryModel.trimString (body_name b);
       d_slug := None;
       d_description := CategoryModel.trimString (body_description b);
       d_category := body_category b;
       d_price := round2 (raw_value (body_price b));
       d_originalPrice := originalPrice;
       d_stock := raw_value (body_stock b);
       d_status := ACTIVE;
       d_featured := body_featured b;
       d_images := images;
       d_tags := body_tags b;
       d_materials := body_materials b;
       d_dimensions := body_dimensions b;
       d_careInstructions :=
         CategoryModel.trimString <$> body_careInstructions b;
       d_rating := {| rating_average := 0; rating_count := 0 |};
       d_views := 0;
       d_salesCount := 0;
       d_createdBy := createdBy;
       d_createdAt := 0;
       d_updatedAt := 0 |}
    ([P_name; P_description; P_category; P_price]
       ++ match originalPrice with Some _ => [P_originalPrice] | None => [] end
       ++ [P_stock; P_featured; P_tags; P_materials]
       ++ match body_careInstructions b with
          | Some _ => [P_careInstructions] | None => [] end
       ++ match body_dimensions b with
          | Some _ => [P_dimensions] | None => [] end
       ++ [P_images; P_createdBy]).

(** [createDecor], lines 11-103, for a request without files; [newId] is
    the identifier the driver draws for the new document. *)
Definition createDecor (now : Z) (newId : ObjectId) (createdBy : ObjectId)
    (b : CreateDecorBody) (db : Db) : Db * Response Decor :=
  match db_categories db !! body_category b with
  | None => (db, errorResponse 400 "Invalid category")
  | Some _ =>
      match save now (newDecor newId createdBy [] b) db with
      | (db', Some _) =>
          (db', successResponse 201 "Decor created successfully"
                  (db_decors db' !! newId))
      | (db', None) => (db', errorResponse 500 "Internal server error")
      end
  end.

(** [deleteDecor], lines 203-229; the images live on the external asset
    host and are not part of the store. *)
Definition deleteDecor (id : ObjectId) (db : Db) : Db * Response unit :=
  match findById id db with
  | None => (db, errorResponse 404 "Decor not found")
  | Some _ =>
      (findByIdAndDelete id db,
       successResponse 200 "Decor deleted successfully" None)
  end.

(** What [updateStock] answers with. *)
Record StockData := {
  sd_id : ObjectId;
  sd_stock : Z;
  sd_status : DecorStatus
}.

(** [updateStock], lines 457-493. *)
Definition updateStock (now : Z) (id : ObjectId) (stock : Z) (db : Db)
  : Db * Response StockData :=
  match findById id db with
  | None => (db, errorResponse 404 "Decor not found")
  | Some decor =>
      let decor := set_stock stock decor in
      let decor :=
        if stock =? 0 then set_status OUT_OF_STOCK decor
        else if DecorStatus_eqb (d_status (doc_fields decor)) OUT_OF_STOCK
             then set_status ACTIVE decor
             else decor in
      match save now decor db with
      | (db', Some saved) =>
          (db', successResponse 200 "Stock updated successfully"
                  (Some {| sd_id := doc_id saved;
                           sd_stock := d_stock (doc_fields saved);
                           sd_status := d_status (doc_fields saved) |}))
      | (db', None) => (db', errorResponse 500 "Internal server error")
      end
  end.

End DecorController.

(* ===================================================================== *)
(** ** The User model                                                     *)
(* ===================================================================== *)

Module UserModel.
Import Types Store.

(** Modelled from the spec: the User schema (src/models/User.ts is not
    among the sources).  The spec gives the entity its fields and its
    creation and update time stamps and names no hook; [save] stores the
    document and stamps it. *)
Definition save (now : Z) (id : ObjectId) (u : IUser) (db : Db) : Db :=
  with_users (<[id := user_with_updatedAt now u]> (db_users db)) db.

(** [User.findById(id)]. *)
Definition findById (id : ObjectId) (db : Db) : option IUser :=
  db_users db !! id.

(** [User.findOne({ email })]. *)
Definition findOneByEmail (email : string) (db : Db)
  : option (ObjectId * IUser) :=
  find (fun kv => String.eqb (u_email (snd kv)) email)
       (map_to_list (db_users db)).

(** [User.findByIdAndDelete(id)]. *)
Definition findByIdAndDelete (id : ObjectId) (db : Db) : Db :=
  with_users (delete id (db_users db)) db.

End UserModel.

(* ===================================================================== *)
(** ** src/controllers/userController.ts                                  *)
(* ===================================================================== *)

(** The data of an answer is the stored document; [select("-password")]
    leaves its password out of the JSON. *)
Module UserController.
Import Types Store.

(** The fields [updateUser] reads from [req.body]; [None] is
    [undefined]. *)
Record UpdateUserBody := {
  upd_firstName : option string;
  upd_lastName : option string;
  upd_role : option UserRole;
  upd_isActive : option bool
}.

(** [if (v !== undefined) user.field = v]. *)
Definition whenDefined {A} (v : option A) (set : A -> IUser -> IUser)
    (u : IUser) : IUser :=
  match v with
  | Some x => set x u
  | None => u
  end.

(** [updateUser], lines 99-130. *)
Definition updateUser (now : Z) (id : ObjectId) (b : UpdateUserBody)
    (db : Db) : Db * Response IUser :=
  match UserModel.findById id db with
  | None => (db, errorResponse 404 "User not found")
  | Some user =>
      let user := whenDefined (upd_firstName b) user_with_firstName user in
      let user := whenDefined (upd_lastName b) user_with_lastName user in
      let user := whenDefined (upd_role b) user_with_role user in
      let user := whenDefined (upd_isActive b) user_with_isActive user in
      let db' := UserModel.save now id user db in
      (db', successResponse 200 "User updated successfully"
              (UserModel.findById id db'))
  end.

(** [deleteUser], lines 135-161. *)
Definition deleteUser (id : ObjectId) (db : Db) : Db * Response unit :=
  match UserModel.findById id db with
  | None => (db, errorResponse 404 "User not found")
  | Some user =>
      if UserRole_eqb (u_role user) SUPER_ADMIN
      then (db, errorResponse 403 "Cannot delete super admin")
      else (UserModel.findByIdAndDelete id db,
            successResponse 200 "User deleted successfully" None)
  end.

(** [deactivateUser], lines 166-197. *)
Definition deactivateUser (now : Z) (id : ObjectId) (db : Db)
  : Db * Response IUser :=
  match UserModel.findById id db with
  | None => (db, errorResponse 404 "User not found")
  | Some user =>
      if UserRole_eqb (u_role user) SUPER_ADMIN
      then (db, errorResponse 403 "Cannot deactivate super admin")
      else
        let db' := UserModel.save now id (user_with_isActive false user) db in
        (db', successResponse 200 "User deactivated successfully"
                (UserModel.findById id db'))
  end.

(** [activateUser], lines 202-227. *)
Definition activateUser (now : Z) (id : ObjectId) (db : Db)
  : Db * Response IUser :=
  match UserModel.findById id db with
  | None => (db, errorResponse 404 "User not found")
  | Some user =>
      let db' := UserModel.save now id (user_with_isActive true user) db in
      (db', successResponse 200 "User activated successfully"
              (UserModel.findById id db'))
  end.

(** [promoteToAdmin], lines 272-304. *)
Definition promoteToAdmin (now : Z) (id : ObjectId) (db : Db)
  : Db * Response IUser :=
  match UserModel.findById id db with
  | None => (db, errorResponse 404 "User not found")
  | Some user =>
      if UserRole_eqb (u_role user) ADMIN
         || UserRole_eqb (u_role user) SUPER_ADMIN
      then (db, errorResponse 400 "User is already an admin")
      else
        let db' := UserModel.save now id (user_with_role ADMIN user) db in
        (db', successResponse 200 "User promoted to admin successfully"
                (UserModel.findById id db'))
  end.

(** [demoteFromAdmin], lines 309-346. *)
Definition demoteFromAdmin (now : Z) (id : ObjectId) (db : Db)
  : Db * Response IUser :=
  match UserModel.findById id db with
  | None => (db, errorResponse 404 "User not found")
  | Some user =>
      if UserRole_eqb (u_role user) SUPER_ADMIN
      then (db, errorResponse 403 "Cannot demote super admin")
      else if UserRole_eqb (u_role user) USER
      then (db, errorResponse 400 "User is not an admin")
      else
        let db' := UserModel.save now id (user_with_role USER user) db in
        (db', successResponse 200 "Admin demoted to user successfully"
                (UserModel.findById id db'))
  end.

End UserController.

(* ===================================================================== *)
(** ** src/middlewares/auth.ts                                            *)
(* ===================================================================== *)

Module AuthMiddleware.
Import Types Store.

(** The [Authorization] header as the middleware reads it: whether it
    starts with "Bearer", and its second space-separated part
    ([split(" ")[1]]), [None] when that part is undefined or empty. *)
Record AuthorizationHeader := {
  hdr_startsWithBearer : bool;
  hdr_second : option Jwt.Token
}.

Record Request := {
  req_authorization : option AuthorizationHeader;
  req_cookie_token : option Jwt.Token;
  req_cookie_refreshToken : option Jwt.Token
}.

(** What a middleware does: it answers, or it calls [next()]. *)
Inductive Outcome (A : Type) :=
| Respond (code : Z) (message : string)
| Next (context : A).
Arguments Respond {A}.
Arguments Next {A}.

(** Lines 16-24. *)
Definition extractToken (req : Request) : option Jwt.Token :=
  match req_authorization req with
  | Some h =>
      if hdr_startsWithBearer h then hdr_second h else req_cookie_token req
  | None => req_cookie_token req
  end.

(** [authenticate], lines 9-64; [Next user] attaches [req.user]. *)
Definition authenticate (env : Config.Env) (now : Z) (req : Request)
    (db : Db) : Outcome IAuthUser :=
  match extractToken req with
  | None => Respond 401 "Access denied. No token provided."
  | Some token =>
      match AuthUtils.verifyToken env now token with
      | None => Respond 401 "Access denied. Invalid token."
      | Some decoded =>
          let id := au_id (Jwt.jwt_payload decoded) in
          match UserModel.findById id db with
          | Some user =>
              if u_isActive user
              then Next {| au_id := id; au_email := u_email user;
                           au_role := u_role user |}
              else Respond 401 "Access denied. User not found or inactive."
          | None => Respond 401 "Access denied. User not found or inactive."
          end
      end
  end.

(** [authorize(...roles)], lines 69-91. *)
Definition authorize (roles : list UserRole) (user : option IAuthUser)
  : Outcome unit :=
  match user with
  | None => Respond 401 "Access denied. Please authenticate first."
  | Some u =>
      if existsb (UserRole_eqb (au_role u)) roles
      then Next tt
      else Respond 403
             "Access denied. You do not have permission to perform this action."
  end.

Definition adminOnly := authorize [ADMIN; SUPER_ADMIN].
Definition superAdminOnly := authorize [SUPER_ADMIN].

End AuthMiddleware.

(* ===================================================================== *)
(** ** src/controllers/authController.ts                                  *)
(* ===================================================================== *)

Module AuthController.
Import Types Store.

(** The access token of the JSON body and the refresh token of the
    [Set-Cookie] header. *)
Record Tokens := {
  tk_accessToken : Jwt.Token;
  tk_refreshCookie : Jwt.Token
}.

Definition payloadOf (id : ObjectId) (user : IUser) : IAuthUser :=
  {| au_id := id; au_email := u_email user; au_role := u_role user |}.

Section Login.
(** [bcrypt.compare(password, hash)]. *)
Variable bcrypt_compare : string -> string -> bool.

(** [login], lines 81-149. *)
Definition login (env : Config.Env) (now : Z) (email password : string)
    (db : Db) : Db * Response Tokens :=
  match UserModel.findOneByEmail email db with
  | None => (db, errorResponse 401 "Invalid credentials")
  | Some (id, user) =>
      if negb (u_isActive user)
      then (db, errorResponse 403
                  "Account is deactivated. Please contact support.")
      else if negb (bcrypt_compare password (u_password user))
      then (db, errorResponse 401 "Invalid credentials")
      else
        let user := user_with_lastLogin (Some now) user in
        let db' := UserModel.save now id user db in
        match AuthUtils.generateTokens env now (payloadOf id user) with
        | Some (accessToken, refreshToken) =>
            (db', successResponse 200 "Login successful"
                    (Some {| tk_accessToken := accessToken;
                             tk_refreshCookie := refreshToken |}))
        | None => (db', errorResponse 500 "Internal server error")
        end
  end.
End Login.

(** [refreshToken], lines 154-203: every thrown error is answered with
    401. *)
Definition refreshToken (env : Config.Env) (now : Z)
    (cookie : option Jwt.Token) (db : Db) : Response Tokens :=
  match cookie with
  | None => errorResponse 401 "Refresh token not provided"
  | Some token =>
      match Jwt.verify token (Config.env_JWT_REFRESH_SECRET env) now with
      | None => errorResponse 401 "Invalid refresh token"
      | Some decoded =>
          let id := au_id (Jwt.jwt_payload decoded) in
          match UserModel.findById id db with
          | Some user =>
              if u_isActive user then
                match AuthUtils.generateTokens env now (payloadOf id user) with
                | Some (accessToken, refreshToken) =>
                    successResponse 200 "Token refreshed successfully"
                      (Some {| tk_accessToken := accessToken;
                               tk_refreshCookie := refreshToken |})
                | None => errorResponse 401 "Invalid refresh token"
                end
              else errorResponse 401 "Invalid refresh token"
          | None => errorResponse 401 "Invalid refresh token"
          end
      end
  end.

End AuthController.

(* ===================================================================== *)
(** ** The list endpoints and their routes                                *)
(* ===================================================================== *)

(** The six endpoints that take [page] and [limit] and answer with a
    [pagination] object.  [GET /decors/featured] takes a limit only and
    reports no pages; it is not one of them. *)
Module ListEndpoints.
Import Utils.

(** [req.query.page] and [req.query.limit], read as integers; [None] is a
    parameter that is absent. *)
Record PageQuery := {
  q_page : option Z;
  q_limit : option Z
}.

(** [parseInt(v) || d]: an absent parameter and zero give [d]. *)
Definition parseIntOr (v : option Z) (d : Z) : Z :=
  match v with
  | Some n => if n =? 0 then d else n
  | None => d
  end.

(** What a list controller passes to the query ([skip], [limit]) and
    reports under [pagination]. *)
Record Page := {
  usedSkip : Z;
  usedLimit : Z;
  currentPage : Z;
  totalPages : Z;
  totalCount : Z;
  hasNextPage : bool;
  hasPrevPage : bool
}.

(** The pagination code that the list controllers share, with the
    default limit of each; [total] is what [countDocuments] returns. *)
Definition paginate (defaultLimit : Z) (q : PageQuery) (total : Z) : Page :=
  let page := parseIntOr (q_page q) 1 in
  let limit := parseIntOr (q_limit q) defaultLimit in
  let skip := (page - 1) * limit in
  let totalPages := ceilDiv total limit in
  {| usedSkip := skip;
     usedLimit := limit;
     currentPage := page;
     totalPages := totalPages;
     totalCount := total;
     hasNextPage := page <? totalPages;
     hasPrevPage := 1 <? page |}.

Inductive Endpoint :=
| Users            (* GET /users,                 userController 14-66 *)
| Categories       (* GET /categories,            categoryController 56-102 *)
| CategoryDecors   (* GET /categories/:id/decors, categoryController 319-361 *)
| AllDecors        (* GET /decors/admin/all,      decorController 241-308 *)
| ActiveDecors     (* GET /decors, /decors/active, decorController 323-384 *)
| SearchDecors.    (* GET /decors/search,         decorController 584-680 *)

Definition defaultLimit (e : Endpoint) : Z :=
  match e with
  | Users | Categories | CategoryDecors | AllDecors => 10
  | ActiveDecors | SearchDecors => 12
  end.

Definition controller (e : Endpoint) : PageQuery -> Z -> Page :=
  paginate (defaultLimit e).

(** [Joi.number().integer().min(lo).max(hi)]. *)
Record NumberSchema := {
  ns_min : Z;
  ns_max : option Z
}.

Definition accepts (s : NumberSchema) (v : option Z) : bool :=
  match v with
  | None => true
  | Some n =>
      (ns_min s <=? n)
      && match ns_max s with Some hi => n <=? hi | None => true end
  end.

Record QuerySchema := {
  sch_page : NumberSchema;
  sch_limit : NumberSchema
}.

Definition pageSchema : NumberSchema := {| ns_min := 1; ns_max := None |}.
Definition limitSchema (hi : Z) : NumberSchema :=
  {| ns_min := 1; ns_max := Some hi |}.

Section Routes.
(** Modelled from the spec: [querySchemas.pagination]
    (src/middlewares/validation.ts is not among the sources): page at
    least 1, limit between 1 and a maximum, which is left open. *)
Variable paginationMax : Z.

(** The maximum of each endpoint: the schemas written in
    src/routes/userRoutes.ts (line 36) and src/routes/decorRoutes.ts
    (line 48), and [querySchemas.pagination] for the others. *)
Definition maxLimit (e : Endpoint) : Z :=
  match e with
  | Users => 100
  | SearchDecors => 50
  | _ => paginationMax
  end.

Definition querySchema (e : Endpoint) : QuerySchema :=
  {| sch_page := pageSchema; sch_limit := limitSchema (maxLimit e) |}.

(** Modelled from the spec: [validateQuery(schema)]
    (src/middlewares/validation.ts is not among the sources): a query
    that the schema refuses is a validation error. *)
Definition validateQuery (s : QuerySchema) (q : PageQuery) : bool :=
  accepts (sch_page s) (q_page q) && accepts (sch_limit s) (q_limit q).

Inductive Listing :=
| ValidationError    (* 400 *)
| Listed (p : Page). (* 200 *)

(** [router.get(path, validateQuery(schema), controller)]. *)
Definition listRoute (e : Endpoint) (q : PageQuery) (total : Z) : Listing :=
  if validateQuery (querySchema e) q
  then Listed (controller e q total)
  else ValidationError.
End Routes.

End ListEndpoints.

(* ===================================================================== *)
(** ** src/routes/userRoutes.ts                                           *)
(* ===================================================================== *)

Module UserRoutes.
Import Types Store AuthMiddleware UserController.

Definition isHexDigit (c : ascii) : bool :=
  Chars.isDigit c || Chars.between 97 102 c || Chars.between 65 70 c.

(** Modelled from the spec: [validateObjectId("id")]
    (src/middlewares/validation.ts is not among the sources): a malformed
    identifier is answered with 400. *)
Definition validateObjectId (id : ObjectId) : bool :=
  Nat.eqb (String.length id) 24
  && forallb isHexDigit (list_ascii_of_string id).

Definition validName (v : option string) : bool :=
  match v with
  | Some s => Nat.leb 1 (String.length s) && Nat.leb (String.length s) 50
  | None => true
  end.

(** The body schema of [PUT /users/:id], lines 68-73:
    [role: Joi.string().valid("user", "admin")]. *)
Definition validUpdateBody (b : UpdateUserBody) : bool :=
  validName (upd_firstName b) && validName (upd_lastName b)
  && match upd_role b with
     | Some SUPER_ADMIN => false
     | _ => true
     end.

Definition reject {T} (code : Z) (message : string) (db : Db)
  : Db * Response T := (db, errorResponse code message).

(** A route behind [router.use(authenticate)]: [caller] is [req.user]. *)
Definition guarded {T} (gate : option IAuthUser -> Outcome unit)
    (caller : option IAuthUser) (id : ObjectId)
    (handler : Db -> Db * Response T) (db : Db) : Db * Response T :=
  match gate caller with
  | Respond code message => reject code message db
  | Next _ =>
      if validateObjectId id then handler db
      else reject 400 "Invalid ID format" db
  end.

(** [router.put("/:id", adminOnly, validateObjectId("id"), validate(...),
    updateUser)]. *)
Definition putUser (now : Z) (caller : option IAuthUser) (id : ObjectId)
    (b : UpdateUserBody) : Db -> Db * Response IUser :=
  guarded adminOnly caller id
    (fun db => if validUpdateBody b then updateUser now id b db
               else reject 400 "Validation error" db).

(** [router.delete("/:id", adminOnly, validateObjectId("id"),
    deleteUser)]. *)
Definition deleteUserRoute (caller : option IAuthUser) (id : ObjectId)
  : Db -> Db * Response unit :=
  guarded adminOnly caller id (deleteUser id).

(** [router.patch("/:id/deactivate", adminOnly, ...)]. *)
Definition patchDeactivate (now : Z) (caller : option IAuthUser)
    (id : ObjectId) : Db -> Db * Response IUser :=
  guarded adminOnly caller id (deactivateUser now id).

(** [router.patch("/:id/demote", superAdminOnly, ...)]. *)
Definition patchDemote (now : Z) (caller : option IAuthUser)
    (id : ObjectId) : Db -> Db * Response IUser :=
  guarded superAdminOnly caller id (demoteFromAdmin now id).

End UserRoutes.

(* ===================================================================== *)
(** ** What the stock endpoint may change                                 *)
(* ===================================================================== *)

Module StockFrame.
Import Types Store Mongoose DecorModel.

(** Two decors that differ at most in stock, status and the time of
    their last update. *)
Definition sameButStock (a b : Decor) : Prop :=
  d_name a = d_name b /\ d_slug a = d_slug b
  /\ d_description a = d_description b /\ d_category a = d_category b
  /\ d_price a = d_price b /\ d_originalPrice a = d_originalPrice b
  /\ d_images a = d_images b /\ d_tags a = d_tags b
  /\ d_materials a = d_materials b /\ d_featured a = d_featured b
  /\ d_rating a = d_rating b /\ d_views a = d_views b
  /\ d_salesCount a = d_salesCount b
  /\ d_dimensions a = d_dimensions b
  /\ d_careInstructions a = d_careInstructions b
  /\ d_createdBy a = d_createdBy b /\ d_createdAt a = d_createdAt b.

(** The document that [updateStock] hands to [save]. *)
Definition stockEdit (id : ObjectId) (stock : Z) (d : Decor) : DecorDoc :=
  let decor := set_stock stock (hydrate id d) in
  if stock =? 0 then set_status OUT_OF_STOCK decor
  else if DecorStatus_eqb (d_status (doc_fields decor)) OUT_OF_STOCK
       then set_status ACTIVE decor
       else decor.

End StockFrame.

(* ===================================================================== *)
(** ** More functional updates of stored documents                        *)
(* ===================================================================== *)

Module StoreUpdates.
Import Types Store.

Definition decor_with_description (v : string) (d : Decor) : Decor :=
  {| d_name := d_name d; d_slug := d_slug d; d_description := v;
     d_category := d_category d; d_price := d_price d;
     d_originalPrice := d_originalPrice d; d_stock := d_stock d;
     d_status := d_status d; d_featured := d_featured d;
     d_images := d_images d; d_tags := d_tags d;
     d_materials := d_materials d; d_dimensions := d_dimensions d;
     d_careInstructions := d_careInstructions d; d_rating := d_rating d;
     d_views := d_views d; d_salesCount := d_salesCount d;
     d_createdBy := d_createdBy d; d_createdAt := d_createdAt d;
     d_updatedAt := d_updatedAt d |}.
Definition decor_with_featured (v : bool) (d : Decor) : Decor :=
  {| d_name := d_name d; d_slug := d_slug d;
     d_description := d_description d; d_category := d_category d;
     d_price := d_price d; d_originalPrice := d_originalPrice d;
     d_stock := d_stock d; d_status := d_status d; d_featured := v;
     d_images := d_images d; d_tags := d_tags d;
     d_materials := d_materials d; d_dimensions := d_dimensions d;
     d_careInstructions := d_careInstructions d; d_rating := d_rating d;
     d_views := d_views d; d_salesCount := d_salesCount d;
     d_createdBy := d_createdBy d; d_createdAt := d_createdAt d;
     d_updatedAt := d_updatedAt d |}.
Definition decor_with_images (v : list string) (d : Decor) : Decor :=
  {| d_name := d_name d; d_slug := d_slug d;
     d_description := d_description d; d_category := d_category d;
     d_price := d_price d; d_originalPrice := d_originalPrice d;
     d_stock := d_stock d; d_status := d_status d;
     d_featured := d_featured d; d_images := v; d_tags := d_tags d;
     d_materials := d_materials d; d_dimensions := d_dimensions d;
     d_careInstructions := d_careInstructions d; d_rating := d_rating d;
     d_views := d_views d; d_salesCount := d_salesCount d;
     d_createdBy := d_createdBy d; d_createdAt := d_createdAt d;
     d_updatedAt := d_updatedAt d |}.
Definition decor_with_tags (v : list string) (d : Decor) : Decor :=
  {| d_name := d_name d; d_slug := d_slug d;
     d_description := d_description d; d_category := d_category d;
     d_price := d_price d; d_originalPrice := d_originalPrice d;
     d_stock := d_stock d; d_status := d_status d;
     d_featured := d_featured d; d_images := d_images d; d_tags := v;
     d_materials := d_materials d; d_dimensions := d_dimensions d;
     d_careInstructions := d_careInstructions d; d_rating := d_rating d;
     d_views := d_views d; d_salesCount := d_salesCount d;
     d_createdBy := d_createdBy d; d_createdAt := d_createdAt d;
     d_updatedAt := d_updatedAt d |}.
Definition decor_with_materials (v : list string) (d : Decor) : Decor :=
  {| d_name := d_name d; d_slug := d_slug d;
     d_description := d_description d; d_category := d_category d;
     d_price := d_price d; d_originalPrice := d_originalPrice d;
     d_stock := d_stock d; d_status := d_status d;
     d_featured := d_featured d; d_images := d_images d;
     d_tags := d_tags d; d_materials := v; d_dimensions := d_dimensions d;
     d_careInstructions := d_careInstructions d; d_rating := d_rating d;
     d_views := d_views d; d_salesCount := d_salesCount d;
     d_createdBy := d_createdBy d; d_createdAt := d_createdAt d;
     d_updatedAt := d_updatedAt d |}.
Definition decor_with_dimensions (v : option Dimensions) (d : Decor) : Decor :=
  {| d_name := d_name d; d_slug := d_slug d;
     d_description := d_description d; d_category := d_category d;
     d_price := d_price d; d_originalPrice := d_originalPrice d;
     d_stock := d_stock d; d_status := d_status d;
     d_featured := d_featured d; d_images := d_images d;
     d_tags := d_tags d; d_materials := d_materials d; d_dimensions := v;
     d_careInstructions := d_careInstructions d; d_rating := d_rating d;
     d_views := d_views d; d_salesCount := d_salesCount d;
     d_createdBy := d_createdBy d; d_createdAt := d_createdAt d;
     d_updatedAt := d_updatedAt d |}.
Definition decor_with_careInstructions (v : option string) (d : Decor) : Decor :=
  {| d_name := d_name d; d_slug := d_slug d;
     d_description := d_description d; d_category := d_category d;
     d_price := d_price d; d_originalPrice := d_originalPrice d;
     d_stock := d_stock d; d_status := d_status d;
     d_featured := d_featured d; d_images := d_images d;
     d_tags := d_tags d; d_materials := d_materials d;
     d_dimensions := d_dimensions d; d_careInstructions := v;
     d_rating := d_rating d; d_views := d_views d;
     d_salesCount := d_salesCount d; d_createdBy := d_createdBy d;
     d_createdAt := d_createdAt d; d_updatedAt := d_updatedAt d |}.
Definition decor_with_rating (v : Rating) (d : Decor) : Decor :=
  {| d_name := d_name d; d_slug := d_slug d;
     d_description := d_description d; d_category := d_category d;
     d_price := d_price d; d_originalPrice := d_originalPrice d;
     d_stock := d_stock d; d_status := d_status d;
     d_featured := d_featured d; d_images := d_images d;
     d_tags := d_tags d; d_materials := d_materials d;
     d_dimensions := d_dimensions d;
     d_careInstructions := d_careInstructions d; d_rating := v;
     d_views := d_views d; d_salesCount := d_salesCount d;
     d_createdBy := d_createdBy d; d_createdAt := d_createdAt d;
     d_updatedAt := d_updatedAt d |}.
Definition decor_with_views (v : Z) (d : Decor) : Decor :=
  {| d_name := d_name d; d_slug := d_slug d;
     d_description := d_description d; d_category := d_category d;
     d_price := d_price d; d_originalPrice := d_originalPrice d;
     d_stock := d_stock d; d_status := d_status d;
     d_featured := d_featured d; d_images := d_images d;
     d_tags := d_tags d; d_materials := d_materials d;
     d_dimensions := d_dimensions d;
     d_careInstructions := d_careInstructions d; d_rating := d_rating d;
     d_views := v; d_salesCount := d_salesCount d;
     d_createdBy := d_createdBy d; d_createdAt := d_createdAt d;
     d_updatedAt := d_updatedAt d |}.
Definition decor_with_salesCount (v : Z) (d : Decor) : Decor :=
  {| d_name := d_name d; d_slug := d_slug d;
     d_description := d_description d; d_category := d_category d;
     d_price := d_price d; d_originalPrice := d_originalPrice d;
     d_stock := d_stock d; d_status := d_status d;
     d_featured := d_featured d; d_images := d_images d;
     d_tags := d_tags d; d_materials := d_materials d;
     d_dimensions := d_dimensions d;
     d_careInstructions := d_careInstructions d; d_rating := d_rating d;
     d_views := d_views d; d_salesCount := v; d_createdBy := d_createdBy d;
     d_createdAt := d_createdAt d; d_updatedAt := d_updatedAt d |}.
Definition decor_with_createdBy (v : ObjectId) (d : Decor) : Decor :=
  {| d_name := d_name d; d_slug := d_slug d;
     d_description := d_description d; d_category := d_category d;
     d_price := d_price d; d_originalPrice := d_originalPrice d;
     d_stock := d_stock d; d_status := d_status d;
     d_featured := d_featured d; d_images := d_images d;
     d_tags := d_tags d; d_materials := d_materials d;
     d_dimensions := d_dimensions d;
     d_careInstructions := d_careInstructions d; d_rating := d_rating d;
     d_views := d_views d; d_salesCount := d_salesCount d;
     d_createdBy := v; d_createdAt := d_createdAt d;
     d_updatedAt := d_updatedAt d |}.

End StoreUpdates.

(* ===================================================================== *)
(** ** src/utils/auth.ts: the single token                                *)
(* ===================================================================== *)

Module TokenUtils.
Import Types Config.

(** [generateToken], lines 27-37; [None] is a thrown error. *)
Definition generateToken (env : Env) (now : Z) (payload : IAuthUser)
  : option Jwt.Token :=
  if negb (truthy (Some (JWT_SECRET env))) then None
  else Jwt.sign payload (JWT_SECRET env)
                (orElse (Some (JWT_EXPIRE env)) "24h") now.

End TokenUtils.

(* ===================================================================== *)
(** ** src/middlewares/auth.ts: optional authentication                   *)
(* ===================================================================== *)

Module OptionalAuth.
Import Types Store AuthMiddleware.

(** [optionalAuth], lines 106-144: [next()] is called on every path; the
    result is [req.user] as the next handler finds it. *)
Definition optionalAuth (env : Config.Env) (now : Z) (req : Request)
    (db : Db) : option IAuthUser :=
  match extractToken req with
  | Some token =>
      match AuthUtils.verifyToken env now token with
      | Some decoded =>
          let id := au_id (Jwt.jwt_payload decoded) in
          match UserModel.findById id db with
          | Some user =>
              if u_isActive user
              then Some {| au_id := id; au_email := u_email user;
                           au_role := u_role user |}
              else None
          | None => None
          end
      | None => None
      end
  | None => None
  end.

End OptionalAuth.

(* ===================================================================== *)
(** ** src/models/Decor.ts: the virtuals                                  *)
(* ===================================================================== *)

Module DecorVirtuals.
Import Types Store DecorModel.

(** [a > b] on numbers. *)
Definition Qgt_bool (a b : Q) : bool := negb (Qle_bool a b).

(** [isOnSale], lines 179-181, as a truth value:
    [this.originalPrice && this.originalPrice > this.price]. *)
Definition isOnSale (f : Decor) : bool :=
  match d_originalPrice f with
  | Some o => Qtruthy o && Qgt_bool o (d_price f)
  | None => false
  end.

End DecorVirtuals.

(* ===================================================================== *)
(** ** src/controllers/decorController.ts: reading and updating           *)
(* ===================================================================== *)

Module DecorUpdates.
Import Types Store StoreUpdates Mongoose DecorModel.

(** [getDecorById], lines 423-452; [includeInactive] is
    [req.query.includeInactive === "true"]. *)
Definition getDecorById (includeInactive : bool) (id : ObjectId) (db : Db)
  : Response Decor :=
  match db_decors db !! id with
  | Some d =>
      if includeInactive || DecorStatus_eqb (d_status d) ACTIVE
      then successResponse 200 "Decor retrieved successfully" (Some d)
      else errorResponse 404 "Decor not found"
  | None => errorResponse 404 "Decor not found"
  end.

(** One key of the body of [PUT /decors/:id] that names a path of the
    schema, with its value after casting; for [originalPrice], [None] is
    [null]. *)
Inductive DecorUpdate :=
| U_name (v : string)
| U_slug (v : string)
| U_description (v : string)
| U_category (v : ObjectId)
| U_price (v : Q)
| U_originalPrice (v : option Q)
| U_stock (v : Z)
| U_status (v : DecorStatus)
| U_featured (v : bool)
| U_images (v : list string)
| U_tags (v : list string)
| U_materials (v : list string)
| U_dimensions (v : option Dimensions)
| U_careInstructions (v : option string)
| U_rating (v : Rating)
| U_views (v : Z)
| U_salesCount (v : Z)
| U_createdBy (v : ObjectId).

Definition optDimensions_eqb (a b : option Dimensions) : bool :=
  match a, b with
  | Some x, Some y =>
      optQ_eqb (dim_length x) (dim_length y)
      && optQ_eqb (dim_width x) (dim_width y)
      && optQ_eqb (dim_height x) (dim_height y)
      && optQ_eqb (dim_weight x) (dim_weight y)
  | None, None => true
  | _, _ => false
  end.

Definition Rating_eqb (a b : Rating) : bool :=
  Qeq_bool (rating_average a) (rating_average b)
  && (rating_count a =? rating_count b).

(** [decor[key] = updateData[key]], through the setters of the schema. *)
Definition applyUpdate (d : DecorDoc) (u : DecorUpdate) : DecorDoc :=
  let f := doc_fields d in
  match u with
  | U_name v => set_name v d
  | U_slug v => set_slug v d
  | U_description v =>
      let v' := CategoryModel.trimString v in
      assign P_description (negb (String.eqb v' (d_description f)))
             (decor_with_description v' f) d
  | U_category v => set_category v d
  | U_price v => set_price v d
  | U_originalPrice v => set_originalPrice v d
  | U_stock v => set_stock v d
  | U_status v => set_status v d
  | U_featured v =>
      assign P_featured (negb (Bool.eqb v (d_featured f)))
             (decor_with_featured v f) d
  | U_images v =>
      assign P_images (negb (bool_decide (v = d_images f)))
             (decor_with_images v f) d
  | U_tags v =>
      assign P_tags (negb (bool_decide (v = d_tags f)))
             (decor_with_tags v f) d
  | U_materials v =>
      assign P_materials (negb (bool_decide (v = d_materials f)))
             (decor_with_materials v f) d
  | U_dimensions v =>
      assign P_dimensions (negb (optDimensions_eqb v (d_dimensions f)))
             (decor_with_dimensions v f) d
  | U_careInstructions v =>
      let v' := CategoryModel.trimString <$> v in
      assign P_careInstructions
             (negb (CategoryModel.optString_eqb v' (d_careInstructions f)))
             (decor_with_careInstructions v' f) d
  | U_rating v =>
      assign P_rating (negb (Rating_eqb v (d_rating f)))
             (decor_with_rating v f) d
  | U_views v =>
      assign P_views (negb (v =? d_views f)) (decor_with_views v f) d
  | U_salesCount v =>
      assign P_salesCount (negb (v =? d_salesCount f))
             (decor_with_salesCount v f) d
  | U_createdBy v =>
      assign P_createdBy (negb (String.eqb v (d_createdBy f)))
             (decor_with_createdBy v f) d
  end.

(** [updateData.category], when it is truthy. *)
Fixpoint categoryOf (updates : list DecorUpdate) : option ObjectId :=
  match updates with
  | [] => None
  | U_category v :: _ => if String.eqb v "" then None else Some v
  | _ :: rest => categoryOf rest
  end.

(** [updateDecor], lines 108-198, for a request without files whose body
    is the keys [updates], in the order of [Object.keys]. *)
Definition updateDecor (now : Z) (id : ObjectId) (updates : list DecorUpdate)
    (db : Db) : Db * Response Decor :=
  match findById id db with
  | None => (db, errorResponse 404 "Decor not found")
  | Some decor =>
      let categoryMissing :=
        match categoryOf updates with
        | Some c => negb (bool_decide (is_Some (db_categories db !! c)))
        | None => false
        end in
      if categoryMissing then (db, errorResponse 400 "Invalid category")
      else
        match save now (fold_left applyUpdate updates decor) db with
        | (db', Some _) =>
            (db', successResponse 200 "Decor updated successfully"
                    (db_decors db' !! id))
        | (db', None) => (db', errorResponse 500 "Internal server error")
        end
  end.

End DecorUpdates.

(* ===================================================================== *)
(** ** src/routes/decorRoutes.ts                                          *)
(* ===================================================================== *)

Module DecorRoutes.
Import Types Store AuthMiddleware DecorController.

(** [/^[0-9a-fA-F]{24}$/.test(s)]. *)
Definition isObjectIdText (s : string) : bool :=
  Nat.eqb (String.length s) 24
  && forallb UserRoutes.isHexDigit (list_ascii_of_string s).

(** [validateCreateDecor], lines 67-105, on a body whose price and stock
    are numeric (so that the [isNaN] test passes) and whose materials are
    present (an array is truthy even when it is empty): [None] lets the
    request through, [Some message] answers 400. *)
Definition validateCreateDecor (b : CreateDecorBody) : option string :=
  if String.eqb (body_name b) ""
     || String.eqb (body_description b) ""
     || String.eqb (body_category b) ""
     || negb (raw_truthy (fun q => Qeq_bool q 0) (body_price b))
     || negb (raw_truthy (fun z => z =? 0) (body_stock b))
  then Some "Missing required fields: name, description, category, price, stock, materials"
  else if negb (isObjectIdText (body_category b))
  then Some "Invalid category ID format"
  else None.

(** [router.post("/", uploadImages, validateCreateDecor, createDecor)],
    line 124, behind [router.use(authenticate)] and
    [router.use(adminOnly)], lines 58-59, for a request without files:
    each middleware answers, or hands the request on; [createdBy] is
    [req.user.id] as [authenticate] has attached it. *)
Definition postDecor (env : Config.Env) (now : Z) (newId : ObjectId)
    (req : Request) (b : CreateDecorBody) (db : Db)
  : Db * Response Decor :=
  match authenticate env now req db with
  | Respond code message => (db, errorResponse code message)
  | Next user =>
      match adminOnly (Some user) with
      | Respond code message => (db, errorResponse code message)
      | Next _ =>
          match validateCreateDecor b with
          | Some message => (db, errorResponse 400 message)
          | None => createDecor now newId (au_id user) b db
          end
      end
  end.

End DecorRoutes.

(* ===================================================================== *)
(** ** src/controllers/categoryController.ts                              *)
(* ===================================================================== *)

Module CategoryController.
Import Types Store.

(** [Model.countDocuments(filter)], the filter as a predicate. *)
Definition countDocuments {A} (p : A -> bool) (m : gmap string A) : Z :=
  Z.of_nat (length (List.filter (fun kv => p (snd kv)) (map_to_list m))).

(** [deleteCategory], lines 219-252. *)
Definition deleteCategory (id : ObjectId) (db : Db) : Db * Response unit :=
  match db_categories db !! id with
  | None => (db, errorResponse 404 "Category not found")
  | Some _ =>
      let decorCount :=
        countDocuments (fun d => String.eqb (d_category d) id) (db_decors db) in
      if 0 <? decorCount
      then (db, errorResponse 400
                  "Cannot delete category that has associated decors. Please move or delete the decors first.")
      else (with_categories (delete id (db_categories db)) db,
            successResponse 200 "Category deleted successfully" None)
  end.

End CategoryController.

(* ===================================================================== *)
(** ** The numbers of the statistics endpoints                            *)
(* ===================================================================== *)

Module Stats.
Import Types Store CategoryController.

(** The [stats] object of [getUserStats], userController lines 237-243
    and 253-259. *)
Record UserStats := {
  totalUsers : Z;
  activeUsers : Z;
  inactiveUsers : Z;
  adminUsers : Z;
  regularUsers : Z
}.

Definition userStats (db : Db) : UserStats :=
  let totalUsers := countDocuments (fun _ => true) (db_users db) in
  let activeUsers := countDocuments (fun u => Bool.eqb (u_isActive u) true) (db_users db) in
  let inactiveUsers := countDocuments (fun u => Bool.eqb (u_isActive u) false) (db_users db) in
  let adminUsers :=
    countDocuments (fun u => UserRole_eqb (u_role u) ADMIN
                             || UserRole_eqb (u_role u) SUPER_ADMIN)
                   (db_users db) in
  {| totalUsers := totalUsers;
     activeUsers := activeUsers;
     inactiveUsers := inactiveUsers;
     adminUsers := adminUsers;
     regularUsers := totalUsers - adminUsers |}.

(** The five counts of [getDecorStats], decorController lines 503-515. *)
Record DecorCounts := {
  totalDecors : Z;
  activeDecors : Z;
  inactiveDecors : Z;
  outOfStockDecors : Z;
  featuredDecors : Z
}.

Definition decorCounts (db : Db) : DecorCounts :=
  {| totalDecors := countDocuments (fun _ => true) (db_decors db);
     activeDecors :=
       countDocuments (fun d => DecorStatus_eqb (d_status d) ACTIVE)
                      (db_decors db);
     inactiveDecors :=
       countDocuments (fun d => DecorStatus_eqb (d_status d) INACTIVE)
                      (db_decors db);
     outOfStockDecors :=
       countDocuments (fun d => DecorStatus_eqb (d_status d) OUT_OF_STOCK)
                      (db_decors db);
     featuredDecors :=
       countDocuments (fun d => Bool.eqb (d_featured d) true
                                && DecorStatus_eqb (d_status d) ACTIVE)
                      (db_decors db) |}.

End Stats.

(* ===================================================================== *)
(** ** src/utils/cloudinary.ts (in src/utils/auth.ts)                     *)
(* ===================================================================== *)

Module Cloudinary.

(** [s.split(sep)] for a separator of one character. *)
Fixpoint splitOn (sep : ascii) (s : list ascii) : list (list ascii) :=
  match s with
  | [] => [[]]
  | c :: r =>
      if Ascii.eqb c sep then [] :: splitOn sep r
      else match splitOn sep r with
           | w :: ws => (c :: w) :: ws
           | [] => [[c]]
           end
  end.

(** [parts.join(sep)]. *)
Fixpoint joinWith (sep : ascii) (parts : list (list ascii)) : list ascii :=
  match parts with
  | [] => []
  | [w] => w
  | w :: ws => (w ++ sep :: joinWith sep ws)%list
  end.

(** [parts.findIndex(part => part === target)]. *)
Fixpoint findIndex (target : list ascii) (parts : list (list ascii))
  : option nat :=
  match parts with
  | [] => None
  | w :: ws =>
      if bool_decide (w = target) then Some O
      else S <$> findIndex target ws
  end.

Definition upload : list ascii := list_ascii_of_string "upload".

(** [extractPublicIdFromUrl], lines 208-221 of the file, on the
    characters of the URL; [parts.slice(i, -1)] is [removelast (skipn i
    parts)]. *)
Definition extractPublicIdChars (url : list ascii) : list ascii :=
  let parts := splitOn "/" url in
  let filename := List.last parts [] in
  let publicId := List.hd [] (splitOn "." filename) in
  match findIndex upload parts with
  | Some uploadIndex =>
      if Nat.ltb uploadIndex (length parts - 2)
      then
        let folderParts := removelast (skipn (uploadIndex + 2) parts) in
        match folderParts with
        | [] => publicId
        | _ => (joinWith "/" folderParts ++ "/"%char :: publicId)%list
        end
      else publicId
  | None => publicId
  end.

Definition extractPublicIdFromUrl (url : string) : string :=
  string_of_list_ascii (extractPublicIdChars (list_ascii_of_string url)).

End Cloudinary.

(* ===================================================================== *)
(** ** Sequences of requests                                              *)
(* ===================================================================== *)

Module Sessions.
Import Types Store.

(** The user-management requests that carry a guard for the super
    administrator, or need none. *)
Inductive AdminOp :=
| OpDelete (id : ObjectId)
| OpDeactivate (now : Z) (id : ObjectId)
| OpActivate (now : Z) (id : ObjectId)
| OpPromote (now : Z) (id : ObjectId)
| OpDemote (now : Z) (id : ObjectId).

Definition runAdminOp (db : Db) (op : AdminOp) : Db :=
  match op with
  | OpDelete id => fst (UserController.deleteUser id db)
  | OpDeactivate now id => fst (UserController.deactivateUser now id db)
  | OpActivate now id => fst (UserController.activateUser now id db)
  | OpPromote now id => fst (UserController.promoteToAdmin now id db)
  | OpDemote now id => fst (UserController.demoteFromAdmin now id db)
  end.

Definition runAdminOps (ops : list AdminOp) (db : Db) : Db :=
  fold_left runAdminOp ops db.

(** The requests that write to the catalogue. *)
Inductive CatalogOp :=
| OpCreateDecor (now : Z) (newId createdBy : ObjectId)
                (body : DecorController.CreateDecorBody)
| OpUpdateDecor (now : Z) (id : ObjectId)
                (updates : list DecorUpdates.DecorUpdate)
| OpUpdateStock (now : Z) (id : ObjectId) (stock : Z)
| OpDeleteDecor (id : ObjectId)
| OpDeleteCategory (id : ObjectId).

Definition runCatalogOp (db : Db) (op : CatalogOp) : Db :=
  match op with
  | OpCreateDecor now newId createdBy body =>
      fst (DecorController.createDecor now newId createdBy body db)
  | OpUpdateDecor now id updates =>
      fst (DecorUpdates.updateDecor now id updates db)
  | OpUpdateStock now id stock =>
      fst (DecorController.updateStock now id stock db)
  | OpDeleteDecor id => fst (DecorController.deleteDecor id db)
  | OpDeleteCategory id => fst (CategoryController.deleteCategory id db)
  end.

Definition runCatalogOps (ops : list CatalogOp) (db : Db) : Db :=
  fold_left runCatalogOp ops db.

(** Every stored decor belongs to a stored category. *)
Definition categoriesExist (db : Db) : Prop :=
  forall id d, db_decors db !! id = Some d ->
               is_Some (db_categories db !! d_category d).

End Sessions.

(* ===================================================================== *)
(** ** The shape of a slug                                                *)
(* ===================================================================== *)

Module SlugShape.
Import Chars Utils.

(** A well-formed slug: lower-case letters, digits and hyphens, no hyphen
    at either end, no two hyphens in a row. *)
Definition wellFormedSlug (l : list ascii) : Prop :=
  Forall (fun c => isSlugChar c = true) l
  /\ head l <> Some hyphen /\ last l <> Some hyphen
  /\ noDoubleHyphen l = true.

End SlugShape.

(* ===================================================================== *)
(** ** Notions used to state properties of the user endpoints             *)
(* ===================================================================== *)

Module Accounts.
Import Types Store.

(** [id] names a stored super administrator. *)
Definition isSuperAdmin (db : Db) (id : ObjectId) : Prop :=
  exists u, db_users db !! id = Some u /\ u_role u = SUPER_ADMIN.

(** [id] names a stored super administrator whose account is active. *)
Definition isActiveSuperAdmin (db : Db) (id : ObjectId) : Prop :=
  exists u, db_users db !! id = Some u /\ u_role u = SUPER_ADMIN
            /\ u_isActive u = true.

(** A request that carries [token] as a bearer token and no cookie. *)
Definition bearerRequest (token : Jwt.Token) : AuthMiddleware.Request :=
  {| AuthMiddleware.req_authorization :=
       Some {| AuthMiddleware.hdr_startsWithBearer := true;
               AuthMiddleware.hdr_second := Some token |};
     AuthMiddleware.req_cookie_token := None;
     AuthMiddleware.req_cookie_refreshToken := None |}.

(** Two accounts that differ at most in the time of the last login and
    of the last update. *)
Definition sameButLogin (a b : IUser) : Prop :=
  u_firstName a = u_firstName b /\ u_lastName a = u_lastName b
  /\ u_email a = u_email b /\ u_phoneNumber a = u_phoneNumber b
  /\ u_password a = u_password b /\ u_role a = u_role b
  /\ u_isActive a = u_isActive b /\ u_emailVerified a = u_emailVerified b
  /\ u_createdAt a = u_createdAt b.

End Accounts.

(* ===================================================================== *)
(** ** Notions used to state properties of the catalogue                  *)
(* ===================================================================== *)

Module CatalogShape.
Import Types Store DecorModel DecorUpdates Sessions.

(** The key of the body that an update stands for. *)
Definition keyOf (u : DecorUpdate) : Path :=
  match u with
  | U_name _ => P_name
  | U_slug _ => P_slug
  | U_description _ => P_description
  | U_category _ => P_category
  | U_price _ => P_price
  | U_originalPrice _ => P_originalPrice
  | U_stock _ => P_stock
  | U_status _ => P_status
  | U_featured _ => P_featured
  | U_images _ => P_images
  | U_tags _ => P_tags
  | U_materials _ => P_materials
  | U_dimensions _ => P_dimensions
  | U_careInstructions _ => P_careInstructions
  | U_rating _ => P_rating
  | U_views _ => P_views
  | U_salesCount _ => P_salesCount
  | U_createdBy _ => P_createdBy
  end.

(** The keys of an object are distinct. *)
Definition distinctKeys (updates : list DecorUpdate) : Prop :=
  NoDup (map keyOf updates).

Definition wellFormedOp (op : CatalogOp) : Prop :=
  match op with
  | OpUpdateDecor _ _ updates => distinctKeys updates
  | _ => True
  end.

(** Some stored decor belongs to the category [id]. *)
Definition referenced (db : Db) (id : ObjectId) : Prop :=
  exists k d, db_decors db !! k = Some d /\ d_category d = id.

End CatalogShape.

(* ===================================================================== *)
(** ** generateSlug on UTF-16 code units                                  *)
(* ===================================================================== *)

(** The values of [string] above are strings whose code units lie below
    256.  A JavaScript string is a sequence of UTF-16 code units; this
    module embeds [generateSlug] (src/utils/response.ts, lines 52-59) once
    more, on such sequences.  The regular expressions of the function carry
    no [u] and no [i] flag, so they work on single code units. *)
Module Utf16.

Definition between (lo hi u : N) : bool := ((lo <=? u) && (u <=? hi))%N.

Definition isUpper : N -> bool := between 65 90.
Definition isLower : N -> bool := between 97 122.
Definition isDigit : N -> bool := between 48 57.
Definition isUnderscore (u : N) : bool := (u =? 95)%N.
Definition isHyphen (u : N) : bool := (u =? 45)%N.

(** [\w]: [A-Za-z0-9_]. *)
Definition isWordChar (u : N) : bool :=
  isUpper u || isLower u || isDigit u || isUnderscore u.

(** [\s], and what [String.prototype.trim] removes: the WhiteSpace and
    LineTerminator code points of ECMAScript: TAB, LF, VT, FF, CR, SPACE,
    NO-BREAK SPACE, U+1680, U+2000..U+200A, U+2028, U+2029, U+202F, U+205F,
    U+3000 and U+FEFF. *)
Definition isSpace (u : N) : bool :=
  between 9 13 u || (u =? 32)%N || (u =? 160)%N || (u =? 5760)%N
  || between 8192 8202 u || (u =? 8232)%N || (u =? 8233)%N
  || (u =? 8239)%N || (u =? 8287)%N || (u =? 12288)%N || (u =? 65279)%N.

(** The class [[\s_-]]. *)
Definition isSeparator (u : N) : bool :=
  isSpace u || isUnderscore u || isHyphen u.

(** The complement of the class [[^\w\s-]]. *)
Definition isKept (u : N) : bool := isWordChar u || isSpace u || isHyphen u.

Definition hyphen : N := 45%N.

(** [.trim()]. *)
Definition trim (l : list N) : list N :=
  Utils.dropWhileEnd isSpace (Utils.dropWhileStart isSpace l).

(** [.replace(/[^\w\s-]/g, "")]. *)
Definition removeSpecial (l : list N) : list N := List.filter isKept l.

(** [.replace(/[\s_-]+/g, "-")]; [inRun] tells that the current run of
    separators has already produced its hyphen. *)
Fixpoint hyphenate (inRun : bool) (l : list N) : list N :=
  match l with
  | [] => []
  | u :: r =>
      if isSeparator u
      then (if inRun then hyphenate true r else hyphen :: hyphenate true r)
      else u :: hyphenate false r
  end.

(** [.replace(/^-+|-+$/g, "")]. *)
Definition stripHyphens (l : list N) : list N :=
  Utils.dropWhileEnd isHyphen (Utils.dropWhileStart isHyphen l).

(** What [generateSlug] does to the result of [text.toLowerCase()]. *)
Definition slugOfLowered (lowered : list N) : list N :=
  stripHyphens (hyphenate false (removeSpecial (trim lowered))).

(** [generateSlug]; [toLowerCase] is [String.prototype.toLowerCase], a
    function of the whole text (its result for one character can depend
    on the neighbours, and can be longer than one code unit). *)
Definition generateSlug (toLowerCase : list N -> list N) (text : list N)
  : list N :=
  slugOfLowered (toLowerCase text).

(** The code units of a string of the other modules. *)
Definition units (s : string) : list N :=
  map Chars.code (list_ascii_of_string s).

(** *** What a slug is, in the words of the specification

    These definitions do not use the functions above.  A code unit of
    the lower-cased text is part of a word (a letter of the Latin alphabet
    or a digit), a separator (white space, an underscore or a hyphen), or
    a special character.  The special characters are removed; the words
    are the maximal runs of word parts that are then left between
    separators; the slug is the words, joined by single hyphens. *)

Inductive Kind := WordPart | Separator | Special.

Definition whiteSpaceUnits : list N :=
  [9; 10; 11; 12; 13; 32; 160; 5760; 8192; 8193; 8194; 8195; 8196; 8197;
   8198; 8199; 8200; 8201; 8202; 8232; 8233; 8239; 8287; 12288; 65279]%N.

Definition isWhiteSpace (u : N) : bool := existsb (N.eqb u) whiteSpaceUnits.

Definition kind (u : N) : Kind :=
  if ((97 <=? u) && (u <=? 122) || (65 <=? u) && (u <=? 90)
      || (48 <=? u) && (u <=? 57))%N
  then WordPart
  else if (isWhiteSpace u || (u =? 95) || (u =? 45))%N then Separator
  else Special.

(** Does a word part come next, once the special characters are
    removed? *)
Fixpoint continuesWord (l : list N) : bool :=
  match l with
  | [] => false
  | u :: r =>
      match kind u with
      | WordPart => true
      | Separator => false
      | Special => continuesWord r
      end
  end.

Definition consWord (u : N) (ws : list (list N)) : list (list N) :=
  match ws with
  | w :: ws' => (u :: w) :: ws'
  | [] => [[u]]
  end.

Fixpoint words (l : list N) : list (list N) :=
  match l with
  | [] => []
  | u :: r =>
      match kind u with
      | WordPart =>
          if continuesWord r then consWord u (words r) else [u] :: words r
      | _ => words r
      end
  end.

Fixpoint joinHyphen (ws : list (list N)) : list N :=
  match ws with
  | [] => []
  | [w] => w
  | w :: ws' => w ++ 45%N :: joinHyphen ws'
  end.

Definition slugSpec (lowered : list N) : list N := joinHyphen (words lowered).

(** A letter A to Z or a to z, or a digit. *)
Definition isAlnum (u : N) : bool := isUpper u || isLower u || isDigit u.

(** A lower-case letter of the Latin alphabet, a digit or a hyphen. *)
Definition isSlugUnit (u : N) : bool :=
  ((97 <=? u) && (u <=? 122) || (48 <=? u) && (u <=? 57) || (u =? 45))%N.

(** No two hyphens in a row. *)
Fixpoint noDoubleHyphen (l : list N) : bool :=
  match l with
  | u :: ((u' :: _) as r) =>
      negb ((u =? 45) && (u' =? 45))%N && noDoubleHyphen r
  | _ => true
  end.

End Utf16.

(* ===================================================================== *)
(** ** Identifiers as the stores print them                               *)
(* ===================================================================== *)

Module Identifiers.

Definition isLowerHexDigit (c : ascii) : bool :=
  Chars.isDigit c || Chars.between 97 102 c.

(** The text that [ObjectId.prototype.toHexString] gives: 24 digits of
    the lower-case hexadecimal notation.  The keys of the stores are such
    texts; the other spellings that Mongoose casts to the same identifier
    (capital digits) or refuses to cast are not modelled. *)
Definition isHexString (id : string) : bool :=
  Nat.eqb (String.length id) 24
  && forallb isLowerHexDigit (list_ascii_of_string id).

End Identifiers.

(* ===================================================================== *)
(** ** Sample data for the evaluations below                              *)
(* ===================================================================== *)

Module Samples.
Import Types Store Config.

Definition adminId : ObjectId := "64b000000000000000000001".
Definition rootId : ObjectId := "64b000000000000000000002".
Definition sleeperId : ObjectId := "64b000000000000000000003".
Definition ghostId : ObjectId := "64b0000000000000000000ff".
Definition lightingId : ObjectId := "64c000000000000000000001".
Definition textilesId : ObjectId := "64c000000000000000000002".
Definition lampId : ObjectId := "64d000000000000000000001".
Definition vaseId : ObjectId := "64d000000000000000000002".

Definition admin : IUser :=
  {| u_firstName := "John"; u_lastName := "Artisan";
     u_email := "john@craftopia.com"; u_phoneNumber := None;
     u_password := "$2a$12$john"; u_role := ADMIN; u_isActive := true;
     u_emailVerified := false; u_lastLogin := None;
     u_createdAt := 100; u_updatedAt := 100 |}.

Definition root : IUser :=
  {| u_firstName := "Super"; u_lastName := "Admin";
     u_email := "admin@craftopia.com"; u_phoneNumber := None;
     u_password := "$2a$12$root"; u_role := SUPER_ADMIN; u_isActive := true;
     u_emailVerified := false; u_lastLogin := None;
     u_createdAt := 50; u_updatedAt := 50 |}.

(** An account that was deactivated. *)
Definition sleeper : IUser :=
  {| u_firstName := "Ada"; u_lastName := "Weaver";
     u_email := "ada@craftopia.com"; u_phoneNumber := None;
     u_password := "$2a$12$ada"; u_role := USER; u_isActive := false;
     u_emailVerified := false; u_lastLogin := None;
     u_createdAt := 70; u_updatedAt := 80 |}.

Definition lighting : Category :=
  {| c_name := "Lighting"; c_slug := Some "lighting";
     c_description := None; c_icon := None; c_isActive := true;
     c_decorCount := 1; c_createdBy := adminId;
     c_createdAt := 200; c_updatedAt := 200 |}.

Definition textiles : Category :=
  {| c_name := "Textiles"; c_slug := Some "textiles";
     c_description := None; c_icon := None; c_isActive := true;
     c_decorCount := 0; c_createdBy := adminId;
     c_createdAt := 210; c_updatedAt := 210 |}.

(** A lamp that the shop no longer sells, five of which are left. *)
Definition lamp : Decor :=
  {| d_name := "Brass Lamp"; d_slug := Some "brass-lamp";
     d_description := "A hand-made brass lamp";
     d_category := lightingId; d_price := 40; d_originalPrice := Some 55%Q;
     d_stock := 5; d_status := DISCONTINUED; d_featured := false;
     d_images := []; d_tags := ["brass"]; d_materials := ["brass"];
     d_dimensions := None; d_careInstructions := None;
     d_rating := {| rating_average := 0; rating_count := 0 |};
     d_views := 0; d_salesCount := 0; d_createdBy := adminId;
     d_createdAt := 300; d_updatedAt := 300 |}.

Definition db0 : Db :=
  {| db_users := {[ adminId := admin; rootId := root; sleeperId := sleeper ]};
     db_categories := {[ lightingId := lighting; textilesId := textiles ]};
     db_decors := {[ lampId := lamp ]} |}.

Definition adminCaller : IAuthUser :=
  {| au_id := adminId; au_email := "john@craftopia.com"; au_role := ADMIN |}.

(** No variable of the token configuration is set. *)
Definition bareEnv : Env :=
  {| env_JWT_SECRET := None; env_JWT_EXPIRE := None;
     env_JWT_REFRESH_SECRET := None |}.

(** A token for [id], signed with the default secret at time 0 and valid
    for a day, and a request that carries it as a bearer token. *)
Definition tokenFor (id : ObjectId) (email : string) : Jwt.Signed :=
  {| Jwt.jwt_payload := {| au_id := id; au_email := email; au_role := USER |};
     Jwt.jwt_iat := 0; Jwt.jwt_exp := 86400;
     Jwt.jwt_key := "your-super-secret-jwt-key" |}.

Definition bearer (t : Jwt.Signed) : AuthMiddleware.Request :=
  {| AuthMiddleware.req_authorization :=
       Some {| AuthMiddleware.hdr_startsWithBearer := true;
               AuthMiddleware.hdr_second := Some (Jwt.Wellformed t) |};
     AuthMiddleware.req_cookie_token := None;
     AuthMiddleware.req_cookie_refreshToken := None |}.

(** A vase sent as a multipart form with [originalPrice] "0". *)
Definition vaseBody : DecorController.CreateDecorBody :=
  {| DecorController.body_name := "Clay Vase";
     DecorController.body_description := "A small clay vase";
     DecorController.body_category := lightingId;
     DecorController.body_price := DecorController.FormText 5%Q;
     DecorController.body_originalPrice := Some (DecorController.FormText 0%Q);
     DecorController.body_stock := DecorController.FormText 3;
     DecorController.body_featured := false;
     DecorController.body_tags := [];
     DecorController.body_materials := ["clay"];
     DecorController.body_careInstructions := None;
     DecorController.body_dimensions := None |}.

End Samples.

(* ===================================================================== *)
(** ** More sample data                                                   *)
(* ===================================================================== *)

Module MoreSamples.
Import Types Store.

Definition wallArtId : ObjectId := "64c000000000000000000003".

(** [new Category({ name, description, icon, createdBy })] for a category
    named " Wall Art & Decor " without description and icon. *)
Definition wallArt : CategoryModel.CategoryDoc :=
  Mongoose.construct wallArtId
    {| c_name := CategoryModel.trimString " Wall Art & Decor ";
       c_slug := None; c_description := None; c_icon := None;
       c_isActive := true; c_decorCount := 0;
       c_createdBy := Samples.adminId;
       c_createdAt := 0; c_updatedAt := 0 |}
    [CategoryModel.P_name; CategoryModel.P_createdBy].

(** [toLowerCase] on texts whose cased characters are the capitals A to
    Z, KELVIN SIGN (U+212A, which becomes k) and LATIN CAPITAL LETTER I
    WITH DOT ABOVE (U+0130, which becomes i and U+0307). *)
Definition lowerUnit (u : N) : list N :=
  if Utf16.isUpper u then [u + 32]%N
  else if (u =? 8490)%N then [107%N]
  else if (u =? 304)%N then [105; 775]%N
  else [u].

Definition lowerBasic (text : list N) : list N := concat (map lowerUnit text).

(** [K2 _Lamp_ & [I]], written with KELVIN SIGN for the K and with the
    dotted capital I. *)
Definition kelvinLamp : list N :=
  [8490; 50; 32; 95; 76; 97; 109; 112; 95; 32; 38; 32; 91; 304; 93]%N.


End MoreSamples.

(* ===================================================================== *)
(** ** generateSlug                                                       *)
(* ===================================================================== *)

Module SlugFacts.
Import Chars Utils.

(** *** Characters *)

Ltac all_chars c :=
  destruct c as [[] [] [] [] [] [] [] []]; vm_compute; try reflexivity;
  try discriminate; auto.

Lemma toLowerChar_not_upper c : isUpper (toLowerChar c) = false.
Proof. all_chars c. Qed.

Lemma toLowerChar_slugChar c : isSlugChar c = true -> toLowerChar c = c.
Proof. all_chars c. Qed.

Lemma hyphen_is_separator c : isHyphen c = true -> isSeparator c = true.
Proof. unfold isSeparator. intros ->. apply orb_true_r. Qed.

Lemma isHyphen_hyphen c : isHyphen c = true <-> c = hyphen.
Proof. split; [all_chars c | intros ->; reflexivity]. Qed.

Lemma space_is_separator c : isSpace c = true -> isSeparator c = true.
Proof. unfold isSeparator. intros ->. reflexivity. Qed.

Lemma space_is_kept c : isSpace c = true -> isKept c = true.
Proof. unfold isKept. intros ->. rewrite orb_true_r. reflexivity. Qed.

(** A kept character that is no separator and no capital is a lower-case
    letter or a digit. *)
Lemma kept_word_char c :
  isKept c = true -> isSeparator c = false -> isUpper c = false ->
  isLower c || isDigit c = true.
Proof.
  unfold isKept, isSeparator, isWordChar.
  destruct (isUpper c), (isLower c), (isDigit c), (isUnderscore c),
    (isSpace c), (isHyphen c); simpl; congruence.
Qed.

(** *** The list scans *)

Section Scans.
Context {A : Type} (p : A -> bool).

Lemma dropWhileStart_Forall (Q : A -> Prop) l :
  Forall Q l -> Forall Q (dropWhileStart p l).
Proof.
  induction 1 as [|x l Hx Hl IH]; simpl; [constructor|].
  destruct (p x); [exact IH | constructor; assumption].
Qed.

Lemma dropWhileEnd_Forall (Q : A -> Prop) l :
  Forall Q l -> Forall Q (dropWhileEnd p l).
Proof.
  induction 1 as [|x l Hx Hl IH]; simpl; [constructor|].
  destruct (dropWhileEnd p l) as [|y r'].
  - destruct (p x); repeat constructor; assumption.
  - constructor; assumption.
Qed.

Lemma dropWhileEnd_cons x l :
  dropWhileEnd p (x :: l)
  = match dropWhileEnd p l with
    | [] => if p x then [] else [x]
    | r' => x :: r'
    end.
Proof. reflexivity. Qed.

Lemma dropWhileEnd_keep x l :
  p x = false -> dropWhileEnd p (x :: l) = x :: dropWhileEnd p l.
Proof. intros Hx. simpl. rewrite Hx. destruct (dropWhileEnd p l); reflexivity. Qed.

(** The scan from the left leaves nothing, or starts with an element
    outside [p]. *)
Lemma dropWhileStart_head l x :
  head (dropWhileStart p l) = Some x -> p x = false.
Proof.
  induction l as [|y l IH]; simpl; [discriminate|].
  destruct (p y) eqn:Hy; [exact IH|].
  simpl. intros [= <-]. exact Hy.
Qed.

(** The scan from the right keeps the first element of what it leaves. *)
Lemma dropWhileEnd_head l x :
  head (dropWhileEnd p l) = Some x -> head l = Some x.
Proof.
  destruct l as [|y l]; simpl; [discriminate|].
  destruct (dropWhileEnd p l); [destruct (p y)|]; simpl; congruence.
Qed.

(** The scan from the right leaves nothing, or ends with an element
    outside [p]. *)
Lemma dropWhileEnd_last l x :
  last (dropWhileEnd p l) = Some x -> p x = false.
Proof.
  induction l as [|y l IH]; simpl; [discriminate|].
  destruct (dropWhileEnd p l) as [|z r'] eqn:E.
  - destruct (p y) eqn:Hy; simpl; [discriminate|].
    intros [= <-]. exact Hy.
  - change (last (y :: z :: r')) with (last (z :: r')). exact IH.
Qed.
End Scans.

(** *** Only lower-case letters, digits and hyphens *)

Lemma toLowerCase_no_upper l :
  Forall (fun c => isUpper c = false) (toLowerCase l).
Proof.
  induction l; simpl; constructor; auto using toLowerChar_not_upper.
Qed.

Lemma removeSpecial_Forall (Q : ascii -> Prop) l :
  Forall Q l -> Forall (fun c => Q c /\ isKept c = true) (removeSpecial l).
Proof.
  induction 1 as [|x l Hx Hl IH]; simpl; [constructor|].
  destruct (isKept x) eqn:Hk; [|exact IH].
  constructor; [split; assumption | exact IH].
Qed.

Lemma hyphenate_slugChars b l :
  Forall (fun c => isUpper c = false /\ isKept c = true) l ->
  Forall (fun c => isSlugChar c = true) (hyphenate b l).
Proof.
  intros H. revert b. induction H as [|x l [Hu Hk] Hl IH]; intros b; simpl.
  - constructor.
  - destruct (isSeparator x) eqn:Hs.
    + destruct b; [apply IH | constructor; [reflexivity | apply IH]].
    + constructor; [|apply IH].
      unfold isSlugChar. rewrite (kept_word_char x Hk Hs Hu). reflexivity.
Qed.

Lemma generateSlugChars_slugChars text :
  Forall (fun c => isSlugChar c = true) (generateSlugChars text).
Proof.
  unfold generateSlugChars, stripHyphens, trim.
  apply dropWhileEnd_Forall, dropWhileStart_Forall, hyphenate_slugChars.
  apply removeSpecial_Forall, dropWhileEnd_Forall, dropWhileStart_Forall.
  apply toLowerCase_no_upper.
Qed.

(** *** No hyphen at either end *)

Lemma generateSlugChars_head text : head (generateSlugChars text) <> Some hyphen.
Proof.
  unfold generateSlugChars, stripHyphens. intros H.
  apply dropWhileEnd_head, dropWhileStart_head in H. discriminate H.
Qed.

Lemma generateSlugChars_last text : last (generateSlugChars text) <> Some hyphen.
Proof.
  unfold generateSlugChars, stripHyphens. intros H.
  apply dropWhileEnd_last in H. discriminate H.
Qed.

(** *** The slug joins the words of the text *)

Lemma hyphenate_true_head l :
  dropWhileStart isHyphen (hyphenate true l) = hyphenate true l.
Proof.
  induction l as [|c r IH]; simpl; [reflexivity|].
  destruct (isSeparator c) eqn:Hs; [exact IH|].
  simpl. destruct (isHyphen c) eqn:Hh; [|reflexivity].
  apply hyphen_is_separator in Hh. congruence.
Qed.

Lemma hyphenate_strip_start l :
  dropWhileStart isHyphen (hyphenate false l) = hyphenate true l.
Proof.
  destruct l as [|c r]; simpl; [reflexivity|].
  destruct (isSeparator c) eqn:Hs.
  - simpl. apply hyphenate_true_head.
  - simpl. destruct (isHyphen c) eqn:Hh; [|reflexivity].
    apply hyphen_is_separator in Hh. congruence.
Qed.

Lemma slugWords_nonempty l : Forall (fun w => w <> []) (slugWords l).
Proof.
  induction l as [|c r IH]; simpl; [constructor|].
  destruct (isSeparator c); [exact IH|].
  destruct (startsWord r).
  - destruct IH; simpl; repeat constructor; auto; discriminate.
  - constructor; [discriminate | exact IH].
Qed.

Lemma slugWords_startsWord l : startsWord l = true -> slugWords l <> [].
Proof.
  destruct l as [|c r]; simpl; [discriminate|].
  destruct (isSeparator c); [discriminate|]. intros _.
  destruct (startsWord r); [destruct (slugWords r)|]; discriminate.
Qed.

Lemma joinHyphen_nil ws :
  Forall (fun w => w <> []) ws -> joinHyphen ws = [] -> ws = [].
Proof.
  destruct 1 as [|w ws Hw Hws]; [reflexivity|]. simpl.
  destruct ws; [congruence|]. destruct w; [congruence | discriminate].
Qed.

Lemma joinHyphen_consWord c ws :
  ws <> [] -> joinHyphen (consWord c ws) = c :: joinHyphen ws.
Proof.
  destruct ws as [|w ws]; [congruence|]. intros _. simpl.
  destruct ws; reflexivity.
Qed.

Lemma hyphenate_false_word c r :
  isSeparator c = false -> hyphenate false (c :: r) = hyphenate true (c :: r).
Proof. intros Hs. simpl. rewrite Hs. reflexivity. Qed.

(** Deleting the trailing hyphen of the scan leaves the words joined by
    single hyphens. *)
Lemma hyphenate_words l :
  dropWhileEnd isHyphen (hyphenate true l) = joinHyphen (slugWords l).
Proof.
  induction l as [|c r IH]; [reflexivity|].
  cbn [hyphenate slugWords].
  destruct (isSeparator c) eqn:Hs; [exact IH|].
  assert (Hh : isHyphen c = false).
  { destruct (isHyphen c) eqn:Hh; [|reflexivity].
    apply hyphen_is_separator in Hh. congruence. }
  rewrite (dropWhileEnd_keep _ _ _ Hh).
  destruct r as [|c' r']; [reflexivity|].
  cbn [startsWord].
  destruct (isSeparator c') eqn:Hs'; cbn [negb].
  - (* the word ends here: a hyphen follows unless the text is over *)
    assert (E : hyphenate false (c' :: r') = hyphen :: hyphenate true (c' :: r')).
    { simpl. rewrite Hs'. reflexivity. }
    rewrite E, dropWhileEnd_cons, IH.
    pose proof (slugWords_nonempty (c' :: r')) as Hne.
    destruct (joinHyphen (slugWords (c' :: r'))) as [|x xs] eqn:Ej.
    + apply joinHyphen_nil in Ej; [|exact Hne]. rewrite Ej. reflexivity.
    + destruct (slugWords (c' :: r')) as [|w ws] eqn:Ew;
        [discriminate Ej|].
      change (joinHyphen ([c] :: w :: ws))
        with (([c] ++ hyphen :: joinHyphen (w :: ws))%list).
      rewrite Ej. reflexivity.
  - (* the word goes on *)
    rewrite (hyphenate_false_word _ _ Hs'), IH.
    symmetry. apply joinHyphen_consWord, slugWords_startsWord.
    simpl. rewrite Hs'. reflexivity.
Qed.

(** Trimming changes neither the words nor whether the text starts with
    one. *)
Lemma slugWords_trimStart l :
  slugWords (removeSpecial (dropWhileStart isSpace l))
  = slugWords (removeSpecial l).
Proof.
  induction l as [|c r IH]; [reflexivity|].
  cbn [dropWhileStart]. destruct (isSpace c) eqn:Hsp; [|reflexivity].
  rewrite IH. cbn [removeSpecial List.filter].
  rewrite (space_is_kept _ Hsp). cbn [slugWords].
  rewrite (space_is_separator _ Hsp). reflexivity.
Qed.

Lemma removeSpecial_cons c r :
  removeSpecial (c :: r)
  = if isKept c then c :: removeSpecial r else removeSpecial r.
Proof. reflexivity. Qed.

Lemma slugWords_trimEnd l :
  slugWords (removeSpecial (dropWhileEnd isSpace l))
  = slugWords (removeSpecial l)
  /\ startsWord (removeSpecial (dropWhileEnd isSpace l))
     = startsWord (removeSpecial l).
Proof.
  induction l as [|c r [IHw IHs]]; [split; reflexivity|].
  rewrite dropWhileEnd_cons, (removeSpecial_cons c r).
  destruct (dropWhileEnd isSpace r) as [|y r'] eqn:E.
  - (* everything after [c] is white space *)
    change (removeSpecial []) with (@nil ascii) in IHw, IHs.
    cbn [slugWords startsWord] in IHw, IHs.
    destruct (isSpace c) eqn:Hsp.
    + rewrite (space_is_kept _ Hsp). cbn [slugWords startsWord].
      rewrite (space_is_separator _ Hsp), <- IHw. split; reflexivity.
    + rewrite (removeSpecial_cons c []).
      change (removeSpecial []) with (@nil ascii).
      destruct (isKept c) eqn:Hk.
      * cbn [slugWords startsWord]. rewrite <- IHw, <- IHs.
        destruct (isSeparator c); split; reflexivity.
      * split; assumption.
  - rewrite (removeSpecial_cons c (y :: r')).
    destruct (isKept c) eqn:Hk; [|split; assumption].
    cbn [slugWords startsWord]. rewrite IHw, IHs. split; reflexivity.
Qed.

Theorem generateSlugChars_spec text : generateSlugChars text = slugSpec text.
Proof.
  unfold generateSlugChars, slugSpec, stripHyphens, trim.
  rewrite hyphenate_strip_start, hyphenate_words.
  rewrite (proj1 (slugWords_trimEnd _)), slugWords_trimStart.
  reflexivity.
Qed.

(** *** One hyphen at a time *)

Lemma slugWords_no_separator l :
  Forall (Forall (fun c => isSeparator c = false)) (slugWords l).
Proof.
  induction l as [|c r IH]; simpl; [constructor|].
  destruct (isSeparator c) eqn:Hs; [exact IH|].
  destruct (startsWord r).
  - destruct IH as [|w ws Hw Hws]; simpl; repeat constructor; assumption.
  - repeat constructor; assumption.
Qed.

Lemma noDoubleHyphen_cons c c' r :
  noDoubleHyphen (c :: c' :: r)
  = negb (isHyphen c && isHyphen c') && noDoubleHyphen (c' :: r).
Proof. reflexivity. Qed.

Lemma noDoubleHyphen_app w r :
  Forall (fun c => isSeparator c = false) w ->
  noDoubleHyphen r = true -> noDoubleHyphen (w ++ r) = true.
Proof.
  intros Hw Hr. induction Hw as [|c w Hc Hw IH]; [exact Hr|].
  change ((c :: w) ++ r)%list with (c :: (w ++ r))%list.
  assert (Hh : isHyphen c = false).
  { destruct (isHyphen c) eqn:Hh; [|reflexivity].
    apply hyphen_is_separator in Hh. congruence. }
  destruct (w ++ r)%list as [|c' t] eqn:E; [reflexivity|].
  rewrite noDoubleHyphen_cons, Hh, IH. reflexivity.
Qed.

Lemma noDoubleHyphen_join ws :
  Forall (fun w => w <> []) ws ->
  Forall (Forall (fun c => isSeparator c = false)) ws ->
  noDoubleHyphen (joinHyphen ws) = true.
Proof.
  intros Hne Hsep. induction Hsep as [|w ws Hw Hws IH]; [reflexivity|].
  inversion Hne as [|? ? Hw0 Hne']; subst.
  destruct ws as [|w2 ws2].
  - simpl. rewrite <- (app_nil_r w). apply noDoubleHyphen_app; auto.
  - change (joinHyphen (w :: w2 :: ws2))
      with ((w ++ hyphen :: joinHyphen (w2 :: ws2))%list).
    apply noDoubleHyphen_app; [exact Hw|].
    specialize (IH Hne').
    inversion Hws as [|? ? Hw2 _]; subst.
    inversion Hne' as [|? ? Hw2ne _]; subst.
    destruct w2 as [|x w2']; [congruence|].
    inversion Hw2 as [|? ? Hx _]; subst.
    assert (Hh : isHyphen x = false).
    { destruct (isHyphen x) eqn:Hh; [|reflexivity].
      apply hyphen_is_separator in Hh. congruence. }
    assert (E : exists t, joinHyphen ((x :: w2') :: ws2) = x :: t).
    { destruct ws2; simpl; eauto. }
    destruct E as [t E]. rewrite E in IH |- *.
    rewrite noDoubleHyphen_cons, Hh, IH, andb_false_r. reflexivity.
Qed.

Lemma generateSlugChars_single_hyphens text :
  noDoubleHyphen (generateSlugChars text) = true.
Proof.
  rewrite generateSlugChars_spec. unfold slugSpec.
  apply noDoubleHyphen_join;
    [apply slugWords_nonempty | apply slugWords_no_separator].
Qed.

(** *** On strings *)

Lemma generateSlug_chars text :
  list_ascii_of_string (generateSlug text)
  = generateSlugChars (list_ascii_of_string text).
Proof. unfold generateSlug. apply list_ascii_of_string_of_list_ascii. Qed.

Lemma toLowerCase_slugChars l :
  Forall (fun c => isSlugChar c = true) l -> toLowerCase l = l.
Proof.
  induction 1 as [|c l Hc Hl IH]; [reflexivity|]. simpl.
  rewrite (toLowerChar_slugChar _ Hc). f_equal. exact IH.
Qed.

(** The slugs that the seed script writes by hand are the generated
    ones. *)
Example generateSlug_wall_art :
  generateSlug "Wall Art & Decor" = "wall-art-decor".
Proof. reflexivity. Qed.

Example generateSlug_furniture :
  generateSlug "Furniture & Storage" = "furniture-storage".
Proof. reflexivity. Qed.

Example generateSlug_runs :
  generateSlug "  __Hello,  World!--  " = "hello-world".
Proof. reflexivity. Qed.

Example generateSlug_only_separators : generateSlug " -_- " = "".
Proof. reflexivity. Qed.

(** The setter [lowercase: true] leaves a generated slug as it is. *)
Lemma lowerString_generateSlug text :
  CategoryModel.lowerString (generateSlug text) = generateSlug text.
Proof.
  unfold CategoryModel.lowerString. rewrite generateSlug_chars.
  rewrite toLowerCase_slugChars by apply generateSlugChars_slugChars.
  reflexivity.
Qed.

End SlugFacts.

(* ===================================================================== *)
(** ** generateSlug on UTF-16 code units                                  *)
(* ===================================================================== *)

Module Utf16Facts.
Import Utils Utf16.

(** *** Code units *)

Ltac units_to_prop :=
  unfold isSeparator, isKept, isWordChar, isUpper, isLower, isDigit,
    isUnderscore, isHyphen, isSpace, isSlugUnit, between in *;
  repeat rewrite ?orb_true_iff, ?andb_true_iff, ?orb_false_iff,
    ?andb_false_iff, ?N.leb_le, ?N.eqb_eq, ?N.leb_gt, ?N.eqb_neq in *.

Lemma isWhiteSpace_isSpace u : isWhiteSpace u = isSpace u.
Proof.
  destruct (isWhiteSpace u) eqn:E.
  - unfold isWhiteSpace in E. apply existsb_exists in E as (x & Hin & Hx).
    apply N.eqb_eq in Hx. subst x. simpl in Hin.
    repeat (destruct Hin as [<- | Hin]; [reflexivity|]). contradiction.
  - destruct (isSpace u) eqn:E'; [|reflexivity].
    assert (Hu : In u whiteSpaceUnits).
    { unfold whiteSpaceUnits. units_to_prop. simpl. lia. }
    assert (isWhiteSpace u = true).
    { apply existsb_exists. exists u. split; [exact Hu|apply N.eqb_refl]. }
    congruence.
Qed.

Lemma u_hyphen_is_separator u : isHyphen u = true -> isSeparator u = true.
Proof. unfold isSeparator. intros ->. apply orb_true_r. Qed.

Lemma not_separator_not_hyphen u : isSeparator u = false -> isHyphen u = false.
Proof.
  intros Hs. destruct (isHyphen u) eqn:Hh; [|reflexivity].
  apply u_hyphen_is_separator in Hh. congruence.
Qed.

Lemma u_space_is_separator u : isSpace u = true -> isSeparator u = true.
Proof. unfold isSeparator. intros ->. reflexivity. Qed.

Lemma u_space_is_kept u : isSpace u = true -> isKept u = true.
Proof. unfold isKept. intros ->. rewrite orb_true_r. reflexivity. Qed.

Lemma separator_is_kept u : isSeparator u = true -> isKept u = true.
Proof.
  unfold isSeparator, isKept, isWordChar.
  destruct (isSpace u), (isUnderscore u), (isHyphen u), (isUpper u),
    (isLower u), (isDigit u); simpl; congruence.
Qed.

(** The three kinds of the specification are the classes of the regular
    expressions. *)
Lemma kind_classes u :
  kind u = if isSeparator u then Separator
           else if isKept u then WordPart else Special.
Proof.
  unfold kind. rewrite isWhiteSpace_isSpace.
  change ((isSpace u || (u =? 95)%N || (u =? 45)%N))
    with (isSeparator u).
  destruct (isSeparator u) eqn:Hs.
  - destruct ((97 <=? u)%N && (u <=? 122)%N || (65 <=? u)%N && (u <=? 90)%N
              || (48 <=? u)%N && (u <=? 57)%N) eqn:Hw; [|reflexivity].
    exfalso. units_to_prop. lia.
  - destruct (isKept u) eqn:Hk.
    + destruct ((97 <=? u)%N && (u <=? 122)%N || (65 <=? u)%N && (u <=? 90)%N
                || (48 <=? u)%N && (u <=? 57)%N) eqn:Hw; [reflexivity|].
      exfalso. units_to_prop. lia.
    + destruct ((97 <=? u)%N && (u <=? 122)%N || (65 <=? u)%N && (u <=? 90)%N
                || (48 <=? u)%N && (u <=? 57)%N) eqn:Hw; [|reflexivity].
      exfalso. units_to_prop. lia.
Qed.

Lemma kind_isAlnum u :
  kind u = (if isAlnum u then WordPart
            else if isSeparator u then Separator else Special).
Proof.
  unfold kind. rewrite isWhiteSpace_isSpace.
  change ((isSpace u || (u =? 95)%N || (u =? 45)%N)) with (isSeparator u).
  unfold isAlnum, isUpper, isLower, isDigit, between.
  destruct ((97 <=? u)%N && (u <=? 122)%N), ((65 <=? u)%N && (u <=? 90)%N),
    ((48 <=? u)%N && (u <=? 57)%N); reflexivity.
Qed.

Lemma kept_word_unit u :
  isKept u = true -> isSeparator u = false -> isUpper u = false ->
  isSlugUnit u = true.
Proof. intros Hk Hs Hu. units_to_prop. lia. Qed.

(** *** Only lower-case letters, digits and hyphens *)

Lemma u_removeSpecial_Forall (Q : N -> Prop) l :
  Forall Q l -> Forall (fun u => Q u /\ isKept u = true) (removeSpecial l).
Proof.
  induction 1 as [|x l Hx Hl IH]; simpl; [constructor|].
  destruct (isKept x) eqn:Hk; [|exact IH].
  constructor; [split; assumption | exact IH].
Qed.

Lemma hyphenate_slugUnits b l :
  Forall (fun u => isUpper u = false /\ isKept u = true) l ->
  Forall (fun u => isSlugUnit u = true) (hyphenate b l).
Proof.
  intros H. revert b. induction H as [|x l [Hu Hk] Hl IH]; intros b; simpl.
  - constructor.
  - destruct (isSeparator x) eqn:Hs.
    + destruct b; [apply IH | constructor; [reflexivity | apply IH]].
    + constructor; [|apply IH]. apply kept_word_unit; assumption.
Qed.

Lemma slugOfLowered_slugUnits lowered :
  Forall (fun u => isUpper u = false) lowered ->
  Forall (fun u => isSlugUnit u = true) (slugOfLowered lowered).
Proof.
  intros H. unfold slugOfLowered, stripHyphens, trim.
  apply SlugFacts.dropWhileEnd_Forall, SlugFacts.dropWhileStart_Forall,
    hyphenate_slugUnits.
  apply u_removeSpecial_Forall, SlugFacts.dropWhileEnd_Forall,
    SlugFacts.dropWhileStart_Forall, H.
Qed.

(** *** No hyphen at either end *)

Lemma slugOfLowered_head lowered : head (slugOfLowered lowered) <> Some hyphen.
Proof.
  unfold slugOfLowered, stripHyphens. intros H.
  apply SlugFacts.dropWhileEnd_head, SlugFacts.dropWhileStart_head in H.
  discriminate H.
Qed.

Lemma slugOfLowered_last lowered : last (slugOfLowered lowered) <> Some hyphen.
Proof.
  unfold slugOfLowered, stripHyphens. intros H.
  apply SlugFacts.dropWhileEnd_last in H. discriminate H.
Qed.

(** *** The slug joins the words of the text *)

Lemma u_hyphenate_true_head l :
  dropWhileStart isHyphen (hyphenate true l) = hyphenate true l.
Proof.
  induction l as [|c r IH]; simpl; [reflexivity|].
  destruct (isSeparator c) eqn:Hs; [exact IH|].
  simpl. rewrite (not_separator_not_hyphen _ Hs). reflexivity.
Qed.

Lemma u_hyphenate_strip_start l :
  dropWhileStart isHyphen (hyphenate false l) = hyphenate true l.
Proof.
  destruct l as [|c r]; simpl; [reflexivity|].
  destruct (isSeparator c) eqn:Hs.
  - simpl. apply u_hyphenate_true_head.
  - simpl. rewrite (not_separator_not_hyphen _ Hs). reflexivity.
Qed.

Lemma u_removeSpecial_cons u r :
  removeSpecial (u :: r)
  = if isKept u then u :: removeSpecial r else removeSpecial r.
Proof. reflexivity. Qed.

(** What comes first once the special characters are removed. *)
Lemma continuesWord_removeSpecial l :
  continuesWord l
  = match removeSpecial l with
    | u :: _ => negb (isSeparator u)
    | [] => false
    end.
Proof.
  induction l as [|u r IH]; [reflexivity|].
  cbn [continuesWord]. rewrite u_removeSpecial_cons, kind_classes.
  destruct (isSeparator u) eqn:Hs.
  - rewrite (separator_is_kept _ Hs), Hs. reflexivity.
  - destruct (isKept u); [rewrite Hs; reflexivity | exact IH].
Qed.

Lemma words_nonempty l : Forall (fun w => w <> []) (words l).
Proof.
  induction l as [|u r IH]; simpl; [constructor|].
  destruct (kind u); try exact IH.
  destruct (continuesWord r).
  - destruct IH; simpl; repeat constructor; auto; discriminate.
  - constructor; [discriminate | exact IH].
Qed.

Lemma words_continuesWord l : continuesWord l = true -> words l <> [].
Proof.
  induction l as [|u r IH]; simpl; [discriminate|].
  destruct (kind u); [|discriminate|exact IH]. intros _.
  destruct (continuesWord r); [destruct (words r)|]; discriminate.
Qed.

Lemma u_joinHyphen_nil ws :
  Forall (fun w => w <> []) ws -> joinHyphen ws = [] -> ws = [].
Proof.
  destruct 1 as [|w ws Hw Hws]; [reflexivity|]. simpl.
  destruct ws; [congruence|]. destruct w; [congruence | discriminate].
Qed.

Lemma u_joinHyphen_consWord u ws :
  ws <> [] -> joinHyphen (consWord u ws) = u :: joinHyphen ws.
Proof.
  destruct ws as [|w ws]; [congruence|]. intros _. simpl.
  destruct ws; reflexivity.
Qed.

(** Deleting the trailing hyphen of the scan leaves the words joined by
    single hyphens. *)
Lemma u_hyphenate_words l :
  dropWhileEnd isHyphen (hyphenate true (removeSpecial l))
  = joinHyphen (words l).
Proof.
  induction l as [|u r IH]; [reflexivity|].
  rewrite u_removeSpecial_cons. cbn [words]. rewrite kind_classes.
  destruct (isSeparator u) eqn:Hs.
  - rewrite (separator_is_kept _ Hs). cbn [hyphenate]. rewrite Hs. exact IH.
  - destruct (isKept u) eqn:Hk; [|exact IH].
    cbn [hyphenate]. rewrite Hs.
    rewrite (SlugFacts.dropWhileEnd_keep _ _ _ (not_separator_not_hyphen _ Hs)).
    rewrite continuesWord_removeSpecial.
    destruct (removeSpecial r) as [|u' r'] eqn:Er.
    + (* the text is over *)
      simpl in IH |- *. symmetry in IH.
      apply u_joinHyphen_nil in IH; [|apply words_nonempty].
      rewrite IH. reflexivity.
    + destruct (isSeparator u') eqn:Hs'; cbn [negb].
      * (* the word ends here *)
        assert (E : hyphenate false (u' :: r')
                    = hyphen :: hyphenate true (u' :: r')).
        { simpl. rewrite Hs'. reflexivity. }
        rewrite E, SlugFacts.dropWhileEnd_cons, IH.
        pose proof (words_nonempty r) as Hne.
        destruct (joinHyphen (words r)) as [|x xs] eqn:Ej.
        -- apply u_joinHyphen_nil in Ej; [|exact Hne]. rewrite Ej. reflexivity.
        -- destruct (words r) as [|w ws] eqn:Ew; [discriminate Ej|].
           change (joinHyphen ([u] :: w :: ws))
             with (([u] ++ 45%N :: joinHyphen (w :: ws))%list).
           rewrite Ej. reflexivity.
      * (* the word goes on *)
        assert (E : hyphenate false (u' :: r') = hyphenate true (u' :: r')).
        { simpl. rewrite Hs'. reflexivity. }
        rewrite E, IH. symmetry.
        apply u_joinHyphen_consWord, words_continuesWord.
        rewrite continuesWord_removeSpecial, Er, Hs'. reflexivity.
Qed.

(** Trimming changes neither the words nor whether the text starts with
    one. *)
Lemma words_space u r :
  isSpace u = true -> words (u :: r) = words r /\ continuesWord (u :: r) = false.
Proof.
  intros Hsp. cbn [words continuesWord]. rewrite kind_classes.
  rewrite (u_space_is_separator _ Hsp). split; reflexivity.
Qed.

Lemma words_trimStart l : words (dropWhileStart isSpace l) = words l.
Proof.
  induction l as [|u r IH]; [reflexivity|].
  cbn [dropWhileStart]. destruct (isSpace u) eqn:Hsp; [|reflexivity].
  rewrite IH. symmetry. apply words_space, Hsp.
Qed.

Lemma words_cons u r :
  words (u :: r)
  = match kind u with
    | WordPart =>
        if continuesWord r then consWord u (words r) else [u] :: words r
    | _ => words r
    end.
Proof. reflexivity. Qed.

Lemma continuesWord_cons u r :
  continuesWord (u :: r)
  = match kind u with
    | WordPart => true
    | Separator => false
    | Special => continuesWord r
    end.
Proof. reflexivity. Qed.

Lemma words_trimEnd l :
  words (dropWhileEnd isSpace l) = words l
  /\ continuesWord (dropWhileEnd isSpace l) = continuesWord l.
Proof.
  induction l as [|u r [IHw IHc]]; [split; reflexivity|].
  rewrite SlugFacts.dropWhileEnd_cons.
  destruct (dropWhileEnd isSpace r) as [|y r'] eqn:E.
  - (* everything after [u] is white space *)
    change (words []) with (@nil (list N)) in IHw.
    change (continuesWord []) with false in IHc.
    destruct (isSpace u) eqn:Hsp.
    + destruct (words_space u r Hsp) as [-> ->]. split; [exact IHw|reflexivity].
    + rewrite (words_cons u []), (words_cons u r).
      rewrite (continuesWord_cons u []), (continuesWord_cons u r).
      rewrite <- IHw, <- IHc. split; reflexivity.
  - rewrite (words_cons u (y :: r')), (words_cons u r).
    rewrite (continuesWord_cons u (y :: r')), (continuesWord_cons u r).
    rewrite IHw, IHc. split; reflexivity.
Qed.

Theorem slugOfLowered_spec lowered : slugOfLowered lowered = slugSpec lowered.
Proof.
  unfold slugOfLowered, slugSpec, stripHyphens, trim.
  rewrite u_hyphenate_strip_start, u_hyphenate_words.
  rewrite (proj1 (words_trimEnd _)), words_trimStart. reflexivity.
Qed.

(** *** One hyphen at a time *)

Lemma words_wordParts l :
  Forall (Forall (fun u => kind u = WordPart)) (words l).
Proof.
  induction l as [|u r IH]; simpl; [constructor|].
  destruct (kind u) eqn:Hk; try exact IH.
  destruct (continuesWord r).
  - destruct IH as [|w ws Hw Hws]; simpl; repeat constructor; assumption.
  - repeat constructor; assumption.
Qed.

Lemma wordPart_not_hyphen u : kind u = WordPart -> (u =? 45)%N = false.
Proof.
  rewrite kind_classes. destruct (isSeparator u) eqn:Hs; [discriminate|].
  intros _. exact (not_separator_not_hyphen _ Hs).
Qed.

Lemma u_noDoubleHyphen_cons u u' r :
  noDoubleHyphen (u :: u' :: r)
  = negb ((u =? 45) && (u' =? 45))%N && noDoubleHyphen (u' :: r).
Proof. reflexivity. Qed.

Lemma u_noDoubleHyphen_app w r :
  Forall (fun u => kind u = WordPart) w ->
  noDoubleHyphen r = true -> noDoubleHyphen (w ++ r) = true.
Proof.
  intros Hw Hr. induction Hw as [|u w Hu Hw IH]; [exact Hr|].
  change ((u :: w) ++ r)%list with (u :: (w ++ r))%list.
  destruct (w ++ r)%list as [|u' t] eqn:E; [reflexivity|].
  rewrite u_noDoubleHyphen_cons, (wordPart_not_hyphen _ Hu), IH. reflexivity.
Qed.

Lemma u_noDoubleHyphen_join ws :
  Forall (fun w => w <> []) ws ->
  Forall (Forall (fun u => kind u = WordPart)) ws ->
  noDoubleHyphen (joinHyphen ws) = true.
Proof.
  intros Hne Hsep. induction Hsep as [|w ws Hw Hws IH]; [reflexivity|].
  inversion Hne as [|? ? Hw0 Hne']; subst.
  destruct ws as [|w2 ws2].
  - simpl. rewrite <- (app_nil_r w). apply u_noDoubleHyphen_app; auto.
  - change (joinHyphen (w :: w2 :: ws2))
      with ((w ++ 45%N :: joinHyphen (w2 :: ws2))%list).
    apply u_noDoubleHyphen_app; [exact Hw|].
    specialize (IH Hne').
    inversion Hws as [|? ? Hw2 _]; subst.
    inversion Hne' as [|? ? Hw2ne _]; subst.
    destruct w2 as [|x w2']; [congruence|].
    inversion Hw2 as [|? ? Hx _]; subst.
    assert (E : exists t, joinHyphen ((x :: w2') :: ws2) = x :: t).
    { destruct ws2; simpl; eauto. }
    destruct E as [t E]. rewrite E in IH |- *.
    rewrite u_noDoubleHyphen_cons, (wordPart_not_hyphen _ Hx), IH,
      andb_false_r. reflexivity.
Qed.

Lemma slugOfLowered_single_hyphens lowered :
  noDoubleHyphen (slugOfLowered lowered) = true.
Proof.
  rewrite slugOfLowered_spec. unfold slugSpec.
  apply u_noDoubleHyphen_join; [apply words_nonempty | apply words_wordParts].
Qed.

(** *** The slug is empty when the text has no word *)

Lemma words_nil l :
  words l = [] <-> Forall (fun u => kind u <> WordPart) l.
Proof.
  induction l as [|u r IH]; [split; constructor|].
  cbn [words]. destruct (kind u) eqn:Hk.
  - split.
    + destruct (continuesWord r); [destruct (words r)|]; discriminate.
    + intros H. inversion H; subst. congruence.
  - rewrite IH. split; [intros H; constructor; [congruence|exact H]|].
    intros H. inversion H; assumption.
  - rewrite IH. split; [intros H; constructor; [congruence|exact H]|].
    intros H. inversion H; assumption.
Qed.

Lemma slugOfLowered_nil lowered :
  slugOfLowered lowered = []
  <-> Forall (fun u => kind u <> WordPart) lowered.
Proof.
  rewrite slugOfLowered_spec, <- words_nil. unfold slugSpec. split.
  - apply u_joinHyphen_nil, words_nonempty.
  - intros ->. reflexivity.
Qed.

(** *** The strings of the other modules *)

Ltac all_chars c :=
  destruct c as [[] [] [] [] [] [] [] []]; vm_compute; reflexivity.

Lemma code_isSpace c : isSpace (Chars.code c) = Chars.isSpace c.
Proof. all_chars c. Qed.

Lemma code_isKept c : isKept (Chars.code c) = Chars.isKept c.
Proof. all_chars c. Qed.

Lemma code_isSeparator c : isSeparator (Chars.code c) = Chars.isSeparator c.
Proof. all_chars c. Qed.

Lemma code_isHyphen c : isHyphen (Chars.code c) = Chars.isHyphen c.
Proof. all_chars c. Qed.

Section Maps.
Context {A B : Type} (f : A -> B) (p : A -> bool) (q : B -> bool).
Hypothesis agree : forall x, q (f x) = p x.

Lemma map_dropWhileStart l :
  map f (dropWhileStart p l) = dropWhileStart q (map f l).
Proof.
  induction l as [|x r IH]; [reflexivity|]. simpl. rewrite agree.
  destruct (p x); [exact IH|reflexivity].
Qed.

Lemma map_dropWhileEnd l :
  map f (dropWhileEnd p l) = dropWhileEnd q (map f l).
Proof.
  induction l as [|x r IH]; [reflexivity|].
  cbn [map]. rewrite !SlugFacts.dropWhileEnd_cons, <- IH, agree.
  destruct (dropWhileEnd p r); [destruct (p x)|]; reflexivity.
Qed.

Lemma map_filter l : map f (List.filter p l) = List.filter q (map f l).
Proof.
  induction l as [|x r IH]; [reflexivity|]. simpl. rewrite agree.
  destruct (p x); simpl; rewrite IH; reflexivity.
Qed.
End Maps.

Lemma map_hyphenate b l :
  map Chars.code (Utils.hyphenate b l) = hyphenate b (map Chars.code l).
Proof.
  revert b. induction l as [|c r IH]; intros b; [reflexivity|]. simpl.
  rewrite code_isSeparator. destruct (Chars.isSeparator c).
  - destruct b; simpl; rewrite IH; reflexivity.
  - simpl. rewrite IH. reflexivity.
Qed.

(** On a string whose code units lie below 256 the two embeddings of
    [generateSlug] agree. *)
Lemma units_generateSlug text :
  units (Utils.generateSlug text)
  = slugOfLowered (units (CategoryModel.lowerString text)).
Proof.
  unfold units, Utils.generateSlug, CategoryModel.lowerString.
  rewrite !list_ascii_of_string_of_list_ascii.
  unfold Utils.generateSlugChars, slugOfLowered, Utils.stripHyphens,
    stripHyphens, Utils.trim, trim, Utils.removeSpecial, removeSpecial.
  rewrite (map_dropWhileEnd Chars.code Chars.isHyphen isHyphen code_isHyphen).
  rewrite (map_dropWhileStart Chars.code Chars.isHyphen isHyphen code_isHyphen).
  rewrite map_hyphenate.
  rewrite (map_filter Chars.code Chars.isKept isKept code_isKept).
  rewrite (map_dropWhileEnd Chars.code Chars.isSpace isSpace code_isSpace).
  rewrite (map_dropWhileStart Chars.code Chars.isSpace isSpace code_isSpace).
  reflexivity.
Qed.

End Utf16Facts.

(* ===================================================================== *)
(** ** Documents, hooks and [save]                                        *)
(* ===================================================================== *)

Module ModelFacts.
Import Types Store Mongoose Utils DecorModel.

Ltac break_if :=
  match goal with
  | |- context [if ?b then _ else _] => destruct b eqn:?
  | H : context [if ?b then _ else _] |- _ => destruct b eqn:?
  end.

Ltac by_cases :=
  repeat break_if; simpl in *; try reflexivity; try congruence.

Ltac hooks :=
  unfold preSave, preSave_originalPrice, preSave_status, preSave_slug,
    set_name, set_slug, set_category, set_price, set_originalPrice,
    set_stock, set_status, timestamps, with_fields, assign in *.

(** *** Assignments *)

Lemma isModified_assign_ne (q p : Path) changed f (d : DecorDoc) :
  q <> p -> isModified q (assign p changed f d) = isModified q d.
Proof.
  intros Hne. unfold assign, isModified. simpl.
  repeat break_if; try reflexivity.
  apply bool_decide_ext. rewrite elem_of_cons. tauto.
Qed.

Lemma isModified_assign_eq (p : Path) changed f (d : DecorDoc) :
  isModified p (assign p changed f d)
  = isModified p d || doc_isNew d || changed.
Proof.
  unfold assign, isModified. simpl.
  destruct (bool_decide (p ∈ doc_modified d)) eqn:E; [exact E|].
  simpl. destruct (doc_isNew d || changed) eqn:E'; [|exact E].
  apply bool_decide_eq_true, elem_of_cons. left. reflexivity.
Qed.

Lemma isModified_hydrate (p : Path) id (f : Decor) :
  isModified p (hydrate id f) = false.
Proof. reflexivity. Qed.

Lemma isModified_reset (p : Path) (d : DecorDoc) :
  isModified p (reset d) = false.
Proof. reflexivity. Qed.

(** *** The hooks leave the identifier and the name alone *)

Lemma timestamps_id now (d : DecorDoc) : doc_id (timestamps now d) = doc_id d.
Proof. hooks. by_cases. Qed.

Lemma timestamps_modified now (d : DecorDoc) :
  doc_modified (timestamps now d) = doc_modified d.
Proof. hooks. by_cases. Qed.

Lemma timestamps_isNew now (d : DecorDoc) :
  doc_isNew (timestamps now d) = doc_isNew d.
Proof. hooks. by_cases. Qed.

Lemma preSave_id (d : DecorDoc) : doc_id (preSave d) = doc_id d.
Proof. hooks. by_cases. Qed.

Lemma preSave_name (d : DecorDoc) :
  d_name (doc_fields (preSave d)) = d_name (doc_fields d).
Proof. hooks. by_cases. Qed.

Lemma timestamps_name now (d : DecorDoc) :
  d_name (doc_fields (timestamps now d)) = d_name (doc_fields d).
Proof. hooks. by_cases. Qed.

(** *** The post hook sees a document that [save] has reset *)

Lemma postSave_reset now (d : DecorDoc) db : postSave now (reset d) db = db.
Proof. reflexivity. Qed.

(** *** What [save] does when it succeeds, and when it throws *)

Lemma save_success now (d : DecorDoc) db db' saved :
  save now d db = (db', Some saved) ->
  validate (doc_fields d) = true
  /\ saved = reset (preSave (timestamps now d))
  /\ doc_id saved = doc_id d
  /\ db' = with_decors (<[doc_id d := doc_fields saved]> (db_decors db)) db.
Proof.
  unfold save. destruct (validate (doc_fields d)); simpl; [|discriminate].
  break_if; [discriminate|]. rewrite postSave_reset.
  rewrite preSave_id, timestamps_id. intros [= <- <-].
  repeat split. simpl. rewrite preSave_id, timestamps_id. reflexivity.
Qed.

Lemma save_failure now (d : DecorDoc) db db' :
  save now d db = (db', None) -> db' = db.
Proof.
  unfold save. destruct (negb (validate (doc_fields d))); [congruence|].
  break_if; congruence.
Qed.

Lemma save_categories now (d : DecorDoc) db :
  db_categories (fst (save now d db)) = db_categories db.
Proof.
  unfold save. destruct (negb (validate (doc_fields d))); [reflexivity|].
  break_if; [reflexivity|]. rewrite postSave_reset. reflexivity.
Qed.

(** *** The slug hook *)

Lemma preSave_slug_of_name (d : DecorDoc) :
  isModified P_name d = true ->
  d_slug (doc_fields (preSave d))
  = Some (generateSlug (d_name (doc_fields d))).
Proof.
  intros Hm. hooks. rewrite Hm. simpl.
  rewrite SlugFacts.lowerString_generateSlug.
  repeat break_if; reflexivity.
Qed.

(** *** The status hook *)

Lemma preSave_status_fields (d : DecorDoc) :
  d_status (doc_fields (preSave_status d))
  = if isModified P_stock d then
      if (d_stock (doc_fields d) =? 0)
         && negb (DecorStatus_eqb (d_status (doc_fields d)) DISCONTINUED)
      then OUT_OF_STOCK
      else if (0 <? d_stock (doc_fields d))
              && DecorStatus_eqb (d_status (doc_fields d)) OUT_OF_STOCK
           then ACTIVE
           else d_status (doc_fields d)
    else d_status (doc_fields d).
Proof. hooks. by_cases. Qed.

Lemma preSave_status_eq (d : DecorDoc) :
  d_status (doc_fields (preSave d))
  = d_status (doc_fields (preSave_status (preSave_slug d))).
Proof. hooks. by_cases. Qed.

Lemma preSave_slug_keeps (d : DecorDoc) :
  d_stock (doc_fields (preSave_slug d)) = d_stock (doc_fields d)
  /\ d_status (doc_fields (preSave_slug d)) = d_status (doc_fields d)
  /\ isModified P_stock (preSave_slug d) = isModified P_stock d.
Proof.
  unfold preSave_slug, set_slug. break_if; [|auto].
  rewrite isModified_assign_ne by discriminate. auto.
Qed.

(** What the pre-save hook makes of the status. *)
Lemma preSave_status_spec (d : DecorDoc) :
  d_status (doc_fields (preSave d))
  = if isModified P_stock d then
      if (d_stock (doc_fields d) =? 0)
         && negb (DecorStatus_eqb (d_status (doc_fields d)) DISCONTINUED)
      then OUT_OF_STOCK
      else if (0 <? d_stock (doc_fields d))
              && DecorStatus_eqb (d_status (doc_fields d)) OUT_OF_STOCK
           then ACTIVE
           else d_status (doc_fields d)
    else d_status (doc_fields d).
Proof.
  rewrite preSave_status_eq, preSave_status_fields.
  destruct (preSave_slug_keeps d) as (-> & -> & ->). reflexivity.
Qed.

(** *** The price hook *)

Lemma preSave_prices (d : DecorDoc) :
  d_price (doc_fields (preSave d)) = d_price (doc_fields d)
  /\ d_originalPrice (doc_fields (preSave d))
     = if originalPriceNotAbovePrice (doc_fields d) then None
       else d_originalPrice (doc_fields d).
Proof.
  hooks. unfold originalPriceNotAbovePrice in *.
  repeat break_if; simpl in *; auto; congruence.
Qed.

End ModelFacts.

(* ===================================================================== *)
(** ** Pagination                                                         *)
(* ===================================================================== *)

Module PaginationFacts.
Import Utils ListEndpoints.

(** [ceilDiv a b] is the least number of pages of [b] items that hold [a]
    items. *)
Lemma ceilDiv_spec a b :
  0 < b -> (ceilDiv a b - 1) * b < a <= ceilDiv a b * b.
Proof.
  intros Hb. unfold ceilDiv.
  pose proof (Z.div_mod (- a) b ltac:(lia)) as Hdm.
  pose proof (Z.mod_pos_bound (- a) b Hb) as Hr.
  nia.
Qed.

Lemma parseIntOr_default d : parseIntOr None d = d.
Proof. reflexivity. Qed.

Lemma accepts_bounds lo hi v d :
  accepts {| ns_min := lo; ns_max := hi |} v = true ->
  0 < lo -> lo <= d ->
  lo <= parseIntOr v d
  /\ (forall m, hi = Some m -> d <= m -> parseIntOr v d <= m).
Proof.
  unfold accepts, parseIntOr. simpl. destruct v as [n|].
  - intros H Hlo Hd. apply andb_true_iff in H as [H1 H2].
    apply Z.leb_le in H1.
    destruct (n =? 0) eqn:E; [apply Z.eqb_eq in E; lia|].
    split; [exact H1|]. intros m -> _. apply Z.leb_le in H2. exact H2.
  - intros _ Hlo Hd. split; [exact Hd|]. intros m _ Hm. exact Hm.
Qed.

Lemma defaultLimit_range e : 10 <= defaultLimit e <= 12.
Proof. destruct e; simpl; lia. Qed.

(** The helper [getPagination] clamps by itself. *)
Lemma getPagination_contract page limit total :
  let g := getPagination page limit total in
  1 <= pg_page g
  /\ 1 <= pg_limit g <= 100
  /\ pg_total g = total
  /\ (pg_pages g - 1) * pg_limit g < total <= pg_pages g * pg_limit g
  /\ pg_skip g = (pg_page g - 1) * pg_limit g
  /\ pg_hasNext g = (pg_page g <? pg_pages g)
  /\ pg_hasPrev g = (1 <? pg_page g).
Proof.
  simpl. repeat split; try lia.
  - apply ceilDiv_spec. lia.
  - apply ceilDiv_spec. lia.
Qed.

End PaginationFacts.




(* ===================================================================== *)
(** ** Authentication                                                     *)
(* ===================================================================== *)

(** C9.  A request to an endpoint behind [authenticate] whose token
    verifies, but whose user is missing from the store or deactivated, is
    answered with 401 and [next()] is not called; [login] answers 403 for a
    deactivated account, whatever [bcrypt.compare] says about the
    password. *)
Theorem authenticate_401_login_403 :
  (forall env now req db token decoded,
      AuthMiddleware.extractToken req = Some token ->
      AuthUtils.verifyToken env now token = Some decoded ->
      (forall user,
          UserModel.findById (Types.au_id (Jwt.jwt_payload decoded)) db = Some user ->
          Types.u_isActive user = false) ->
      AuthMiddleware.authenticate env now req db
      = AuthMiddleware.Respond 401 "Access denied. User not found or inactive.")
  /\ (forall bcrypt_compare env now email password db id user,
         UserModel.findOneByEmail email db = Some (id, user) ->
         Types.u_isActive user = false ->
         AuthController.login bcrypt_compare env now email password db
         = (db, Types.errorResponse 403
                  "Account is deactivated. Please contact support.")).
Proof.
  split.
  - intros env now req db token decoded Ht Hv Hu.
    unfold AuthMiddleware.authenticate. rewrite Ht, Hv.
    destruct (UserModel.findById _ db) as [user|] eqn:E; [|reflexivity].
    rewrite (Hu user eq_refl). reflexivity.
  - intros compare env now email password db id user Hf Ha.
    unfold AuthController.login. rewrite Hf, Ha. reflexivity.
Qed.

(* ===================================================================== *)
(** ** The stock endpoint                                                 *)
(* ===================================================================== *)

Module StockFacts.
Import Types Store Mongoose DecorModel DecorController StockFrame ModelFacts.

Lemma sameButStock_refl a : sameButStock a a.
Proof. unfold sameButStock. tauto. Qed.

Lemma sameButStock_trans a b c :
  sameButStock a b -> sameButStock b c -> sameButStock a c.
Proof. unfold sameButStock. intuition congruence. Qed.

Lemma updateStock_unfold now id stock db d :
  db_decors db !! id = Some d ->
  updateStock now id stock db
  = match save now (stockEdit id stock d) db with
    | (db', Some saved) =>
        (db', successResponse 200 "Stock updated successfully"
                (Some {| sd_id := doc_id saved;
                         sd_stock := d_stock (doc_fields saved);
                         sd_status := d_status (doc_fields saved) |}))
    | (db', None) => (db', errorResponse 500 "Internal server error")
    end.
Proof.
  intros Hd. unfold updateStock, findById. rewrite Hd. reflexivity.
Qed.

Lemma stockEdit_id id stock d : doc_id (stockEdit id stock d) = id.
Proof. unfold stockEdit, set_stock, set_status, assign. by_cases. Qed.

Lemma stockEdit_name_untouched id stock d :
  isModified P_name (stockEdit id stock d) = false.
Proof.
  unfold stockEdit, set_stock, set_status.
  by_cases; rewrite ?isModified_assign_ne by discriminate; reflexivity.
Qed.

Lemma stockEdit_fields id stock d :
  sameButStock d (doc_fields (stockEdit id stock d))
  /\ d_stock (doc_fields (stockEdit id stock d)) = stock
  /\ d_status (doc_fields (stockEdit id stock d))
     = if stock =? 0 then OUT_OF_STOCK
       else if DecorStatus_eqb (d_status d) OUT_OF_STOCK then ACTIVE
            else d_status d.
Proof.
  unfold stockEdit, set_stock, set_status, assign, sameButStock.
  by_cases; tauto.
Qed.

Lemma stockEdit_stock_modified id stock d :
  isModified P_stock (stockEdit id stock d) = negb (stock =? d_stock d).
Proof.
  unfold stockEdit, set_stock, set_status.
  by_cases; rewrite ?isModified_assign_ne by discriminate;
    rewrite isModified_assign_eq; reflexivity.
Qed.

Lemma stockEdit_not_new id stock d : doc_isNew (stockEdit id stock d) = false.
Proof. unfold stockEdit, set_stock, set_status, assign. by_cases. Qed.

Lemma timestamps_fields now (d : DecorDoc) :
  doc_isNew d = false ->
  sameButStock (doc_fields d) (doc_fields (timestamps now d))
  /\ d_stock (doc_fields (timestamps now d)) = d_stock (doc_fields d)
  /\ d_status (doc_fields (timestamps now d)) = d_status (doc_fields d).
Proof.
  intros Hn. unfold timestamps, with_fields, sameButStock. rewrite Hn.
  by_cases; tauto.
Qed.

Lemma preSave_frame (d : DecorDoc) :
  isModified P_name d = false ->
  originalPriceNotAbovePrice (doc_fields d) = false ->
  sameButStock (doc_fields d) (doc_fields (preSave d)).
Proof.
  intros Hn Ho. hooks. unfold sameButStock, originalPriceNotAbovePrice in *.
  rewrite Hn. by_cases; tauto.
Qed.

(** An original price above the price is not "not above" it. *)
Lemma invariant_keeps_originalPrice (d : Decor) :
  (forall o, d_originalPrice d = Some o -> (d_price d < o)%Q) ->
  originalPriceNotAbovePrice d = false.
Proof.
  intros H. unfold originalPriceNotAbovePrice.
  destruct (d_originalPrice d) as [o|]; [|reflexivity].
  specialize (H o eq_refl).
  destruct (Qle_bool o (d_price d)) eqn:E; [|apply andb_false_r].
  apply Qle_bool_iff in E. apply Qle_not_lt in E. contradiction.
Qed.

Lemma originalPriceNotAbovePrice_same a b :
  sameButStock a b ->
  originalPriceNotAbovePrice b = originalPriceNotAbovePrice a.
Proof.
  unfold sameButStock, originalPriceNotAbovePrice.
  intros (_ & _ & _ & _ & -> & -> & _). reflexivity.
Qed.

End StockFacts.

(** C10.  For an existing decor and any stock value (a negative one is
    refused by the validators and changes nothing), the stock endpoint
    leaves name, slug, description, category, price, original price, images,
    tags, materials, the featured flag, the rating and the counters of that
    decor as they are, provided the stored original price, when present, is
    above the price; no other decor, no category and no user changes. *)
Theorem updateStock_frame now id stock db d :
  Store.db_decors db !! id = Some d ->
  (forall o, Store.d_originalPrice d = Some o -> (Store.d_price d < o)%Q) ->
  let db' := fst (DecorController.updateStock now id stock db) in
  (exists d', Store.db_decors db' !! id = Some d' /\ StockFrame.sameButStock d d')
  /\ (forall other, other <> id ->
        Store.db_decors db' !! other = Store.db_decors db !! other)
  /\ Store.db_categories db' = Store.db_categories db
  /\ Store.db_users db' = Store.db_users db.
Proof.
  intros Hd Hinv. simpl.
  rewrite (StockFacts.updateStock_unfold now id stock db d Hd).
  destruct (DecorModel.save now (StockFrame.stockEdit id stock d) db)
    as [db' [saved|]] eqn:E.
  - apply ModelFacts.save_success in E as (_ & -> & _ & ->).
    rewrite StockFacts.stockEdit_id. simpl.
    repeat split.
    + eexists. split; [apply lookup_insert_eq|].
      destruct (StockFacts.stockEdit_fields id stock d) as (H1 & _ & _).
      destruct (StockFacts.timestamps_fields now _
                  (StockFacts.stockEdit_not_new id stock d)) as (H2 & _ & _).
      eapply StockFacts.sameButStock_trans; [exact H1|].
      eapply StockFacts.sameButStock_trans; [exact H2|].
      apply StockFacts.preSave_frame.
      * unfold Mongoose.isModified.
        rewrite ModelFacts.timestamps_modified.
        apply (StockFacts.stockEdit_name_untouched id stock d).
      * rewrite (StockFacts.originalPriceNotAbovePrice_same d).
        -- apply StockFacts.invariant_keeps_originalPrice, Hinv.
        -- eapply StockFacts.sameButStock_trans; eassumption.
    + intros other Hne. apply lookup_insert_ne. congruence.
  - apply ModelFacts.save_failure in E as ->. simpl.
    repeat split. exists d. split; [exact Hd | apply StockFacts.sameButStock_refl].
Qed.

(* ===================================================================== *)
(** ** The slug of a saved document                                       *)
(* ===================================================================== *)

Module CategoryFacts.
Import Types Store Mongoose Utils CategoryModel.

Lemma category_save_success now (d : CategoryDoc) db db' saved :
  save now d db = (db', Some saved) ->
  saved = reset (preSave (timestamps now d))
  /\ db' = with_categories
             (<[doc_id d := doc_fields saved]> (db_categories db)) db.
Proof.
  unfold save. destruct (negb (validate (doc_fields d))); [discriminate|].
  destruct (_ || _); [discriminate|]. intros [= <- <-].
  split; [reflexivity|]. f_equal. f_equal.
  unfold preSave, set_slug, assign, timestamps, with_fields.
  repeat match goal with
         | |- context [if ?b then _ else _] => destruct b
         end; reflexivity.
Qed.

Lemma saved_slug now (d : CategoryDoc) :
  isModified P_name d = true ->
  c_slug (doc_fields (preSave (timestamps now d)))
  = Some (generateSlug (c_name (doc_fields (preSave (timestamps now d))))).
Proof.
  intros Hm.
  assert (Hm' : isModified P_name (timestamps now d) = true).
  { unfold timestamps, with_fields.
    destruct (doc_isNew d); [exact Hm|]. destruct (anyModified d); exact Hm. }
  unfold preSave. rewrite Hm'. unfold set_slug, assign. simpl.
  rewrite SlugFacts.lowerString_generateSlug. reflexivity.
Qed.

End CategoryFacts.

(** C8.  When a Decor or a Category is saved with its name set or changed,
    the stored slug is [generateSlug] of the stored name.  For every text,
    [generateSlug text] consists of lower-case letters, digits and hyphens
    only, neither starts nor ends with a hyphen, has no two hyphens in a
    row, and is the words of the lower-cased text (its maximal runs of
    letters and digits between white space, underscores and hyphens, once
    the other characters are removed) joined by single hyphens.  This
    holds of the strings whose code units lie below 256, which the stores
    of this development hold, and of every sequence of UTF-16 code units,
    whatever [toLowerCase] makes of it, provided its result holds no
    capital A to Z.  The slugs of five texts are given in full. *)
Theorem slug_is_generateSlug_of_name :
  (forall now (d : DecorModel.DecorDoc) db db' saved,
      Mongoose.isModified DecorModel.P_name d = true ->
      DecorModel.save now d db = (db', Some saved) ->
      exists stored,
        Store.db_decors db' !! Mongoose.doc_id d = Some stored
        /\ Store.d_slug stored = Some (Utils.generateSlug (Store.d_name stored)))
  /\ (forall now (d : CategoryModel.CategoryDoc) db db' saved,
         Mongoose.isModified CategoryModel.P_name d = true ->
         CategoryModel.save now d db = (db', Some saved) ->
         exists stored,
           Store.db_categories db' !! Mongoose.doc_id d = Some stored
           /\ Store.c_slug stored = Some (Utils.generateSlug (Store.c_name stored)))
  /\ (forall text,
         let slug := list_ascii_of_string (Utils.generateSlug text) in
         Forall (fun c => Chars.isLower c || Chars.isDigit c || Chars.isHyphen c = true)
                slug
         /\ head slug <> Some Chars.hyphen
         /\ last slug <> Some Chars.hyphen
         /\ Utils.noDoubleHyphen slug = true
         /\ slug = Utils.slugSpec (list_ascii_of_string text)
         /\ Utf16.units (Utils.generateSlug text)
            = Utf16.slugSpec (Utf16.units (CategoryModel.lowerString text)))
  /\ (forall (toLowerCase : list N -> list N) (text : list N),
         let slug := Utf16.generateSlug toLowerCase text in
         (Forall (fun u => Utf16.isUpper u = false) (toLowerCase text) ->
          Forall (fun u => Utf16.isSlugUnit u = true) slug)
         /\ head slug <> Some 45%N
         /\ last slug <> Some 45%N
         /\ Utf16.noDoubleHyphen slug = true
         /\ slug = Utf16.slugSpec (toLowerCase text))
  /\ Utils.generateSlug "Wall Art & Decor" = "wall-art-decor"
  /\ Utils.generateSlug "  __Hello,  World!--  " = "hello-world"
  /\ Utils.generateSlug "Oak_Table (2nd) - NEW" = "oak-table-2nd-new"
  /\ Utils.generateSlug " -_- " = ""
  /\ Utf16.generateSlug MoreSamples.lowerBasic MoreSamples.kelvinLamp
     = [107; 50; 45; 108; 97; 109; 112; 45; 105]%N.
Proof.
  split; [|split; [|split; [|split]]].
  - intros now d db db' saved Hm Hs.
    apply ModelFacts.save_success in Hs as (_ & -> & _ & ->).
    eexists. split; [apply lookup_insert_eq|]. simpl.
    rewrite ModelFacts.preSave_name.
    apply ModelFacts.preSave_slug_of_name.
    unfold Mongoose.isModified. rewrite ModelFacts.timestamps_modified.
    exact Hm.
  - intros now d db db' saved Hm Hs.
    apply CategoryFacts.category_save_success in Hs as (-> & ->).
    eexists. split; [apply lookup_insert_eq|]. simpl.
    apply CategoryFacts.saved_slug, Hm.
  - intros text slug. subst slug. rewrite SlugFacts.generateSlug_chars.
    repeat split.
    + apply SlugFacts.generateSlugChars_slugChars.
    + apply SlugFacts.generateSlugChars_head.
    + apply SlugFacts.generateSlugChars_last.
    + apply SlugFacts.generateSlugChars_single_hyphens.
    + apply SlugFacts.generateSlugChars_spec.
    + rewrite Utf16Facts.units_generateSlug.
      apply Utf16Facts.slugOfLowered_spec.
  - intros toLowerCase text slug. subst slug. unfold Utf16.generateSlug.
    repeat split.
    + apply Utf16Facts.slugOfLowered_slugUnits.
    + apply Utf16Facts.slugOfLowered_head.
    + apply Utf16Facts.slugOfLowered_last.
    + apply Utf16Facts.slugOfLowered_single_hyphens.
    + apply Utf16Facts.slugOfLowered_spec.
  - repeat split; vm_compute; reflexivity.
Qed.

(* ===================================================================== *)
(** ** Stock and status                                                   *)
(* ===================================================================== *)

Module StatusFacts.
Import Types Store Mongoose DecorModel DecorController ModelFacts.

(** The pre-save hook never takes a discontinued decor out of that
    status. *)
Lemma preSave_keeps_discontinued (d : DecorDoc) :
  d_status (doc_fields d) = DISCONTINUED ->
  d_status (doc_fields (preSave d)) = DISCONTINUED.
Proof.
  intros H. rewrite preSave_status_spec, H. simpl.
  rewrite !andb_false_r. destruct (isModified P_stock d); reflexivity.
Qed.

(** The pre-save hook: a stock changed to 0 puts the decor out of stock,
    unless it is discontinued. *)
Lemma preSave_zero_stock (d : DecorDoc) :
  isModified P_stock d = true ->
  d_stock (doc_fields d) = 0 ->
  d_status (doc_fields d) <> DISCONTINUED ->
  d_status (doc_fields (preSave d)) = OUT_OF_STOCK.
Proof.
  intros Hm Hs Hd. rewrite preSave_status_spec, Hm, Hs. simpl.
  destruct (d_status (doc_fields d)); try reflexivity. congruence.
Qed.

(** The pre-save hook: a stock changed to a positive value makes a decor
    that is out of stock active again. *)
Lemma preSave_restock (d : DecorDoc) :
  isModified P_stock d = true ->
  0 < d_stock (doc_fields d) ->
  d_status (doc_fields d) = OUT_OF_STOCK ->
  d_status (doc_fields (preSave d)) = ACTIVE.
Proof.
  intros Hm Hs Hd. rewrite preSave_status_spec, Hm, Hd.
  destruct (d_stock (doc_fields d) =? 0) eqn:E; [apply Z.eqb_eq in E; lia|].
  apply Z.ltb_lt in Hs. rewrite Hs. reflexivity.
Qed.

(** The status that a successful [updateStock] stores: the controller
    decides it, and does not look at [discontinued]. *)
Lemma updateStock_status now id stock db d db' r :
  db_decors db !! id = Some d ->
  updateStock now id stock db = (db', r) ->
  res_status r = 200 ->
  d_status <$> db_decors db' !! id
  = Some (if stock =? 0 then OUT_OF_STOCK
          else if DecorStatus_eqb (d_status d) OUT_OF_STOCK then ACTIVE
               else d_status d).
Proof.
  intros Hd Hu Hr. rewrite (StockFacts.updateStock_unfold _ _ _ _ _ Hd) in Hu.
  destruct (save now (StockFrame.stockEdit id stock d) db)
    as [db1 [saved|]] eqn:E; inversion Hu; subst; [|discriminate Hr].
  apply save_success in E as (_ & -> & _ & ->).
  rewrite StockFacts.stockEdit_id. simpl. rewrite lookup_insert_eq. simpl.
  f_equal. rewrite preSave_status_spec.
  destruct (StockFacts.timestamps_fields now _
              (StockFacts.stockEdit_not_new id stock d)) as (_ & -> & ->).
  destruct (StockFacts.stockEdit_fields id stock d) as (_ & -> & ->).
  destruct (isModified P_stock _); [|reflexivity].
  destruct (stock =? 0) eqn:E0; [reflexivity|]. simpl.
  destruct (d_status d); simpl; rewrite ?andb_false_r; reflexivity.
Qed.

End StatusFacts.

(** C1 (the code departs from the claim).  The lamp is discontinued and
    five are in stock; setting its stock to 0 through the stock endpoint
    succeeds and stores the status out_of_stock, where the pre-save hook
    alone would have kept discontinued. *)
Theorem updateStock_overrides_discontinued :
  Store.d_status <$> Store.db_decors Samples.db0 !! Samples.lampId
  = Some Types.DISCONTINUED
  /\ (let r := DecorController.updateStock 1000 Samples.lampId 0 Samples.db0 in
      Types.res_status (snd r) = 200
      /\ Store.d_status <$> Store.db_decors (fst r) !! Samples.lampId
         = Some Types.OUT_OF_STOCK).
Proof. vm_compute. repeat split; reflexivity. Qed.

(* ===================================================================== *)
(** ** The decor count of a category                                      *)
(* ===================================================================== *)

Module CountFacts.
Import Types Store Mongoose DecorModel DecorController ModelFacts.

(** No path through [deleteDecor] touches a category. *)
Lemma deleteDecor_categories id db :
  db_categories (fst (deleteDecor id db)) = db_categories db.
Proof. unfold deleteDecor. destruct (findById id db); reflexivity. Qed.

(** Nor does any path through [createDecor]: the post-save hook runs on
    the document that [save] has reset. *)
Lemma createDecor_categories now newId createdBy b db :
  db_categories (fst (createDecor now newId createdBy b db))
  = db_categories db.
Proof.
  unfold createDecor. destruct (db_categories db !! body_category b);
    [|reflexivity].
  pose proof (save_categories now (newDecor newId createdBy [] b) db) as H.
  destruct (save now (newDecor newId createdBy [] b) db) as [db' [s|]];
    exact H.
Qed.

(** Nor does saving a decor whose category was changed. *)
Lemma recategorize_categories now (d : DecorDoc) c db :
  db_categories (fst (save now (set_category c d) db)) = db_categories db.
Proof. apply save_categories. Qed.

(** The hook registered for [deleteOne] does decrement, when a document
    is deleted through [doc.deleteOne()]. *)
Lemma deleteOne_decrements now (d : DecorDoc) db c :
  db_categories db !! d_category (doc_fields d) = Some c ->
  c_decorCount <$> db_categories (deleteOne now d db) !! d_category (doc_fields d)
  = Some (c_decorCount c - 1).
Proof.
  intros Hc. unfold deleteOne, postDeleteOne, CategoryModel.incDecorCount.
  simpl. rewrite lookup_alter_eq, Hc. simpl. f_equal; lia.
Qed.

(** On the samples: creating a vase in Lighting leaves its count at 1,
    and [doc.deleteOne()] on the lamp would bring it to 0. *)
Example createDecor_sample :
  let r := createDecor 1000 Samples.vaseId Samples.adminId Samples.vaseBody
             Samples.db0 in
  res_status (snd r) = 201
  /\ d_category <$> db_decors (fst r) !! Samples.vaseId
     = Some Samples.lightingId
  /\ c_decorCount <$> db_categories (fst r) !! Samples.lightingId = Some 1.
Proof. vm_compute. repeat split; reflexivity. Qed.

Example deleteOne_sample :
  c_decorCount
    <$> db_categories
          (deleteOne 1000 (hydrate Samples.lampId Samples.lamp) Samples.db0)
        !! Samples.lightingId
  = Some 0.
Proof. vm_compute. reflexivity. Qed.

End CountFacts.

(** C2 (the code departs from the claim).  The lamp is the one decor of the
    category Lighting, whose count is 1; deleting the lamp through
    [deleteDecor] succeeds and removes it, and the count of Lighting is
    still 1. *)
Theorem deleteDecor_keeps_decorCount :
  Store.d_category <$> Store.db_decors Samples.db0 !! Samples.lampId
  = Some Samples.lightingId
  /\ Store.c_decorCount <$> Store.db_categories Samples.db0 !! Samples.lightingId
     = Some 1
  /\ (let r := DecorController.deleteDecor Samples.lampId Samples.db0 in
      Types.res_status (snd r) = 200
      /\ Store.db_decors (fst r) !! Samples.lampId = None
      /\ Store.c_decorCount <$> Store.db_categories (fst r) !! Samples.lightingId
         = Some 1).
Proof. vm_compute. repeat split; reflexivity. Qed.

(* ===================================================================== *)
(** ** Tokens                                                             *)
(* ===================================================================== *)

Module TokenFacts.
Import Types Store Config.

Lemma orElse_truthy v d : d <> "" -> truthy (Some (orElse v d)) = true.
Proof.
  intros Hd. unfold orElse, truthy.
  destruct v as [s|].
  - destruct (String.eqb s "") eqn:E; [|rewrite E; reflexivity].
    destruct (String.eqb d "") eqn:E'; [|reflexivity].
    apply String.eqb_eq in E'. contradiction.
  - destruct (String.eqb d "") eqn:E'; [|reflexivity].
    apply String.eqb_eq in E'. contradiction.
Qed.

Lemma JWT_SECRET_truthy env : truthy (Some (JWT_SECRET env)) = true.
Proof. apply orElse_truthy. discriminate. Qed.

(** The refresh token that [generateTokens] mints: signed with
    [config.JWT_SECRET], valid for seven days. *)
Lemma generateTokens_refresh env now payload access refresh :
  AuthUtils.generateTokens env now payload = Some (access, refresh) ->
  refresh = Jwt.Wellformed {| Jwt.jwt_payload := payload; Jwt.jwt_iat := now;
                              Jwt.jwt_exp := now + 604800;
                              Jwt.jwt_key := JWT_SECRET env |}.
Proof.
  unfold AuthUtils.generateTokens. rewrite JWT_SECRET_truthy. simpl.
  destruct (Jwt.sign payload (JWT_SECRET env) _ now); [|discriminate].
  unfold Jwt.sign. simpl. intros [= _ <-]. reflexivity.
Qed.

(** Whether [generateTokens] throws depends on the environment only. *)
Lemma generateTokens_total env now payload access refresh now' payload' :
  AuthUtils.generateTokens env now payload = Some (access, refresh) ->
  exists access' refresh',
    AuthUtils.generateTokens env now' payload' = Some (access', refresh').
Proof.
  unfold AuthUtils.generateTokens. rewrite JWT_SECRET_truthy. simpl.
  unfold Jwt.sign. simpl.
  destruct (Jwt.timespan _); [|discriminate]. intros _. eauto.
Qed.

(** The refresh endpoint verifies with [process.env.JWT_REFRESH_SECRET]:
    unless that variable holds the very secret the token was signed with,
    a freshly minted refresh token is refused. *)
Lemma refreshToken_other_secret env now payload access refresh now' db :
  AuthUtils.generateTokens env now payload = Some (access, refresh) ->
  env_JWT_REFRESH_SECRET env <> Some (JWT_SECRET env) ->
  AuthController.refreshToken env now' (Some refresh) db
  = errorResponse 401 "Invalid refresh token".
Proof.
  intros Hg Hne. rewrite (generateTokens_refresh _ _ _ _ _ Hg).
  unfold AuthController.refreshToken, Jwt.verify. simpl.
  destruct (env_JWT_REFRESH_SECRET env) as [key|]; [|reflexivity].
  destruct (String.eqb (JWT_SECRET env) key) eqn:E.
  - apply String.eqb_eq in E. subst key. contradiction.
  - rewrite andb_false_r. reflexivity.
Qed.

(** When the variable does hold that secret, the round trip succeeds
    before the seven days are over, for a user that exists and is
    active. *)
Lemma refreshToken_same_secret env now payload access refresh now' db user :
  AuthUtils.generateTokens env now payload = Some (access, refresh) ->
  env_JWT_REFRESH_SECRET env = Some (JWT_SECRET env) ->
  now' < now + 604800 ->
  UserModel.findById (au_id payload) db = Some user ->
  u_isActive user = true ->
  exists tokens,
    AuthController.refreshToken env now' (Some refresh) db
    = successResponse 200 "Token refreshed successfully" (Some tokens).
Proof.
  intros Hg Hs Hnow Hu Ha.
  rewrite (generateTokens_refresh _ _ _ _ _ Hg).
  unfold AuthController.refreshToken, Jwt.verify. rewrite Hs. simpl.
  pose proof (JWT_SECRET_truthy env) as Ht. unfold truthy in Ht.
  rewrite Ht, String.eqb_refl. simpl.
  apply Z.ltb_lt in Hnow. rewrite Hnow. simpl. rewrite Hu, Ha.
  destruct (generateTokens_total env now payload access refresh now'
              (AuthController.payloadOf (au_id payload) user) Hg)
    as (a & r & ->).
  eauto.
Qed.

End TokenFacts.

(** C3 (the code departs from the claim).  With no token variable set in
    the environment, the refresh token minted for the administrator, who
    exists and is active, is refused by the refresh endpoint one second
    later: the endpoint verifies with JWT_REFRESH_SECRET, not with the
    secret the token was signed with. *)
Theorem refreshToken_refuses_minted_token :
  exists access refresh,
    AuthUtils.generateTokens Samples.bareEnv 1000 Samples.adminCaller
    = Some (access, refresh)
    /\ Types.u_isActive <$> UserModel.findById Samples.adminId Samples.db0
       = Some true
    /\ AuthController.refreshToken Samples.bareEnv 1001 (Some refresh) Samples.db0
       = Types.errorResponse 401 "Invalid refresh token".
Proof. eexists _, _. vm_compute. repeat split; reflexivity. Qed.

(** C7 (the code departs from the claim).  When JWT_EXPIRE is not set,
    [config.JWT_EXPIRE] is "7d" and the fall-back "24h" of [generateTokens]
    is never used: every access token expires 604800 seconds (seven days)
    after it was issued, not 86400. *)
Theorem access_token_default_lifetime secret refreshSecret now payload :
  let env := {| Config.env_JWT_SECRET := secret;
                Config.env_JWT_EXPIRE := None;
                Config.env_JWT_REFRESH_SECRET := refreshSecret |} in
  exists access refresh,
    AuthUtils.generateTokens env now payload
    = Some (Jwt.Wellformed access, refresh)
    /\ Jwt.jwt_iat access = now
    /\ Jwt.jwt_exp access = now + 7 * 86400
    /\ Jwt.jwt_exp access <> now + 86400.
Proof.
  intros env. unfold AuthUtils.generateTokens.
  rewrite TokenFacts.JWT_SECRET_truthy. simpl.
  unfold Jwt.sign. simpl. eexists _, _. repeat split. simpl. lia.
Qed.

(* ===================================================================== *)
(** ** The super administrator                                            *)
(* ===================================================================== *)

Module SuperAdminFacts.
Import Types Store UserController UserRoutes AuthMiddleware.

(** The three guarded controllers answer 403 and leave the store as it
    is. *)
Lemma deleteUser_guard id db user :
  UserModel.findById id db = Some user -> u_role user = SUPER_ADMIN ->
  deleteUser id db = (db, errorResponse 403 "Cannot delete super admin").
Proof. intros Hu Hr. unfold deleteUser. rewrite Hu, Hr. reflexivity. Qed.

Lemma deactivateUser_guard now id db user :
  UserModel.findById id db = Some user -> u_role user = SUPER_ADMIN ->
  deactivateUser now id db
  = (db, errorResponse 403 "Cannot deactivate super admin").
Proof. intros Hu Hr. unfold deactivateUser. rewrite Hu, Hr. reflexivity. Qed.

Lemma demoteFromAdmin_guard now id db user :
  UserModel.findById id db = Some user -> u_role user = SUPER_ADMIN ->
  demoteFromAdmin now id db
  = (db, errorResponse 403 "Cannot demote super admin").
Proof. intros Hu Hr. unfold demoteFromAdmin. rewrite Hu, Hr. reflexivity. Qed.

(** Their routes answer 403 whatever the role of the caller: from the
    role gate, or from the controller. *)
Lemma guarded_routes_403 now caller id db user :
  UserModel.findById id db = Some user -> u_role user = SUPER_ADMIN ->
  validateObjectId id = true ->
  (fst (deleteUserRoute (Some caller) id db) = db
   /\ res_status (snd (deleteUserRoute (Some caller) id db)) = 403)
  /\ (fst (patchDeactivate now (Some caller) id db) = db
      /\ res_status (snd (patchDeactivate now (Some caller) id db)) = 403)
  /\ (fst (patchDemote now (Some caller) id db) = db
      /\ res_status (snd (patchDemote now (Some caller) id db)) = 403).
Proof.
  intros Hu Hr Hid.
  unfold deleteUserRoute, patchDeactivate, patchDemote, guarded,
    adminOnly, superAdminOnly, authorize.
  rewrite Hid, (deleteUser_guard _ _ _ Hu Hr),
    (deactivateUser_guard now _ _ _ Hu Hr),
    (demoteFromAdmin_guard now _ _ _ Hu Hr).
  destruct (au_role caller); simpl; repeat split; reflexivity.
Qed.

(** [activateUser] and [promoteToAdmin] cannot harm a super
    administrator either. *)
Lemma promoteToAdmin_guard now id db user :
  UserModel.findById id db = Some user -> u_role user = SUPER_ADMIN ->
  promoteToAdmin now id db = (db, errorResponse 400 "User is already an admin").
Proof. intros Hu Hr. unfold promoteToAdmin. rewrite Hu, Hr. reflexivity. Qed.

End SuperAdminFacts.

(** C4 (the code departs from the claim).  An administrator sends
    [PUT /users/:id] for the super administrator with the body
    [{ role: "user", isActive: false }]; the request passes the role gate
    and the validators, [updateUser] answers 200, and the stored super
    administrator is now a deactivated plain user. *)
Theorem updateUser_demotes_and_deactivates_super_admin :
  (Types.u_role <$> UserModel.findById Samples.rootId Samples.db0
   = Some Types.SUPER_ADMIN
   /\ Types.u_isActive <$> UserModel.findById Samples.rootId Samples.db0
      = Some true)
  /\ (let body := {| UserController.upd_firstName := None;
                     UserController.upd_lastName := None;
                     UserController.upd_role := Some Types.USER;
                     UserController.upd_isActive := Some false |} in
      let r := UserRoutes.putUser 1000 (Some Samples.adminCaller)
                 Samples.rootId body Samples.db0 in
      Types.res_status (snd r) = 200
      /\ Types.u_role <$> UserModel.findById Samples.rootId (fst r)
         = Some Types.USER
      /\ Types.u_isActive <$> UserModel.findById Samples.rootId (fst r)
         = Some false).
Proof. vm_compute. repeat split; reflexivity. Qed.

(* ===================================================================== *)
(** ** The original price                                                 *)
(* ===================================================================== *)

Module PriceFacts.
Import Types Store Mongoose DecorModel ModelFacts.

(** The hook clears an original price that is not zero and not above the
    price. *)
Lemma preSave_clears_originalPrice (d : DecorDoc) o :
  d_originalPrice (doc_fields d) = Some o ->
  ~ (o == 0)%Q -> (o <= d_price (doc_fields d))%Q ->
  d_originalPrice (doc_fields (preSave d)) = None.
Proof.
  intros Ho Hz Hle. destruct (preSave_prices d) as [_ ->].
  unfold originalPriceNotAbovePrice, Qtruthy. rewrite Ho.
  apply Qle_bool_iff in Hle. rewrite Hle.
  destruct (Qeq_bool o 0) eqn:E; [|reflexivity].
  apply Qeq_bool_iff in E. contradiction.
Qed.

(** The hook keeps an original price above the price. *)
Lemma preSave_keeps_originalPrice (d : DecorDoc) o :
  d_originalPrice (doc_fields d) = Some o ->
  (d_price (doc_fields d) < o)%Q ->
  d_originalPrice (doc_fields (preSave d)) = Some o.
Proof.
  intros Ho Hlt. destruct (preSave_prices d) as [_ ->].
  rewrite StockFacts.invariant_keeps_originalPrice; [exact Ho|].
  intros o' Ho'. rewrite Ho in Ho'. injection Ho' as <-. exact Hlt.
Qed.

(** The hook keeps an original price of zero, whatever the price. *)
Lemma preSave_keeps_zero (d : DecorDoc) o :
  d_originalPrice (doc_fields d) = Some o -> (o == 0)%Q ->
  d_originalPrice (doc_fields (preSave d)) = Some o.
Proof.
  intros Ho Hz. destruct (preSave_prices d) as [_ ->].
  unfold originalPriceNotAbovePrice, Qtruthy. rewrite Ho.
  apply Qeq_bool_iff in Hz. rewrite Hz. reflexivity.
Qed.

End PriceFacts.

(** C6 (the code departs from the claim).  A vase is created from a
    multipart form with price "5" and originalPrice "0"; the request
    succeeds, and the stored decor has the original price 0, below its
    price 5, instead of none. *)
Theorem save_keeps_zero_originalPrice :
  let r := DecorController.createDecor 1000 Samples.vaseId Samples.adminId
             Samples.vaseBody Samples.db0 in
  Types.res_status (snd r) = 201
  /\ exists stored,
       Store.db_decors (fst r) !! Samples.vaseId = Some stored
       /\ Store.d_originalPrice stored = Some 0%Q
       /\ (Store.d_price stored == 5)%Q
       /\ (0 <= Store.d_price stored)%Q.
Proof.
  vm_compute. split; [reflexivity|]. eexists. split; [reflexivity|].
  repeat split; discriminate.
Qed.

(** The vase of the samples is new, so its name is modified: after the
    save its slug is the slug of its name.  So is the slug of the new
    category " Wall Art & Decor ", whose name is stored trimmed.  And the
    slug of a text that starts with KELVIN SIGN starts with k. *)
Lemma slug_is_generateSlug_of_name_witness :
  (exists db' saved stored,
      DecorModel.save 1000
        (DecorController.newDecor Samples.vaseId Samples.adminId []
           Samples.vaseBody) Samples.db0 = (db', Some saved)
      /\ Store.db_decors db' !! Samples.vaseId = Some stored
      /\ Store.d_name stored = "Clay Vase"
      /\ Store.d_slug stored = Some (Utils.generateSlug (Store.d_name stored))
      /\ Store.d_slug stored = Some "clay-vase")
  /\ (exists db' saved stored,
         CategoryModel.save 1000 MoreSamples.wallArt Samples.db0
         = (db', Some saved)
         /\ Store.db_categories db' !! MoreSamples.wallArtId = Some stored
         /\ Store.c_name stored = "Wall Art & Decor"
         /\ Store.c_slug stored = Some (Utils.generateSlug (Store.c_name stored))
         /\ Store.c_slug stored = Some "wall-art-decor")
  /\ Forall (fun u => Utf16.isSlugUnit u = true)
       (Utf16.generateSlug MoreSamples.lowerBasic MoreSamples.kelvinLamp).
Proof.
  destruct slug_is_generateSlug_of_name as (Hdecor & Hcategory & _ & Hunits & _).
  split; [|split].
  - destruct (DecorModel.save 1000
                (DecorController.newDecor Samples.vaseId Samples.adminId []
                   Samples.vaseBody) Samples.db0) as [db' [saved|]] eqn:E;
      [|vm_compute in E; discriminate E].
    destruct (Hdecor 1000
                (DecorController.newDecor Samples.vaseId Samples.adminId []
                   Samples.vaseBody) Samples.db0 db' saved eq_refl E)
      as (stored & H1 & H2).
    exists db', saved, stored.
    assert (Hn : Store.d_name stored = "Clay Vase").
    { vm_compute in E. injection E as <- _. vm_compute in H1.
      injection H1 as <-. reflexivity. }
    repeat split; try assumption. rewrite H2, Hn. reflexivity.
  - destruct (CategoryModel.save 1000 MoreSamples.wallArt Samples.db0)
      as [db' [saved|]] eqn:E; [|vm_compute in E; discriminate E].
    destruct (Hcategory 1000 MoreSamples.wallArt Samples.db0 db' saved
                eq_refl E)
      as (stored & H1 & H2).
    exists db', saved, stored.
    assert (Hn : Store.c_name stored = "Wall Art & Decor").
    { vm_compute in E. injection E as <- _. vm_compute in H1.
      injection H1 as <-. reflexivity. }
    repeat split; try assumption. rewrite H2, Hn. reflexivity.
  - apply (proj1 (Hunits MoreSamples.lowerBasic MoreSamples.kelvinLamp)).
    vm_compute. repeat constructor.
Defined.

(** A token that verifies, for an identifier that is not in the store and
    for the deactivated account; and a login to the deactivated account. *)
Lemma authenticate_401_login_403_witness :
  AuthMiddleware.authenticate Samples.bareEnv 10
    (Samples.bearer (Samples.tokenFor Samples.ghostId "ghost@craftopia.com"))
    Samples.db0
  = AuthMiddleware.Respond 401 "Access denied. User not found or inactive."
  /\ AuthMiddleware.authenticate Samples.bareEnv 10
       (Samples.bearer (Samples.tokenFor Samples.sleeperId "ada@craftopia.com"))
       Samples.db0
     = AuthMiddleware.Respond 401 "Access denied. User not found or inactive."
  /\ AuthController.login (fun _ _ => true) Samples.bareEnv 10
       "ada@craftopia.com" "correct horse" Samples.db0
     = (Samples.db0,
        Types.errorResponse 403 "Account is deactivated. Please contact support.").
Proof.
  destruct authenticate_401_login_403 as [Hauth Hlogin].
  split; [|split].
  - apply (Hauth Samples.bareEnv 10
             (Samples.bearer (Samples.tokenFor Samples.ghostId "ghost@craftopia.com"))
             Samples.db0
             (Jwt.Wellformed (Samples.tokenFor Samples.ghostId "ghost@craftopia.com"))
             (Samples.tokenFor Samples.ghostId "ghost@craftopia.com")
             eq_refl eq_refl).
    intros user H. vm_compute in H. discriminate H.
  - apply (Hauth Samples.bareEnv 10
             (Samples.bearer (Samples.tokenFor Samples.sleeperId "ada@craftopia.com"))
             Samples.db0
             (Jwt.Wellformed (Samples.tokenFor Samples.sleeperId "ada@craftopia.com"))
             (Samples.tokenFor Samples.sleeperId "ada@craftopia.com")
             eq_refl eq_refl).
    intros user H. vm_compute in H. injection H as <-. reflexivity.
  - apply (Hlogin _ Samples.bareEnv 10 "ada@craftopia.com" "correct horse"
             Samples.db0 Samples.sleeperId Samples.sleeper);
      [vm_compute|]; reflexivity.
Defined.

(** Three lamps come back into stock: the lamp costs 40 and its original
    price is 55. *)
Lemma updateStock_frame_witness :
  let db' := fst (DecorController.updateStock 1000 Samples.lampId 3 Samples.db0) in
  (exists d', Store.db_decors db' !! Samples.lampId = Some d'
              /\ StockFrame.sameButStock Samples.lamp d')
  /\ (forall other, other <> Samples.lampId ->
        Store.db_decors db' !! other = Store.db_decors Samples.db0 !! other)
  /\ Store.db_categories db' = Store.db_categories Samples.db0
  /\ Store.db_users db' = Store.db_users Samples.db0.
Proof.
  apply (updateStock_frame 1000 Samples.lampId 3 Samples.db0 Samples.lamp).
  - reflexivity.
  - intros o H. injection H as <-. reflexivity.
Defined.

(* ===================================================================== *)
(** ** More about generateSlug                                            *)
(* ===================================================================== *)

Module SlugMore.
Import Chars Utils SlugShape SlugFacts.

Lemma slugChar_not_space c : isSlugChar c = true -> isSpace c = false.
Proof. all_chars c. Qed.

Lemma slugChar_kept c : isSlugChar c = true -> isKept c = true.
Proof. all_chars c. Qed.

Lemma slugChar_separator c :
  isSlugChar c = true -> isSeparator c = isHyphen c.
Proof. all_chars c. Qed.

Section Scans.
Context {A : Type} (p : A -> bool).

Lemma dropWhileStart_none l :
  (forall x, head l = Some x -> p x = false) -> dropWhileStart p l = l.
Proof.
  destruct l as [|x l]; [reflexivity|]. intros H. simpl.
  rewrite (H x eq_refl). reflexivity.
Qed.

Lemma dropWhileEnd_none l :
  (forall x, last l = Some x -> p x = false) -> dropWhileEnd p l = l.
Proof.
  induction l as [|x l IH]; [reflexivity|]. intros H.
  rewrite dropWhileEnd_cons.
  destruct l as [|y l'].
  - simpl. rewrite (H x eq_refl). reflexivity.
  - rewrite IH; [reflexivity|].
    intros z Hz. apply H. exact Hz.
Qed.
End Scans.

Lemma removeSpecial_kept l :
  Forall (fun c => isKept c = true) l -> removeSpecial l = l.
Proof.
  induction 1 as [|c l Hc Hl IH]; [reflexivity|].
  rewrite removeSpecial_cons, Hc, IH. reflexivity.
Qed.

Lemma hyphenate_wellFormed l :
  Forall (fun c => isSlugChar c = true) l ->
  noDoubleHyphen l = true ->
  hyphenate false l = l
  /\ (head l <> Some hyphen -> hyphenate true l = l).
Proof.
  induction 1 as [|c l Hc Hl IH]; intros Hd; [split; reflexivity|].
  assert (Hd' : noDoubleHyphen l = true).
  { destruct l as [|c' l']; [reflexivity|].
    rewrite noDoubleHyphen_cons in Hd.
    apply andb_true_iff in Hd as [_ Hd]. exact Hd. }
  destruct (IH Hd') as [IH1 IH2].
  cbn [hyphenate]. rewrite (slugChar_separator c Hc).
  destruct (isHyphen c) eqn:Hh.
  - assert (Hnext : head l <> Some hyphen).
    { destruct l as [|c' l']; [discriminate|].
      rewrite noDoubleHyphen_cons, Hh in Hd. simpl in Hd.
      apply andb_true_iff in Hd as [Hd _].
      intros [= ->]. discriminate Hd. }
    apply isHyphen_hyphen in Hh. subst c.
    split.
    + rewrite (IH2 Hnext). reflexivity.
    + intros Hhead. exfalso. apply Hhead. reflexivity.
  - rewrite IH1. split; reflexivity.
Qed.

(** A well-formed slug is its own slug. *)
Lemma generateSlugChars_fixed l :
  wellFormedSlug l -> generateSlugChars l = l.
Proof.
  intros (Hc & Hh & Hl & Hd).
  assert (Hsp : forall x, x ∈ l -> isSpace x = false).
  { intros x Hx. apply slugChar_not_space.
    apply (proj1 (Forall_forall _ _) Hc x Hx). }
  assert (Hhy : forall x, Some x <> Some hyphen -> isHyphen x = false).
  { intros x Hx. destruct (isHyphen x) eqn:E; [|reflexivity].
    apply isHyphen_hyphen in E. subst x. contradiction. }
  unfold generateSlugChars, stripHyphens, trim.
  rewrite (toLowerCase_slugChars l Hc).
  rewrite (dropWhileStart_none isSpace l)
    by (intros x Hx; apply Hsp, head_Some_elem_of, Hx).
  rewrite (dropWhileEnd_none isSpace l)
    by (intros x Hx; apply Hsp, last_Some_elem_of, Hx).
  rewrite removeSpecial_kept
    by (eapply Forall_impl; [exact Hc | exact slugChar_kept]).
  rewrite (proj1 (hyphenate_wellFormed l Hc Hd)).
  rewrite (dropWhileStart_none isHyphen l)
    by (intros x Hx; apply Hhy; congruence).
  apply dropWhileEnd_none. intros x Hx. apply Hhy. congruence.
Qed.

Lemma generateSlugChars_wellFormed text :
  wellFormedSlug (generateSlugChars text).
Proof.
  repeat split.
  - apply generateSlugChars_slugChars.
  - apply generateSlugChars_head.
  - apply generateSlugChars_last.
  - apply generateSlugChars_single_hyphens.
Qed.

End SlugMore.

(** X1.  [generateSlug] is idempotent, and the strings it leaves as they
    are, are exactly the well-formed slugs: lower-case letters, digits and
    hyphens, no hyphen at either end, no two hyphens in a row. *)
Theorem generateSlug_idempotent :
  (forall text,
      Utils.generateSlug (Utils.generateSlug text) = Utils.generateSlug text)
  /\ (forall s,
         Utils.generateSlug s = s
         <-> SlugShape.wellFormedSlug (list_ascii_of_string s)).
Proof.
  assert (Hfix : forall s, Utils.generateSlug s = s
                           <-> SlugShape.wellFormedSlug (list_ascii_of_string s)).
  { intros s. split.
    - intros <-. rewrite SlugFacts.generateSlug_chars.
      apply SlugMore.generateSlugChars_wellFormed.
    - intros H. unfold Utils.generateSlug.
      rewrite (SlugMore.generateSlugChars_fixed _ H).
      apply string_of_list_ascii_of_string. }
  split; [|exact Hfix].
  intros text. apply Hfix. rewrite SlugFacts.generateSlug_chars.
  apply SlugMore.generateSlugChars_wellFormed.
Qed.

(** X2.  The slug of a text is empty exactly when the lower-cased text
    holds no letter A to Z or a to z and no digit: this holds of every
    sequence of UTF-16 code units, whatever [toLowerCase] makes of it.  So
    the slug of KELVIN SIGN alone, which is no such letter but is
    lower-cased to k, is not empty. *)
Theorem generateSlug_empty_iff :
  (forall (toLowerCase : list N -> list N) (text : list N),
      Utf16.generateSlug toLowerCase text = []
      <-> Forall (fun u => Utf16.isAlnum u = false) (toLowerCase text))
  /\ Utf16.isAlnum 8490 = false
  /\ Utf16.generateSlug MoreSamples.lowerBasic [8490%N] = [107%N].
Proof.
  split; [|split; reflexivity].
  intros toLowerCase text. unfold Utf16.generateSlug.
  rewrite Utf16Facts.slugOfLowered_nil.
  split; intros H; (eapply Forall_impl; [exact H|]); intros u; cbv beta;
    rewrite Utf16Facts.kind_isAlnum.
  - intros Hu. destruct (Utf16.isAlnum u); [contradiction Hu|]; reflexivity.
  - intros ->. destruct (Utf16.isSeparator u); discriminate.
Qed.

(* ===================================================================== *)
(** ** The window of a page                                               *)
(* ===================================================================== *)

Module WindowFacts.
Import Utils.

(** With a positive limit, a page lies before the last one exactly when
    items remain behind its window. *)
Lemma before_last_page page limit total :
  0 < limit ->
  (page <? ceilDiv total limit) = true <-> page * limit < total.
Proof.
  intros Hl. rewrite Z.ltb_lt.
  pose proof (PaginationFacts.ceilDiv_spec total limit Hl) as Hc.
  split; intros H; nia.
Qed.

End WindowFacts.

(** X3.  In the answer of a list endpoint, [hasNextPage] is true exactly
    when items remain behind the window that the query read ([skip + limit <
    total]), [hasPrevPage] exactly when the window does not start at the
    first item, and the window starts at a multiple of the limit that is
    not negative. *)
Theorem list_endpoints_next_page_iff_items_remain
    (paginationMax : Z) (e : ListEndpoints.Endpoint)
    (q : ListEndpoints.PageQuery) (total : Z) (p : ListEndpoints.Page) :
  12 <= paginationMax ->
  ListEndpoints.listRoute paginationMax e q total = ListEndpoints.Listed p ->
  (ListEndpoints.hasNextPage p = true
   <-> ListEndpoints.usedSkip p + ListEndpoints.usedLimit p < total)
  /\ (ListEndpoints.hasPrevPage p = true <-> 0 < ListEndpoints.usedSkip p)
  /\ 0 <= ListEndpoints.usedSkip p
  /\ (total <= 0 -> ListEndpoints.hasNextPage p = false
                    /\ ListEndpoints.totalPages p <= 0).
Proof.
  intros Hmax. unfold ListEndpoints.listRoute, ListEndpoints.validateQuery.
  destruct (ListEndpoints.accepts _ (ListEndpoints.q_page q)) eqn:Hp;
    [|discriminate].
  destruct (ListEndpoints.accepts _ (ListEndpoints.q_limit q)) eqn:Hl;
    [|discriminate].
  simpl. intros [= <-].
  unfold ListEndpoints.controller, ListEndpoints.paginate. simpl.
  pose proof (PaginationFacts.defaultLimit_range e) as Hd.
  destruct (PaginationFacts.accepts_bounds 1 None _ 1 Hp) as [Hp1 _]; try lia.
  destruct (PaginationFacts.accepts_bounds 1 _ _ (ListEndpoints.defaultLimit e) Hl)
    as [Hl1 _]; try lia.
  set (page := ListEndpoints.parseIntOr (ListEndpoints.q_page q) 1) in *.
  set (limit := ListEndpoints.parseIntOr (ListEndpoints.q_limit q)
                  (ListEndpoints.defaultLimit e)) in *.
  pose proof (PaginationFacts.ceilDiv_spec total limit ltac:(lia)) as Hc.
  repeat match goal with |- _ /\ _ => split end.
  - rewrite WindowFacts.before_last_page by lia. split; intros H; nia.
  - rewrite Z.ltb_lt. split; intros H; nia.
  - nia.
  - intros Ht. split; [|nia]. apply Z.ltb_ge. nia.
Qed.

(** The second page of ten out of 25 users has a next and a previous
    page. *)
Lemma list_endpoints_next_page_iff_items_remain_witness :
  let q := {| ListEndpoints.q_page := Some 2; ListEndpoints.q_limit := Some 10 |} in
  let p := ListEndpoints.controller ListEndpoints.Users q 25 in
  (ListEndpoints.hasNextPage p = true
   <-> ListEndpoints.usedSkip p + ListEndpoints.usedLimit p < 25)
  /\ (ListEndpoints.hasPrevPage p = true <-> 0 < ListEndpoints.usedSkip p)
  /\ 0 <= ListEndpoints.usedSkip p
  /\ (25 <= 0 -> ListEndpoints.hasNextPage p = false
                 /\ ListEndpoints.totalPages p <= 0).
Proof.
  intros q p.
  apply (list_endpoints_next_page_iff_items_remain 100 ListEndpoints.Users q 25 p);
    [lia | reflexivity].
Defined.

(** X4.  The helper [getPagination] clamps page and limit, so for every
    input its window starts at a multiple of the limit that is not negative,
    [hasNext] is true exactly when items remain behind the window and
    [hasPrev] exactly when the window does not start at the first item. *)
Theorem getPagination_window page limit total :
  let g := Utils.getPagination page limit total in
  0 <= Utils.pg_skip g
  /\ (Utils.pg_hasNext g = true <-> Utils.pg_skip g + Utils.pg_limit g < total)
  /\ (Utils.pg_hasPrev g = true <-> 0 < Utils.pg_skip g)
  /\ (1 <= page -> Utils.pg_page g = page)
  /\ (1 <= limit <= 100 -> Utils.pg_limit g = limit).
Proof.
  simpl.
  set (p := Z.max 1 page). set (l := Z.min (Z.max 1 limit) 100).
  assert (Hp : 1 <= p) by lia. assert (Hl : 1 <= l <= 100) by lia.
  repeat match goal with |- _ /\ _ => split end.
  - nia.
  - rewrite WindowFacts.before_last_page by lia. split; intros H; nia.
  - rewrite Z.ltb_lt. split; intros H; nia.
  - subst p. lia.
  - subst l. lia.
Qed.

(* ===================================================================== *)
(** ** Access tokens                                                      *)
(* ===================================================================== *)

Module AccessFacts.
Import Types Config.

(** What [generateTokens] returns, when it returns. *)
Lemma generateTokens_shape env now payload access refresh :
  AuthUtils.generateTokens env now payload = Some (access, refresh) ->
  exists span,
    Jwt.timespan (JWT_EXPIRE env) = Some span
    /\ access = Jwt.Wellformed
                  {| Jwt.jwt_payload := payload; Jwt.jwt_iat := now;
                     Jwt.jwt_exp := now + span;
                     Jwt.jwt_key := JWT_SECRET env |}
    /\ refresh = Jwt.Wellformed
                   {| Jwt.jwt_payload := payload; Jwt.jwt_iat := now;
                      Jwt.jwt_exp := now + 604800;
                      Jwt.jwt_key := JWT_SECRET env |}.
Proof.
  assert (E : orElse (Some (JWT_EXPIRE env)) "24h" = JWT_EXPIRE env).
  { pose proof (TokenFacts.orElse_truthy (env_JWT_EXPIRE env) "7d"
                  ltac:(discriminate)) as H.
    unfold truthy in H. fold (JWT_EXPIRE env) in H.
    unfold orElse at 1.
    destruct (String.eqb (JWT_EXPIRE env) ""); [discriminate H | reflexivity]. }
  unfold AuthUtils.generateTokens.
  rewrite TokenFacts.JWT_SECRET_truthy, E. cbn [negb].
  unfold Jwt.sign.
  destruct (Jwt.timespan (JWT_EXPIRE env)) as [span|]; [|discriminate].
  change (Jwt.timespan "7d") with (Some 604800).
  intros [= <- <-]. exists span. repeat split.
Qed.

Lemma verifyToken_signed env t s :
  AuthUtils.verifyToken env t (Jwt.Wellformed s)
  = if String.eqb (Jwt.jwt_key s) (JWT_SECRET env) && (t <? Jwt.jwt_exp s)
    then Some s else None.
Proof.
  unfold AuthUtils.verifyToken. rewrite TokenFacts.JWT_SECRET_truthy.
  simpl. pose proof (TokenFacts.JWT_SECRET_truthy env) as H.
  unfold truthy in H. rewrite H. reflexivity.
Qed.

End AccessFacts.

(** X5.  The access token that [generateTokens] mints carries the claims
    it was given; [verifyToken] returns them at every time before the token
    expires and throws from then on; a server with another secret refuses
    the token at all times, and a malformed token is always refused. *)
Theorem access_token_round_trip env now payload access refresh :
  AuthUtils.generateTokens env now payload = Some (access, refresh) ->
  exists signed,
    access = Jwt.Wellformed signed
    /\ Jwt.jwt_payload signed = payload
    /\ Jwt.jwt_iat signed = now
    /\ (forall t, t < Jwt.jwt_exp signed ->
                  AuthUtils.verifyToken env t access = Some signed)
    /\ (forall t, Jwt.jwt_exp signed <= t ->
                  AuthUtils.verifyToken env t access = None)
    /\ (forall env' t, Config.JWT_SECRET env' <> Config.JWT_SECRET env ->
                       AuthUtils.verifyToken env' t access = None)
    /\ (forall t raw, AuthUtils.verifyToken env t (Jwt.Malformed raw) = None).
Proof.
  intros Hg.
  destruct (AccessFacts.generateTokens_shape _ _ _ _ _ Hg) as (span & _ & -> & _).
  eexists. split; [reflexivity|]. simpl.
  repeat match goal with |- _ /\ _ => split end; try reflexivity.
  - intros t Ht. rewrite AccessFacts.verifyToken_signed. simpl.
    rewrite String.eqb_refl. apply Z.ltb_lt in Ht. rewrite Ht. reflexivity.
  - intros t Ht. rewrite AccessFacts.verifyToken_signed. simpl.
    apply Z.ltb_ge in Ht. rewrite Ht, andb_false_r. reflexivity.
  - intros env' t Hne. rewrite AccessFacts.verifyToken_signed. simpl.
    destruct (String.eqb (Config.JWT_SECRET env) (Config.JWT_SECRET env')) eqn:E;
      [|reflexivity].
    apply String.eqb_eq in E. congruence.
  - intros t raw. unfold AuthUtils.verifyToken.
    rewrite TokenFacts.JWT_SECRET_truthy. reflexivity.
Qed.

(** The token minted for the administrator with no variable set verifies
    a thousand seconds later. *)
Lemma access_token_round_trip_witness :
  let signed := {| Jwt.jwt_payload := Samples.adminCaller; Jwt.jwt_iat := 1000;
                   Jwt.jwt_exp := 605800;
                   Jwt.jwt_key := "your-super-secret-jwt-key" |} in
  AuthUtils.generateTokens Samples.bareEnv 1000 Samples.adminCaller
  = Some (Jwt.Wellformed signed, Jwt.Wellformed signed)
  /\ AuthUtils.verifyToken Samples.bareEnv 2000 (Jwt.Wellformed signed)
     = Some signed.
Proof.
  intros signed. split; [reflexivity|].
  destruct (access_token_round_trip Samples.bareEnv 1000 Samples.adminCaller
              (Jwt.Wellformed signed) (Jwt.Wellformed signed) eq_refl)
    as (s' & Ha & _ & _ & Hv & _).
  injection Ha as <-. apply Hv. simpl. lia.
Defined.

(** X6.  When JWT_EXPIRE is a decimal number followed by s, m, h, d or w
    (at most 100 characters, and small enough for the numbers of JavaScript
    to be exact), [generateTokens] returns: the access token expires that
    many seconds, minutes, hours, days or weeks after it was issued, the
    refresh token after seven days whatever is configured, both carry the
    given claims, and [generateToken] mints the very access token of
    [generateTokens].  The other spellings that the ms package reads are
    left out. *)
Theorem token_lifetimes env now payload span :
  Jwt.timespan (Config.JWT_EXPIRE env) = Some span ->
  (String.length (Config.JWT_EXPIRE env) <= 100)%nat ->
  0 <= now -> now + 1000 * span < 2 ^ 53 ->
  exists a r,
    AuthUtils.generateTokens env now payload
    = Some (Jwt.Wellformed a, Jwt.Wellformed r)
    /\ TokenUtils.generateToken env now payload = Some (Jwt.Wellformed a)
    /\ Jwt.jwt_payload a = payload /\ Jwt.jwt_payload r = payload
    /\ Jwt.jwt_iat a = now /\ Jwt.jwt_iat r = now
    /\ Jwt.jwt_exp a = now + span
    /\ Jwt.jwt_exp r = now + 7 * 86400.
Proof.
  intros Hs _ _ _.
  assert (E : Config.orElse (Some (Config.JWT_EXPIRE env)) "24h"
              = Config.JWT_EXPIRE env).
  { pose proof (TokenFacts.orElse_truthy (Config.env_JWT_EXPIRE env) "7d"
                  ltac:(discriminate)) as H.
    unfold Config.truthy in H. fold (Config.JWT_EXPIRE env) in H.
    unfold Config.orElse at 1.
    destruct (String.eqb (Config.JWT_EXPIRE env) "");
      [discriminate H | reflexivity]. }
  unfold AuthUtils.generateTokens, TokenUtils.generateToken.
  rewrite TokenFacts.JWT_SECRET_truthy, E. cbn [negb].
  unfold Jwt.sign. rewrite Hs.
  change (Jwt.timespan "7d") with (Some 604800).
  eexists _, _. repeat split.
Qed.

(** With JWT_EXPIRE set to "15m" the access token lives 900 seconds. *)
Lemma token_lifetimes_witness :
  exists a r,
    AuthUtils.generateTokens
      {| Config.env_JWT_SECRET := Some "s3cret";
         Config.env_JWT_EXPIRE := Some "15m";
         Config.env_JWT_REFRESH_SECRET := None |} 1000 Samples.adminCaller
    = Some (Jwt.Wellformed a, Jwt.Wellformed r)
    /\ Jwt.jwt_exp a = 1900 /\ Jwt.jwt_exp r = 605800.
Proof.
  destruct (token_lifetimes
              {| Config.env_JWT_SECRET := Some "s3cret";
                 Config.env_JWT_EXPIRE := Some "15m";
                 Config.env_JWT_REFRESH_SECRET := None |}
              1000 Samples.adminCaller 900 eq_refl)
    as (a & r & Hg & _ & _ & _ & _ & _ & Ha & Hr).
  - simpl. lia.
  - lia.
  - lia.
  - exists a, r. split; [exact Hg|]. split; [exact Ha | exact Hr].
Defined.

(* ===================================================================== *)
(** ** The authentication and authorization middlewares                   *)
(* ===================================================================== *)

(** X7.  When [authenticate] lets a request through, the request carried a
    token that verifies, the user the token names is stored and active, and
    the identity attached to the request has the e-mail address and the
    role of the stored user, not those written in the token. *)
Theorem authenticate_attaches_stored_identity env now req db identity :
  AuthMiddleware.authenticate env now req db = AuthMiddleware.Next identity ->
  exists token decoded user,
    AuthMiddleware.extractToken req = Some token
    /\ AuthUtils.verifyToken env now token = Some decoded
    /\ Types.au_id identity = Types.au_id (Jwt.jwt_payload decoded)
    /\ UserModel.findById (Types.au_id identity) db = Some user
    /\ Types.u_isActive user = true
    /\ Types.au_email identity = Types.u_email user
    /\ Types.au_role identity = Types.u_role user.
Proof.
  unfold AuthMiddleware.authenticate.
  destruct (AuthMiddleware.extractToken req) as [token|] eqn:Ht; [|discriminate].
  destruct (AuthUtils.verifyToken env now token) as [decoded|] eqn:Hv;
    [|discriminate].
  destruct (UserModel.findById _ db) as [user|] eqn:Hu; [|discriminate].
  destruct (Types.u_isActive user) eqn:Ha; [|discriminate].
  intros [= <-]. exists token, decoded, user. simpl.
  repeat split; try assumption; reflexivity.
Qed.

(** A token issued to the administrator while still a plain user: the
    identity attached is that of an admin. *)
Lemma authenticate_attaches_stored_identity_witness :
  AuthMiddleware.authenticate Samples.bareEnv 10
    (Samples.bearer (Samples.tokenFor Samples.adminId "old@craftopia.com"))
    Samples.db0
  = AuthMiddleware.Next Samples.adminCaller
  /\ exists user,
       UserModel.findById Samples.adminId Samples.db0 = Some user
       /\ Types.u_role user = Types.ADMIN.
Proof.
  split; [reflexivity|].
  destruct (authenticate_attaches_stored_identity Samples.bareEnv 10
              (Samples.bearer (Samples.tokenFor Samples.adminId "old@craftopia.com"))
              Samples.db0 Samples.adminCaller eq_refl)
    as (token & decoded & user & _ & _ & _ & Hu & _ & _ & Hr).
  exists user. split; [exact Hu | symmetry; exact Hr].
Defined.

(** X8.  [optionalAuth] always calls the next handler, and attaches an
    identity exactly when [authenticate] would let the request through, the
    same identity; in every case in which [authenticate] answers 401 the
    request goes on without identity. *)
Theorem optionalAuth_agrees_with_authenticate env now req db :
  (forall identity,
      OptionalAuth.optionalAuth env now req db = Some identity
      <-> AuthMiddleware.authenticate env now req db
          = AuthMiddleware.Next identity)
  /\ (OptionalAuth.optionalAuth env now req db = None
      <-> exists message,
            AuthMiddleware.authenticate env now req db
            = AuthMiddleware.Respond 401 message).
Proof.
  unfold OptionalAuth.optionalAuth, AuthMiddleware.authenticate.
  destruct (AuthMiddleware.extractToken req) as [token|].
  2: { split; [intros; split; discriminate|]. split; [eauto | reflexivity]. }
  destruct (AuthUtils.verifyToken env now token) as [decoded|].
  2: { split; [intros; split; discriminate|]. split; [eauto | reflexivity]. }
  destruct (UserModel.findById _ db) as [user|].
  2: { split; [intros; split; discriminate|]. split; [eauto | reflexivity]. }
  destruct (Types.u_isActive user).
  - split.
    + intros identity. split; intros [= <-]; reflexivity.
    + split; [discriminate | intros [m Hm]; discriminate Hm].
  - split; [intros; split; discriminate|]. split; [eauto | reflexivity].
Qed.

(** X9.  [adminOnly] lets through exactly the identities with role admin
    or super_admin, [superAdminOnly] exactly those with role super_admin, so
    whoever passes [superAdminOnly] passes [adminOnly]; an identity with
    another role is answered with 403, a request without identity with
    401. *)
Theorem authorize_by_role :
  (forall user,
      AuthMiddleware.adminOnly (Some user) = AuthMiddleware.Next tt
      <-> (Types.au_role user = Types.ADMIN
           \/ Types.au_role user = Types.SUPER_ADMIN))
  /\ (forall user,
         AuthMiddleware.superAdminOnly (Some user) = AuthMiddleware.Next tt
         <-> Types.au_role user = Types.SUPER_ADMIN)
  /\ (forall roles user,
         AuthMiddleware.authorize roles (Some user) = AuthMiddleware.Next tt
         \/ exists message,
              AuthMiddleware.authorize roles (Some user)
              = AuthMiddleware.Respond 403 message)
  /\ (forall roles,
         exists message,
           AuthMiddleware.authorize roles None
           = AuthMiddleware.Respond 401 message)
  /\ (forall roles user,
         AuthMiddleware.authorize roles (Some user) = AuthMiddleware.Next tt
         <-> In (Types.au_role user) roles).
Proof.
  repeat match goal with |- _ /\ _ => split end.
  - intros user. unfold AuthMiddleware.adminOnly, AuthMiddleware.authorize.
    destruct (Types.au_role user); simpl; split;
      try discriminate; try tauto; intros [H|H]; discriminate H.
  - intros user. unfold AuthMiddleware.superAdminOnly, AuthMiddleware.authorize.
    destruct (Types.au_role user); simpl; split;
      try discriminate; try tauto.
  - intros roles user. unfold AuthMiddleware.authorize.
    destruct (existsb _ roles); eauto.
  - intros roles. simpl. eauto.
  - intros roles user. unfold AuthMiddleware.authorize.
    destruct (existsb (Types.UserRole_eqb (Types.au_role user)) roles) eqn:E.
    + split; [intros _|reflexivity].
      apply existsb_exists in E as (r & Hr & Hrr).
      destruct (Types.au_role user), r; try discriminate Hrr; exact Hr.
    + split; [discriminate|]. intros Hin. exfalso.
      assert (existsb (Types.UserRole_eqb (Types.au_role user)) roles = true).
      { apply existsb_exists. exists (Types.au_role user). split; [exact Hin|].
        destruct (Types.au_role user); reflexivity. }
      congruence.
Qed.

(** X10.  An [Authorization] header that starts with "Bearer" decides
    alone which token is read: the cookie is not consulted, so a header
    without a token is answered with 401 even when the cookie holds a valid
    token; without such a header the cookie decides. *)
Theorem bearer_header_shadows_cookie env now header cookie cookie' refresh refresh' db :
  AuthMiddleware.hdr_startsWithBearer header = true ->
  let request c r :=
    {| AuthMiddleware.req_authorization := Some header;
       AuthMiddleware.req_cookie_token := c;
       AuthMiddleware.req_cookie_refreshToken := r |} in
  AuthMiddleware.authenticate env now (request cookie refresh) db
  = AuthMiddleware.authenticate env now (request cookie' refresh') db
  /\ (AuthMiddleware.hdr_second header = None ->
      AuthMiddleware.authenticate env now (request cookie refresh) db
      = AuthMiddleware.Respond 401 "Access denied. No token provided.").
Proof.
  intros Hb request. unfold AuthMiddleware.authenticate, AuthMiddleware.extractToken.
  simpl. rewrite Hb. split; [reflexivity|]. intros ->. reflexivity.
Qed.

(** "Authorization: Bearer" with nothing behind it, and a cookie that holds
    the administrator's valid token. *)
Lemma bearer_header_shadows_cookie_witness :
  let header := {| AuthMiddleware.hdr_startsWithBearer := true;
                   AuthMiddleware.hdr_second := None |} in
  let cookie := Some (Jwt.Wellformed
                        (Samples.tokenFor Samples.adminId "john@craftopia.com")) in
  AuthMiddleware.authenticate Samples.bareEnv 10
    {| AuthMiddleware.req_authorization := Some header;
       AuthMiddleware.req_cookie_token := cookie;
       AuthMiddleware.req_cookie_refreshToken := None |} Samples.db0
  = AuthMiddleware.Respond 401 "Access denied. No token provided."
  /\ AuthMiddleware.authenticate Samples.bareEnv 10
       {| AuthMiddleware.req_authorization := None;
          AuthMiddleware.req_cookie_token := cookie;
          AuthMiddleware.req_cookie_refreshToken := None |} Samples.db0
     = AuthMiddleware.Next Samples.adminCaller.
Proof.
  intros header cookie. split; [|reflexivity].
  apply (bearer_header_shadows_cookie Samples.bareEnv 10 header cookie None
           None None Samples.db0 eq_refl).
  reflexivity.
Defined.

(* ===================================================================== *)
(** ** The user endpoints                                                 *)
(* ===================================================================== *)

Module UserFacts.
Import Types Store StoreUpdates UserController Accounts.

(** Two lookups of one key give one account. *)
Ltac same_account Hu Hv :=
  let E := fresh in
  pose proof (eq_trans (eq_sym Hu) Hv) as E; injection E as <-.

Lemma save_lookup now id u db :
  UserModel.findById id (UserModel.save now id u db)
  = Some (user_with_updatedAt now u).
Proof. apply lookup_insert_eq. Qed.

Lemma save_lookup_ne now id u db other :
  other <> id ->
  UserModel.findById other (UserModel.save now id u db)
  = UserModel.findById other db.
Proof. intros H. apply lookup_insert_ne. congruence. Qed.

Lemma user_save_decors now id u db :
  db_decors (UserModel.save now id u db) = db_decors db.
Proof. reflexivity. Qed.

Lemma user_save_categories now id u db :
  db_categories (UserModel.save now id u db) = db_categories db.
Proof. reflexivity. Qed.

(** [User.findOne({ email })] returns a stored account with that
    address. *)
Lemma findOneByEmail_Some email db id u :
  UserModel.findOneByEmail email db = Some (id, u) ->
  db_users db !! id = Some u /\ u_email u = email.
Proof.
  unfold UserModel.findOneByEmail. intros H.
  apply find_some in H as [Hin He]. simpl in He.
  apply String.eqb_eq in He. split; [|exact He].
  apply elem_of_map_to_list, list_elem_of_In. exact Hin.
Qed.

(** What one guarded request does to the account [id]. *)
Lemma runAdminOp_account op db id u :
  db_users db !! id = Some u ->
  (u_role u = SUPER_ADMIN ->
   exists u', db_users (Sessions.runAdminOp db op) !! id = Some u'
              /\ u_role u' = SUPER_ADMIN
              /\ (u_isActive u = true -> u_isActive u' = true))
  /\ (u_role u <> SUPER_ADMIN ->
      forall u', db_users (Sessions.runAdminOp db op) !! id = Some u' ->
                 u_role u' <> SUPER_ADMIN).
Proof.
  intros Hu.
  assert (Hsame : forall c, c = db ->
            (u_role u = SUPER_ADMIN ->
             exists u', db_users c !! id = Some u' /\ u_role u' = SUPER_ADMIN
                        /\ (u_isActive u = true -> u_isActive u' = true))
            /\ (u_role u <> SUPER_ADMIN ->
                forall u', db_users c !! id = Some u' ->
                           u_role u' <> SUPER_ADMIN)).
  { intros c ->. split; [intros Hr; exists u; auto|].
    intros Hr u' Hu'. rewrite Hu in Hu'. injection Hu' as <-. exact Hr. }
  destruct op as [t|now t|now t|now t|now t]; simpl;
    unfold deleteUser, deactivateUser, activateUser, promoteToAdmin,
      demoteFromAdmin, UserModel.findById;
    destruct (db_users db !! t) as [v|] eqn:Hv; simpl;
    try (apply Hsame; reflexivity).
  - (* delete *)
    destruct (UserRole_eqb (u_role v) SUPER_ADMIN) eqn:Er;
      [apply Hsame; reflexivity|]. simpl.
    destruct (decide (t = id)) as [E|Hne]; [subst t|].
    + same_account Hu Hv. split.
      * intros Hr. rewrite Hr in Er. discriminate Er.
      * intros _ u'. rewrite lookup_delete_eq. discriminate.
    + rewrite lookup_delete_ne by exact Hne. apply Hsame. reflexivity.
  - (* deactivate *)
    destruct (UserRole_eqb (u_role v) SUPER_ADMIN) eqn:Er;
      [apply Hsame; reflexivity|]. simpl.
    destruct (decide (t = id)) as [E|Hne]; [subst t|].
    + same_account Hu Hv. split.
      * intros Hr. rewrite Hr in Er. discriminate Er.
      * intros Hr u'. rewrite lookup_insert_eq. intros [= <-]. exact Hr.
    + rewrite lookup_insert_ne by exact Hne. apply Hsame. reflexivity.
  - (* activate *)
    destruct (decide (t = id)) as [E|Hne]; [subst t|].
    + same_account Hu Hv. rewrite lookup_insert_eq. split.
      * intros Hr. eexists. split; [reflexivity|]. simpl. auto.
      * intros Hr u'. intros [= <-]. exact Hr.
    + rewrite lookup_insert_ne by exact Hne. apply Hsame. reflexivity.
  - (* promote *)
    destruct (UserRole_eqb (u_role v) ADMIN || UserRole_eqb (u_role v) SUPER_ADMIN)
      eqn:Er; [apply Hsame; reflexivity|]. simpl.
    destruct (decide (t = id)) as [E|Hne]; [subst t|].
    + same_account Hu Hv. rewrite lookup_insert_eq. split.
      * intros Hr. rewrite Hr in Er. discriminate Er.
      * intros _ u'. intros [= <-]. discriminate.
    + rewrite lookup_insert_ne by exact Hne. apply Hsame. reflexivity.
  - (* demote *)
    destruct (UserRole_eqb (u_role v) SUPER_ADMIN) eqn:Er;
      [apply Hsame; reflexivity|].
    destruct (UserRole_eqb (u_role v) USER) eqn:Er';
      [apply Hsame; reflexivity|]. simpl.
    destruct (decide (t = id)) as [E|Hne]; [subst t|].
    + same_account Hu Hv. rewrite lookup_insert_eq. split.
      * intros Hr. rewrite Hr in Er. discriminate Er.
      * intros _ u'. intros [= <-]. discriminate.
    + rewrite lookup_insert_ne by exact Hne. apply Hsame. reflexivity.
Qed.

(** None of these requests creates an account. *)
Lemma runAdminOp_no_new_account op db id :
  db_users db !! id = None ->
  db_users (Sessions.runAdminOp db op) !! id = None.
Proof.
  intros Hn.
  assert (Hne : forall t v, db_users db !! t = Some v -> t <> id).
  { intros t v Hv E. subst t.
    pose proof (eq_trans (eq_sym Hn) Hv) as C. discriminate C. }
  destruct op as [t|now t|now t|now t|now t]; simpl;
    unfold deleteUser, deactivateUser, activateUser, promoteToAdmin,
      demoteFromAdmin, UserModel.findById;
    destruct (db_users db !! t) as [v|] eqn:Hv; simpl; try exact Hn;
    repeat match goal with
           | |- context [if ?b then _ else _] => destruct b; simpl
           end;
    first [ exact Hn
          | rewrite lookup_delete_ne by (eapply Hne; exact Hv); exact Hn
          | rewrite lookup_insert_ne by (eapply Hne; exact Hv); exact Hn ].
Qed.

Lemma runAdminOp_super db op id :
  (isSuperAdmin (Sessions.runAdminOp db op) id <-> isSuperAdmin db id)
  /\ (isActiveSuperAdmin db id ->
      isActiveSuperAdmin (Sessions.runAdminOp db op) id).
Proof.
  unfold isSuperAdmin, isActiveSuperAdmin.
  destruct (db_users db !! id) as [u|] eqn:Hu.
  - destruct (runAdminOp_account op db id u Hu) as [Hkeep Hnew].
    split; [split|].
    + intros (u' & Hu' & Hr'). exists u. split; [reflexivity|].
      destruct (u_role u) eqn:Er; try reflexivity;
        exfalso; apply (Hnew ltac:(discriminate) u' Hu'); exact Hr'.
    + intros (u0 & [= <-] & Hr). destruct (Hkeep Hr) as (u' & Hu' & Hr' & _).
      eauto.
    + intros (u0 & [= <-] & Hr & Ha).
      destruct (Hkeep Hr) as (u' & Hu' & Hr' & Ha'). eauto.
  - pose proof (runAdminOp_no_new_account op db id Hu) as Hn.
    split; [split|].
    + intros (u' & Hu' & _).
      pose proof (eq_trans (eq_sym Hn) Hu') as C. discriminate C.
    + intros (u0 & H0 & _). discriminate H0.
    + intros (u0 & H0 & _). discriminate H0.
Qed.

End UserFacts.

(** X11.  Whatever sequence of delete, deactivate, activate, promote and
    demote requests is run, for whatever targets, the set of super
    administrators stays the same: none is deleted or demoted, no account
    becomes one, and a super administrator whose account is active stays
    active. *)
Theorem guarded_requests_keep_super_admins ops db id :
  (Accounts.isSuperAdmin (Sessions.runAdminOps ops db) id
   <-> Accounts.isSuperAdmin db id)
  /\ (Accounts.isActiveSuperAdmin db id ->
      Accounts.isActiveSuperAdmin (Sessions.runAdminOps ops db) id).
Proof.
  revert db. induction ops as [|op ops IH]; intros db; [tauto|].
  unfold Sessions.runAdminOps in *. simpl.
  destruct (IH (Sessions.runAdminOp db op)) as [IH1 IH2].
  destruct (UserFacts.runAdminOp_super db op id) as [H1 H2].
  split; [rewrite IH1; exact H1 | auto].
Qed.

(** X12.  Promoting a plain user and then demoting that user succeeds
    twice and gives back the stored account, but for the time of its last
    update; every other account is as it was; and an admin cannot be
    promoted, nor a plain user demoted: both are answered with 400 and
    change nothing. *)
Theorem promote_then_demote_restores now now' id db user :
  UserModel.findById id db = Some user ->
  Types.u_role user = Types.USER ->
  let promoted := UserController.promoteToAdmin now id db in
  let demoted := UserController.demoteFromAdmin now' id (fst promoted) in
  Types.res_status (snd promoted) = 200
  /\ Types.u_role <$> UserModel.findById id (fst promoted) = Some Types.ADMIN
  /\ Types.res_status (snd demoted) = 200
  /\ UserModel.findById id (fst demoted)
     = Some (Store.user_with_updatedAt now' user)
  /\ (forall other, other <> id ->
        UserModel.findById other (fst demoted) = UserModel.findById other db)
  /\ UserController.promoteToAdmin now' id (fst promoted)
     = (fst promoted, Types.errorResponse 400 "User is already an admin")
  /\ UserController.demoteFromAdmin now id db
     = (db, Types.errorResponse 400 "User is not an admin").
Proof.
  intros Hu Hr. unfold UserController.promoteToAdmin, UserController.demoteFromAdmin.
  rewrite Hu, Hr. simpl. rewrite !UserFacts.save_lookup. simpl.
  repeat match goal with |- _ /\ _ => split end; try reflexivity.
  - rewrite UserFacts.save_lookup. f_equal.
    destruct user; simpl in *; subst; reflexivity.
  - intros other Hne. rewrite !UserFacts.save_lookup_ne by exact Hne.
    reflexivity.
Qed.

(** The deactivated plain user of the samples, promoted and demoted. *)
Lemma promote_then_demote_restores_witness :
  UserModel.findById Samples.sleeperId
    (fst (UserController.demoteFromAdmin 2000 Samples.sleeperId
            (fst (UserController.promoteToAdmin 1000 Samples.sleeperId
                    Samples.db0))))
  = Some (Store.user_with_updatedAt 2000 Samples.sleeper).
Proof.
  apply (promote_then_demote_restores 1000 2000 Samples.sleeperId Samples.db0
           Samples.sleeper); reflexivity.
Defined.

(* ===================================================================== *)
(** ** Logging in, and losing access                                      *)
(* ===================================================================== *)

(** X13.  After an account has been deactivated or deleted with success,
    every request whose token names that account is answered with 401 by
    [authenticate] and goes on without identity through [optionalAuth],
    although the token still verifies; activating the account gives the
    access back. *)
Theorem deactivation_and_deletion_revoke_access
    env now now' t req db id token decoded :
  AuthMiddleware.extractToken req = Some token ->
  AuthUtils.verifyToken env t token = Some decoded ->
  Types.au_id (Jwt.jwt_payload decoded) = id ->
  (Types.res_status (snd (UserController.deactivateUser now id db)) = 200 ->
   let db1 := fst (UserController.deactivateUser now id db) in
   AuthMiddleware.authenticate env t req db1
   = AuthMiddleware.Respond 401 "Access denied. User not found or inactive."
   /\ OptionalAuth.optionalAuth env t req db1 = None
   /\ exists identity,
        AuthMiddleware.authenticate env t req
          (fst (UserController.activateUser now' id db1))
        = AuthMiddleware.Next identity
        /\ Types.au_id identity = id)
  /\ (Types.res_status (snd (UserController.deleteUser id db)) = 200 ->
      let db1 := fst (UserController.deleteUser id db) in
      AuthMiddleware.authenticate env t req db1
      = AuthMiddleware.Respond 401 "Access denied. User not found or inactive."
      /\ OptionalAuth.optionalAuth env t req db1 = None).
Proof.
  intros Ht Hv Hid.
  unfold AuthMiddleware.authenticate, OptionalAuth.optionalAuth.
  rewrite Ht, Hv, Hid. split.
  - unfold UserController.deactivateUser, UserController.activateUser.
    destruct (UserModel.findById id db) as [user|]; [|discriminate].
    destruct (Types.UserRole_eqb (Types.u_role user) Types.SUPER_ADMIN);
      [discriminate|].
    intros _. cbv zeta. cbn [fst snd]. rewrite !UserFacts.save_lookup. cbn [fst snd].
    split; [reflexivity|]. split; [reflexivity|]. eexists.
    rewrite (UserFacts.save_lookup now' id). simpl. eauto.
  - unfold UserController.deleteUser.
    destruct (UserModel.findById id db) as [user|]; [|discriminate].
    destruct (Types.UserRole_eqb (Types.u_role user) Types.SUPER_ADMIN);
      [discriminate|].
    intros _. cbv zeta. cbn [fst snd].
    unfold UserModel.findById, UserModel.findByIdAndDelete.
    simpl. rewrite lookup_delete_eq. split; reflexivity.
Qed.

(** The administrator of the samples is deactivated, or deleted, while the
    token of that account is still valid. *)
Lemma deactivation_and_deletion_revoke_access_witness :
  let req := Samples.bearer (Samples.tokenFor Samples.adminId "john@craftopia.com") in
  AuthMiddleware.authenticate Samples.bareEnv 10 req Samples.db0
  = AuthMiddleware.Next Samples.adminCaller
  /\ AuthMiddleware.authenticate Samples.bareEnv 10 req
       (fst (UserController.deactivateUser 5 Samples.adminId Samples.db0))
     = AuthMiddleware.Respond 401 "Access denied. User not found or inactive."
  /\ AuthMiddleware.authenticate Samples.bareEnv 10 req
       (fst (UserController.deleteUser Samples.adminId Samples.db0))
     = AuthMiddleware.Respond 401 "Access denied. User not found or inactive.".
Proof.
  intros req.
  destruct (deactivation_and_deletion_revoke_access Samples.bareEnv 5 6 10 req
              Samples.db0 Samples.adminId
              (Jwt.Wellformed (Samples.tokenFor Samples.adminId "john@craftopia.com"))
              (Samples.tokenFor Samples.adminId "john@craftopia.com")
              eq_refl eq_refl eq_refl) as [Hd Hx].
  split; [reflexivity|]. split.
  - apply Hd. reflexivity.
  - apply Hx. reflexivity.
Defined.

(** X14.  After a successful login, the access token of the answer, sent
    as a bearer token, passes [authenticate] at every time before it expires,
    and the identity attached is the account that logged in, with its stored
    e-mail address and role; the login has set the time of the last
    login. *)
Theorem login_token_authenticates
    bcrypt_compare env now email password db db' tokens :
  AuthController.login bcrypt_compare env now email password db
  = (db', Types.successResponse 200 "Login successful" (Some tokens)) ->
  exists id user signed,
    UserModel.findOneByEmail email db = Some (id, user)
    /\ bcrypt_compare password (Types.u_password user) = true
    /\ AuthController.tk_accessToken tokens = Jwt.Wellformed signed
    /\ Types.u_lastLogin <$> UserModel.findById id db' = Some (Some now)
    /\ forall t, t < Jwt.jwt_exp signed ->
         AuthMiddleware.authenticate env t
           (Accounts.bearerRequest (AuthController.tk_accessToken tokens)) db'
         = AuthMiddleware.Next {| Types.au_id := id;
                                  Types.au_email := Types.u_email user;
                                  Types.au_role := Types.u_role user |}.
Proof.
  unfold AuthController.login.
  destruct (UserModel.findOneByEmail email db) as [[id user]|] eqn:Hf;
    [|discriminate].
  destruct (Types.u_isActive user) eqn:Ha; [|discriminate]. simpl.
  destruct (bcrypt_compare password (Types.u_password user)) eqn:Hc;
    [|discriminate]. simpl.
  destruct (AuthUtils.generateTokens env now _) as [[access refresh]|] eqn:Hg;
    [|discriminate].
  intros [= <- <-].
  destruct (AccessFacts.generateTokens_shape _ _ _ _ _ Hg) as (span & _ & -> & _).
  eexists id, user, _.
  split; [reflexivity|]. split; [exact Hc|]. split; [reflexivity|]. split.
  - rewrite UserFacts.save_lookup. reflexivity.
  - intros t Ht. simpl in Ht.
    unfold AuthMiddleware.authenticate, Accounts.bearerRequest. simpl.
    rewrite AccessFacts.verifyToken_signed. simpl.
    rewrite String.eqb_refl. apply Z.ltb_lt in Ht. rewrite Ht. simpl.
    rewrite UserFacts.save_lookup. simpl. rewrite Ha. reflexivity.
Qed.

(** The administrator logs in with no variable set and calls the API an
    hour later. *)
Lemma login_token_authenticates_witness :
  exists db' tokens,
    AuthController.login (fun _ _ => true) Samples.bareEnv 1000
      "john@craftopia.com" "password123" Samples.db0
    = (db', Types.successResponse 200 "Login successful" (Some tokens))
    /\ AuthMiddleware.authenticate Samples.bareEnv 4600
         (Accounts.bearerRequest (AuthController.tk_accessToken tokens)) db'
       = AuthMiddleware.Next Samples.adminCaller.
Proof.
  destruct (AuthController.login (fun _ _ => true) Samples.bareEnv 1000
              "john@craftopia.com" "password123" Samples.db0)
    as [db' [status success message [tokens|]]] eqn:E;
    [|vm_compute in E; discriminate E].
  assert (Hs : status = 200 /\ success = true /\ message = "Login successful").
  { vm_compute in E. injection E as _ <- <- <- _. repeat split. }
  destruct Hs as (-> & -> & ->).
  destruct (login_token_authenticates _ _ _ _ _ _ _ _ E)
    as (id & user & signed & Hf & _ & Hacc & _ & Hauth).
  exists db', tokens. split; [reflexivity|].
  assert (Hid : (id, user) = (Samples.adminId, Samples.admin)).
  { vm_compute in Hf. injection Hf as <- <-. reflexivity. }
  injection Hid as -> ->.
  apply Hauth.
  assert (Hexp : Jwt.jwt_exp signed = 605800).
  { vm_compute in E. injection E as _ E. subst tokens. simpl in Hacc.
    injection Hacc as <-. reflexivity. }
  rewrite Hexp. lia.
Defined.

(** X15.  A login writes nothing but the time of the last login (and of
    the last update) of the account that logs in: every stored account
    keeps its names, e-mail address, password, role and active flag, no
    account appears or disappears, decors and categories are untouched; an
    answer 401 or 403 leaves the whole store as it was. *)
Theorem login_touches_only_last_login
    bcrypt_compare env now email password db :
  let out := AuthController.login bcrypt_compare env now email password db in
  Store.db_decors (fst out) = Store.db_decors db
  /\ Store.db_categories (fst out) = Store.db_categories db
  /\ (Types.res_status (snd out) = 401 \/ Types.res_status (snd out) = 403 ->
      fst out = db)
  /\ forall id,
       option_Forall2 Accounts.sameButLogin
         (Store.db_users db !! id) (Store.db_users (fst out) !! id).
Proof.
  assert (Hrefl : forall id,
            option_Forall2 Accounts.sameButLogin
              (Store.db_users db !! id) (Store.db_users db !! id)).
  { intros id. destruct (Store.db_users db !! id); constructor.
    unfold Accounts.sameButLogin. tauto. }
  unfold AuthController.login.
  destruct (UserModel.findOneByEmail email db) as [[uid user]|] eqn:Hf;
    [|simpl; auto].
  destruct (negb (Types.u_isActive user)); [simpl; auto|].
  destruct (negb (bcrypt_compare password (Types.u_password user)));
    [simpl; auto|].
  apply UserFacts.findOneByEmail_Some in Hf as [Hu _].
  assert (Hstore : forall id,
            option_Forall2 Accounts.sameButLogin (Store.db_users db !! id)
              (Store.db_users
                 (UserModel.save now uid
                    (Store.user_with_lastLogin (Some now) user) db) !! id)).
  { intros id. unfold UserModel.save, UserModel.findById in *. simpl.
    unfold Types.ObjectId in *.
    destruct (decide (id = uid)) as [->|Hne].
    - rewrite lookup_insert_eq, Hu. constructor.
      unfold Accounts.sameButLogin. simpl. tauto.
    - rewrite lookup_insert_ne by congruence. apply Hrefl. }
  cbv zeta.
  destruct (AuthUtils.generateTokens env now _) as [[access refresh]|];
    cbn [fst snd]; (split; [reflexivity|]); (split; [reflexivity|]);
    (split; [simpl; intros [H|H]; discriminate H|]); exact Hstore.
Qed.

(* ===================================================================== *)
(** ** The statistics endpoints                                           *)
(* ===================================================================== *)

Module CountingFacts.
Import Types Store CategoryController.

Section Counting.
Context {A : Type}.
Implicit Types (p q : A -> bool) (m : gmap string A).

Lemma filter_length_or p q (l : list (string * A)) :
  (forall a, p a && q a = false) ->
  length (List.filter (fun kv => p (snd kv) || q (snd kv)) l)
  = (length (List.filter (fun kv => p (snd kv)) l)
     + length (List.filter (fun kv => q (snd kv)) l))%nat.
Proof.
  intros Hd. induction l as [|[k a] l IH]; [reflexivity|]. simpl.
  specialize (Hd a).
  destruct (p a), (q a); simpl in *; try discriminate; lia.
Qed.

Lemma countDocuments_or p q m :
  (forall a, p a && q a = false) ->
  countDocuments (fun a => p a || q a) m
  = countDocuments p m + countDocuments q m.
Proof.
  intros Hd. unfold countDocuments.
  rewrite (filter_length_or p q _ Hd). lia.
Qed.

Lemma countDocuments_ext p q m :
  (forall a, p a = q a) -> countDocuments p m = countDocuments q m.
Proof.
  intros He. unfold countDocuments. f_equal. f_equal.
  apply List.filter_ext. intros [k a]. apply He.
Qed.

Lemma countDocuments_le p q m :
  (forall a, p a = true -> q a = true) ->
  countDocuments p m <= countDocuments q m.
Proof.
  intros Hi. unfold countDocuments. apply inj_le.
  induction (map_to_list m) as [|[k a] l IH]; [reflexivity|]. simpl.
  specialize (Hi a). destruct (p a); simpl.
  - rewrite Hi by reflexivity. simpl. lia.
  - destruct (q a); simpl; lia.
Qed.

Lemma countDocuments_nonneg p m : 0 <= countDocuments p m.
Proof. unfold countDocuments. lia. Qed.

Lemma countDocuments_all m :
  countDocuments (fun _ => true) m = Z.of_nat (size m).
Proof.
  unfold countDocuments. rewrite <- length_map_to_list. f_equal. f_equal.
  induction (map_to_list m) as [|x l IH]; [reflexivity|].
  simpl. f_equal. exact IH.
Qed.
End Counting.

End CountingFacts.

(** X16.  The numbers of the user statistics add up: the active and the
    inactive accounts together are all accounts, [regularUsers] is the
    number of accounts whose role is [user], and no number is negative;
    [totalUsers] is the number of stored accounts. *)
Theorem getUserStats_numbers_add_up db :
  let s := Stats.userStats db in
  Stats.activeUsers s + Stats.inactiveUsers s = Stats.totalUsers s
  /\ Stats.regularUsers s
     = CategoryController.countDocuments
         (fun u => Types.UserRole_eqb (Types.u_role u) Types.USER)
         (Store.db_users db)
  /\ Stats.adminUsers s + Stats.regularUsers s = Stats.totalUsers s
  /\ 0 <= Stats.regularUsers s
  /\ Stats.totalUsers s = Z.of_nat (size (Store.db_users db)).
Proof.
  cbv zeta. unfold Stats.userStats. simpl.
  assert (Hact :
    CategoryController.countDocuments (fun _ => true) (Store.db_users db)
    = CategoryController.countDocuments
        (fun u => Bool.eqb (Types.u_isActive u) true) (Store.db_users db)
      + CategoryController.countDocuments
          (fun u => Bool.eqb (Types.u_isActive u) false) (Store.db_users db)).
  { rewrite <- CountingFacts.countDocuments_or
      by (intros u; destruct (Types.u_isActive u); reflexivity).
    apply CountingFacts.countDocuments_ext.
    intros u; destruct (Types.u_isActive u); reflexivity. }
  assert (Hrole :
    CategoryController.countDocuments (fun _ => true) (Store.db_users db)
    = CategoryController.countDocuments
        (fun u => Types.UserRole_eqb (Types.u_role u) Types.ADMIN
                  || Types.UserRole_eqb (Types.u_role u) Types.SUPER_ADMIN)
        (Store.db_users db)
      + CategoryController.countDocuments
          (fun u => Types.UserRole_eqb (Types.u_role u) Types.USER)
          (Store.db_users db)).
  { rewrite <- CountingFacts.countDocuments_or
      by (intros u; destruct (Types.u_role u); reflexivity).
    apply CountingFacts.countDocuments_ext.
    intros u; destruct (Types.u_role u); reflexivity. }
  pose proof (CountingFacts.countDocuments_nonneg
                (fun u => Types.UserRole_eqb (Types.u_role u) Types.USER)
                (Store.db_users db)).
  pose proof (CountingFacts.countDocuments_all (Store.db_users db)).
  repeat match goal with |- _ /\ _ => split end; lia.
Qed.

(** X17.  The counts of the decor statistics: the active, inactive and
    out-of-stock decors fall short of the total by exactly the number of
    discontinued decors, and the featured count, which looks at active
    decors only, is at most the active count. *)
Theorem getDecorStats_numbers_add_up db :
  let s := Stats.decorCounts db in
  Stats.activeDecors s + Stats.inactiveDecors s + Stats.outOfStockDecors s
  + CategoryController.countDocuments
      (fun d => Types.DecorStatus_eqb (Store.d_status d) Types.DISCONTINUED)
      (Store.db_decors db)
  = Stats.totalDecors s
  /\ 0 <= Stats.featuredDecors s <= Stats.activeDecors s
  /\ Stats.totalDecors s = Z.of_nat (size (Store.db_decors db)).
Proof.
  cbv zeta. unfold Stats.decorCounts. simpl.
  split; [|split; [split|]].
  - rewrite <- !CountingFacts.countDocuments_or
      by (intros d; destruct (Store.d_status d); reflexivity).
    apply CountingFacts.countDocuments_ext.
    intros d; destruct (Store.d_status d); reflexivity.
  - apply CountingFacts.countDocuments_nonneg.
  - apply CountingFacts.countDocuments_le. intros d H.
    apply andb_true_iff in H. tauto.
  - apply CountingFacts.countDocuments_all.
Qed.

(* ===================================================================== *)
(** ** What a saved decor looks like                                      *)
(* ===================================================================== *)

Module DecorFacts.
Import Types Store Mongoose Utils DecorModel DecorVirtuals ModelFacts.

Lemma validate_bounds f :
  validate f = true ->
  (0 <= d_price f)%Q /\ 0 <= d_stock f /\ d_category f <> ""
  /\ minZero (d_originalPrice f) = true.
Proof.
  unfold validate. rewrite !andb_true_iff, !negb_true_iff.
  intros H. decompose [and] H. repeat split.
  - apply Qle_bool_iff. assumption.
  - apply Z.leb_le. assumption.
  - apply String.eqb_neq. assumption.
  - assumption.
Qed.

Lemma timestamps_kept now (d : DecorDoc) :
  let f := doc_fields d in
  let f' := doc_fields (timestamps now d) in
  d_price f' = d_price f /\ d_originalPrice f' = d_originalPrice f
  /\ d_stock f' = d_stock f /\ d_category f' = d_category f
  /\ d_status f' = d_status f /\ d_slug f' = d_slug f.
Proof. hooks. by_cases; tauto. Qed.

Lemma preSave_kept (d : DecorDoc) :
  d_stock (doc_fields (preSave d)) = d_stock (doc_fields d)
  /\ d_category (doc_fields (preSave d)) = d_category (doc_fields d).
Proof. hooks. by_cases; tauto. Qed.

(** The unique index, read off a lookup. *)
Lemma slugTaken_false db id slug other d2 :
  slugTaken db id slug = false ->
  other <> id -> db_decors db !! other = Some d2 ->
  d_slug d2 <> slug.
Proof.
  unfold slugTaken. intros Ht Hne Hl Heq.
  assert (Hin : In (other, d2) (map_to_list (db_decors db))).
  { apply list_elem_of_In, elem_of_map_to_list. exact Hl. }
  assert (existsb (fun kv => negb (String.eqb (fst kv) id)
                     && CategoryModel.optString_eqb (d_slug (snd kv)) slug)
            (map_to_list (db_decors db)) = true) as E.
  { apply existsb_exists. exists (other, d2). split; [exact Hin|]. simpl.
    apply andb_true_iff. split.
    - apply negb_true_iff, String.eqb_neq. exact Hne.
    - rewrite Heq. destruct slug; simpl; [apply String.eqb_refl|reflexivity]. }
  rewrite E in Ht. discriminate Ht.
Qed.

(** The sale invariant that the last part of the pre-save hook leaves. *)
Lemma preSave_sale (d : DecorDoc) o :
  d_originalPrice (doc_fields (preSave d)) = Some o ->
  ~ (o == 0)%Q ->
  (d_price (doc_fields (preSave d)) < o)%Q.
Proof.
  destruct (preSave_prices d) as [-> ->].
  unfold originalPriceNotAbovePrice.
  destruct (d_originalPrice (doc_fields d)) as [o'|]; [|discriminate].
  destruct (Qtruthy o' && Qle_bool o' (d_price (doc_fields d))) eqn:E;
    [discriminate|].
  intros [= ->] Hnz. apply andb_false_iff in E as [E|E].
  - unfold Qtruthy in E. apply negb_false_iff, Qeq_bool_iff in E.
    contradiction.
  - apply Qnot_le_lt. intros Hle. apply Qle_bool_iff in Hle.
    rewrite Hle in E. discriminate E.
Qed.

Lemma isOnSale_iff f :
  isOnSale f = true
  <-> exists o, d_originalPrice f = Some o /\ ~ (o == 0)%Q
                /\ (d_price f < o)%Q.
Proof.
  unfold isOnSale, Qgt_bool, Qtruthy.
  destruct (d_originalPrice f) as [o|].
  - rewrite andb_true_iff, !negb_true_iff. split.
    + intros [Hz Hl]. exists o. repeat split.
      * intros Hq. apply Qeq_bool_iff in Hq. congruence.
      * apply Qnot_le_lt. intros Hle. apply Qle_bool_iff in Hle. congruence.
    + intros (o' & [= <-] & Hz & Hl). split.
      * destruct (Qeq_bool o 0) eqn:E; [|reflexivity].
        apply Qeq_bool_iff in E. contradiction.
      * destruct (Qle_bool o (d_price f)) eqn:E; [|reflexivity].
        apply Qle_bool_iff in E. apply Qle_not_lt in E. contradiction.
  - split; [discriminate|]. intros (o & H & _). discriminate H.
Qed.

End DecorFacts.

(** X18.  Whatever document is saved with success, the decor it stores has
    a price and a stock that are not negative and a slug that no other
    stored decor has; a stored original price other than zero is strictly
    above the stored price, so [isOnSale] holds exactly when such an
    original price is stored.  (The statement compares the stored numbers
    and does not depend on how the setters have rounded them.) *)
Theorem saved_decor_is_priced_consistently now (d : DecorModel.DecorDoc) db db' saved :
  DecorModel.save now d db = (db', Some saved) ->
  let f := Mongoose.doc_fields saved in
  Store.db_decors db' !! Mongoose.doc_id d = Some f
  /\ (0 <= Store.d_price f)%Q /\ 0 <= Store.d_stock f
  /\ (forall o, Store.d_originalPrice f = Some o -> ~ (o == 0)%Q ->
                (Store.d_price f < o)%Q)
  /\ (DecorVirtuals.isOnSale f = true
      <-> exists o, Store.d_originalPrice f = Some o /\ ~ (o == 0)%Q)
  /\ (forall other d2, other <> Mongoose.doc_id d ->
        Store.db_decors db' !! other = Some d2 ->
        Store.d_slug d2 <> Store.d_slug f).
Proof.
  intros Hs. pose proof Hs as Hs'.
  apply ModelFacts.save_success in Hs as (Hv & -> & _ & ->).
  apply DecorFacts.validate_bounds in Hv as (Hp & Hst & _ & _).
  cbv zeta. change (Mongoose.doc_fields (Mongoose.reset ?x))
    with (Mongoose.doc_fields x).
  set (d1 := DecorModel.timestamps now d) in *.
  destruct (DecorFacts.timestamps_kept now d) as (Ep & _ & Es & _).
  cbv zeta in Ep, Es. fold d1 in Ep, Es.
  destruct (ModelFacts.preSave_prices d1) as [Epp _].
  destruct (DecorFacts.preSave_kept d1) as [Eps _].
  assert (Hprice : (0 <= Store.d_price (Mongoose.doc_fields (DecorModel.preSave d1)))%Q).
  { rewrite Epp, Ep. exact Hp. }
  assert (Hsale : forall o,
             Store.d_originalPrice (Mongoose.doc_fields (DecorModel.preSave d1)) = Some o ->
             ~ (o == 0)%Q ->
             (Store.d_price (Mongoose.doc_fields (DecorModel.preSave d1)) < o)%Q).
  { intros o. apply DecorFacts.preSave_sale. }
  split; [simpl; apply lookup_insert_eq|].
  split; [exact Hprice|].
  split; [rewrite Eps, Es; exact Hst|].
  split; [exact Hsale|].
  split.
  - rewrite DecorFacts.isOnSale_iff. split.
    + intros (o & H1 & H2 & _). eauto.
    + intros (o & H1 & H2). exists o. auto.
  - intros other d2 Hne Hl. simpl in Hl.
    rewrite lookup_insert_ne in Hl by congruence.
    unfold DecorModel.save in Hs'.
    destruct (negb (DecorModel.validate (Mongoose.doc_fields d)));
      [discriminate|]. fold d1 in Hs'.
    destruct (DecorModel.slugTaken db (Mongoose.doc_id d) _) eqn:Et;
      [discriminate|].
    exact (DecorFacts.slugTaken_false _ _ _ _ _ Et Hne Hl).
Qed.

(** The discontinued lamp of the samples is marked down to 44 and saved:
    its original price of 55 stays, and the lamp is on sale. *)
Lemma saved_decor_is_priced_consistently_witness :
  exists db' saved,
    DecorModel.save 1000
      (DecorModel.set_price 44 (Mongoose.hydrate Samples.lampId Samples.lamp))
      Samples.db0 = (db', Some saved)
    /\ DecorVirtuals.isOnSale (Mongoose.doc_fields saved) = true
    /\ (0 <= Store.d_price (Mongoose.doc_fields saved))%Q.
Proof.
  destruct (DecorModel.save 1000
              (DecorModel.set_price 44 (Mongoose.hydrate Samples.lampId Samples.lamp))
              Samples.db0) as [db' [saved|]] eqn:E;
    [|vm_compute in E; discriminate E].
  exists db', saved. split; [reflexivity|].
  destruct (saved_decor_is_priced_consistently _ _ _ _ _ E)
    as (_ & Hp & _ & _ & Hsale & _).
  split; [|exact Hp].
  apply Hsale. vm_compute in E. injection E as _ <-.
  exists 55%Q. split; [reflexivity|]. intros H. discriminate H.
Defined.

(* ===================================================================== *)
(** ** The stock endpoint, and what the public sees of it                 *)
(* ===================================================================== *)

Module StockOutcome.
Import Types Store Mongoose DecorModel DecorController StockFrame.
Import ModelFacts StockFacts DecorFacts.

Lemma updateStock_missing now id stock db :
  db_decors db !! id = None ->
  updateStock now id stock db = (db, errorResponse 404 "Decor not found").
Proof. intros H. unfold updateStock, findById. rewrite H. reflexivity. Qed.

(** The two ways an update of the stock of a stored decor ends. *)
Lemma updateStock_cases now id stock db d :
  db_decors db !! id = Some d ->
  (updateStock now id stock db = (db, errorResponse 500 "Internal server error"))
  \/ (0 <= stock
      /\ exists d',
           let status' := if stock =? 0 then OUT_OF_STOCK
                          else if DecorStatus_eqb (d_status d) OUT_OF_STOCK
                               then ACTIVE else d_status d in
           d_stock d' = stock /\ d_status d' = status'
           /\ updateStock now id stock db
              = (with_decors (<[id := d']> (db_decors db)) db,
                 successResponse 200 "Stock updated successfully"
                   (Some {| sd_id := id; sd_stock := stock;
                            sd_status := status' |}))).
Proof.
  intros Hd. rewrite (updateStock_unfold now id stock db d Hd).
  destruct (save now (stockEdit id stock d) db) as [db' [saved|]] eqn:E.
  - right. apply save_success in E as (Hv & -> & _ & ->).
    apply validate_bounds in Hv as (_ & Hst & _ & _).
    destruct (stockEdit_fields id stock d) as (_ & Es & Est).
    rewrite Es in Hst. split; [exact Hst|].
    assert (Hstock : d_stock (doc_fields (preSave (timestamps now (stockEdit id stock d)))) = stock).
    { destruct (preSave_kept (timestamps now (stockEdit id stock d))) as [-> _].
      destruct (timestamps_fields now _ (stockEdit_not_new id stock d))
        as (_ & -> & _). exact Es. }
    assert (Hstatus : d_status (doc_fields (preSave (timestamps now (stockEdit id stock d))))
                      = if stock =? 0 then OUT_OF_STOCK
                        else if DecorStatus_eqb (d_status d) OUT_OF_STOCK
                             then ACTIVE else d_status d).
    { rewrite preSave_status_spec.
      destruct (timestamps_fields now _ (stockEdit_not_new id stock d))
        as (_ & -> & ->).
      rewrite Es, Est.
      destruct (isModified P_stock _); [|reflexivity].
      destruct (stock =? 0) eqn:E0; [reflexivity|]. simpl.
      destruct (d_status d); simpl; rewrite ?andb_false_r; reflexivity. }
    eexists. cbv zeta. split; [exact Hstock|]. split; [exact Hstatus|].
    rewrite stockEdit_id. simpl. rewrite Hstock, Hstatus.
    rewrite ?preSave_id, ?timestamps_id, ?stockEdit_id. reflexivity.
  - left. apply save_failure in E. subst db'. reflexivity.
Qed.

Lemma status_out_of_stock_iff stock s :
  (if stock =? 0 then OUT_OF_STOCK
   else if DecorStatus_eqb s OUT_OF_STOCK then ACTIVE else s) = OUT_OF_STOCK
  <-> stock = 0.
Proof.
  destruct (stock =? 0) eqn:E.
  - apply Z.eqb_eq in E. tauto.
  - apply Z.eqb_neq in E. destruct s; simpl; split; congruence.
Qed.

End StockOutcome.

(** X19.  How a request to the stock endpoint ends, for an identifier in
    the notation of the stores (24 lower-case hexadecimal digits): 404
    exactly when no decor has the identifier; an answer other than 200
    leaves the store as it was; after an answer of 200 the requested stock
    is not negative and is stored, the stored status is [out_of_stock]
    exactly when that stock is zero, and the answer carries the stored
    stock and status. *)
Theorem updateStock_outcome now (id : Types.ObjectId) stock db :
  Identifiers.isHexString id = true ->
  let out := DecorController.updateStock now id stock db in
  (Types.res_status (snd out) = 404 <-> Store.db_decors db !! id = None)
  /\ (Types.res_status (snd out) <> 200 -> fst out = db)
  /\ (Types.res_status (snd out) = 200 ->
      0 <= stock
      /\ exists d',
           Store.db_decors (fst out) !! id = Some d'
           /\ Store.d_stock d' = stock
           /\ (Store.d_status d' = Types.OUT_OF_STOCK <-> stock = 0)
           /\ Types.res_data (snd out)
              = Some {| DecorController.sd_id := id;
                        DecorController.sd_stock := stock;
                        DecorController.sd_status := Store.d_status d' |}).
Proof.
  intros _. cbv zeta. destruct (Store.db_decors db !! id) as [d|] eqn:Hd.
  - destruct (StockOutcome.updateStock_cases now id stock db d Hd)
      as [-> | (Hst & d' & Hs & Hstat & ->)]; cbn [fst snd].
    + split; [split; discriminate|]. split; [reflexivity|discriminate].
    + split; [split; discriminate|]. split; [intros H; contradiction H; reflexivity|].
      intros _. split; [exact Hst|]. exists d'. simpl.
      split; [apply lookup_insert_eq|]. split; [exact Hs|].
      rewrite Hstat. split; [apply StockOutcome.status_out_of_stock_iff|].
      reflexivity.
  - rewrite (StockOutcome.updateStock_missing now id stock db Hd). simpl.
    split; [tauto|]. split; [reflexivity|discriminate].
Qed.

(** Three lamps are left: the request is answered with 200, and the
    discontinued lamp keeps its status.  A request for a vase that is not
    stored is answered with 404. *)
Lemma updateStock_outcome_witness :
  Types.res_data (snd (DecorController.updateStock 1000 Samples.lampId 3 Samples.db0))
  = Some {| DecorController.sd_id := Samples.lampId;
            DecorController.sd_stock := 3;
            DecorController.sd_status := Types.DISCONTINUED |}
  /\ Types.res_status
       (snd (DecorController.updateStock 1000 Samples.vaseId 3 Samples.db0))
     = 404.
Proof.
  split.
  - destruct (updateStock_outcome 1000 Samples.lampId 3 Samples.db0 eq_refl)
      as (_ & _ & H).
    destruct (H eq_refl) as (_ & d' & Hl & _ & _ & Hdata).
    rewrite Hdata. vm_compute in Hl. injection Hl as <-. reflexivity.
  - apply (proj1 (updateStock_outcome 1000 Samples.vaseId 3 Samples.db0 eq_refl)).
    reflexivity.
Defined.

(** X20.  Once the stock of a decor has been set to zero with success, the
    public read of that decor answers 404 while the read with
    [includeInactive] still finds it; when a later request restocks it with
    success, the public read shows it again, active and with the new
    stock. *)
Theorem sold_out_decor_is_hidden_until_restocked now now' id stock db :
  Types.res_status (snd (DecorController.updateStock now id 0 db)) = 200 ->
  0 < stock ->
  let db1 := fst (DecorController.updateStock now id 0 db) in
  let db2 := fst (DecorController.updateStock now' id stock db1) in
  Types.res_status (DecorUpdates.getDecorById false id db1) = 404
  /\ Types.res_status (DecorUpdates.getDecorById true id db1) = 200
  /\ (Types.res_status (snd (DecorController.updateStock now' id stock db1)) = 200 ->
      exists d,
        DecorUpdates.getDecorById false id db2
        = Types.successResponse 200 "Decor retrieved successfully" (Some d)
        /\ Store.d_status d = Types.ACTIVE /\ Store.d_stock d = stock).
Proof.
  intros H0 Hpos. cbv zeta.
  destruct (Store.db_decors db !! id) as [d|] eqn:Hd;
    [|rewrite (StockOutcome.updateStock_missing now id 0 db Hd) in H0;
      discriminate H0].
  destruct (StockOutcome.updateStock_cases now id 0 db d Hd)
    as [E | (_ & d1 & Hs1 & Hstat1 & E)]; rewrite E in *; [discriminate H0|].
  cbn [fst snd]. simpl in Hstat1.
  assert (Hd1 : Store.db_decors
                  (Store.with_decors (<[id := d1]> (Store.db_decors db)) db) !! id
                = Some d1) by apply lookup_insert_eq.
  unfold DecorUpdates.getDecorById. rewrite Hd1, Hstat1. simpl.
  split; [reflexivity|]. split; [reflexivity|].
  destruct (StockOutcome.updateStock_cases now' id stock _ d1 Hd1)
    as [E2 | (_ & d2 & Hs2 & Hstat2 & E2)]; rewrite E2; [discriminate|].
  intros _. cbn [fst]. exists d2.
  assert (Hne : (stock =? 0) = false) by (apply Z.eqb_neq; lia).
  cbv zeta in Hstat2. rewrite Hne, Hstat1 in Hstat2. simpl in Hstat2.
  assert (Hd2 : Store.db_decors
                  (Store.with_decors
                     (<[id := d2]>
                        (Store.db_decors
                           (Store.with_decors (<[id := d1]> (Store.db_decors db)) db)))
                     (Store.with_decors (<[id := d1]> (Store.db_decors db)) db)) !! id
                = Some d2) by apply lookup_insert_eq.
  rewrite Hd2, Hstat2. simpl. auto.
Qed.

(** The discontinued lamp is sold out, and seven new ones arrive. *)
Lemma sold_out_decor_is_hidden_until_restocked_witness :
  Types.res_status
    (DecorUpdates.getDecorById false Samples.lampId
       (fst (DecorController.updateStock 1000 Samples.lampId 0 Samples.db0)))
  = 404.
Proof.
  apply (sold_out_decor_is_hidden_until_restocked 1000 2000 Samples.lampId 7
           Samples.db0); [reflexivity | lia].
Defined.

(* ===================================================================== *)
(** ** Creating a decor                                                   *)
(* ===================================================================== *)

Module CreateFacts.
Import Types Store Mongoose Utils DecorModel DecorController.
Import ModelFacts DecorFacts.

Lemma newDecor_modified id createdBy images b :
  isModified P_name (newDecor id createdBy images b) = true
  /\ isModified P_stock (newDecor id createdBy images b) = true.
Proof.
  unfold isModified, newDecor, construct.
  cbn [doc_modified]. split; apply bool_decide_eq_true.
  - apply elem_of_app. left. apply list_elem_of_here.
  - apply elem_of_app. right. apply elem_of_app. right.
    apply elem_of_app. left. apply list_elem_of_here.
Qed.

(** What the hooks leave of a new document. *)
Lemma new_document_saved now (d : DecorDoc) :
  doc_isNew d = true ->
  let f := doc_fields d in
  let f' := doc_fields (preSave (timestamps now d)) in
  d_name f' = d_name f /\ d_description f' = d_description f
  /\ d_category f' = d_category f /\ d_price f' = d_price f
  /\ d_stock f' = d_stock f /\ d_featured f' = d_featured f
  /\ d_images f' = d_images f /\ d_tags f' = d_tags f
  /\ d_materials f' = d_materials f /\ d_rating f' = d_rating f
  /\ d_views f' = d_views f /\ d_salesCount f' = d_salesCount f
  /\ d_createdBy f' = d_createdBy f
  /\ d_createdAt f' = now /\ d_updatedAt f' = now.
Proof.
  intros Hn. cbv zeta.
  assert (Ht : doc_fields (timestamps now d)
               = decor_with_updatedAt now
                   (decor_with_createdAt now (doc_fields d))).
  { unfold timestamps. rewrite Hn. reflexivity. }
  assert (Hp : forall d0 : DecorDoc,
             let f := doc_fields d0 in
             let f' := doc_fields (preSave d0) in
             d_name f' = d_name f /\ d_description f' = d_description f
             /\ d_category f' = d_category f /\ d_price f' = d_price f
             /\ d_stock f' = d_stock f /\ d_featured f' = d_featured f
             /\ d_images f' = d_images f /\ d_tags f' = d_tags f
             /\ d_materials f' = d_materials f /\ d_rating f' = d_rating f
             /\ d_views f' = d_views f /\ d_salesCount f' = d_salesCount f
             /\ d_createdBy f' = d_createdBy f
             /\ d_createdAt f' = d_createdAt f
             /\ d_updatedAt f' = d_updatedAt f).
  { intros d0. cbv zeta.
    unfold preSave, preSave_originalPrice, preSave_status, preSave_slug,
      set_slug, set_originalPrice, set_status, assign.
    repeat match goal with
           | |- context [if ?b then _ else _] => destruct b
           end; cbn; repeat split. }
  specialize (Hp (timestamps now d)). cbv zeta in Hp. rewrite Ht in Hp.
  exact Hp.
Qed.

(** A new document is written only under an identifier that is free. *)
Lemma save_new_free now (d : DecorDoc) db db' saved :
  doc_isNew d = true ->
  save now d db = (db', Some saved) ->
  db_decors db !! doc_id d = None.
Proof.
  intros Hn. unfold save.
  destruct (negb (validate (doc_fields d))); [discriminate|].
  assert (En : doc_isNew (preSave (timestamps now d)) = true).
  { hooks. rewrite Hn. by_cases. }
  rewrite En.
  destruct (db_decors db !! doc_id d) as [x|]; [|reflexivity].
  rewrite bool_decide_eq_true_2 by eauto.
  rewrite orb_true_r. discriminate.
Qed.

(** A created decor is stored under the new identifier with its
    creator. *)
Lemma createDecor_201 now newId createdBy b db :
  res_status (snd (createDecor now newId createdBy b db)) = 201 ->
  exists d, db_decors (fst (createDecor now newId createdBy b db)) !! newId
            = Some d
            /\ d_createdBy d = createdBy.
Proof.
  unfold createDecor.
  destruct (db_categories db !! body_category b); [|discriminate].
  destruct (save now (newDecor newId createdBy [] b) db)
    as [db' [saved|]] eqn:E; [|discriminate].
  intros _. apply save_success in E as (_ & -> & _ & ->).
  eexists. split; [simpl; apply lookup_insert_eq|].
  change (doc_fields (reset ?x)) with (doc_fields x).
  destruct (new_document_saved now (newDecor newId createdBy [] b) eq_refl)
    as (_ & _ & _ & _ & _ & _ & _ & _ & _ & _ & _ & _ & Ecb & _).
  cbv zeta in Ecb. rewrite Ecb. reflexivity.
Qed.

End CreateFacts.

(** X21.  How the creation of a decor ends.  An answer other than 201
    leaves the store as it was, and no answer touches another decor or a
    user.  After 201 the identifier was free and the category exists; the
    new decor is stored and returned, with the trimmed name, the slug of
    that name, the given category and stock, the caller as creator, both
    time stamps at the time of the request, no views, no sales and no
    rating; its status is [out_of_stock] when the stock is zero and
    [active] otherwise. *)
Theorem createDecor_outcome now newId createdBy b db :
  let out := DecorController.createDecor now newId createdBy b db in
  (Types.res_status (snd out) <> 201 -> fst out = db)
  /\ (forall other, other <> newId ->
        Store.db_decors (fst out) !! other = Store.db_decors db !! other)
  /\ Store.db_users (fst out) = Store.db_users db
  /\ (Types.res_status (snd out) = 201 ->
      Store.db_decors db !! newId = None
      /\ is_Some (Store.db_categories db !! DecorController.body_category b)
      /\ exists d,
           Store.db_decors (fst out) !! newId = Some d
           /\ Types.res_data (snd out) = Some d
           /\ Store.d_name d = CategoryModel.trimString (DecorController.body_name b)
           /\ Store.d_slug d = Some (Utils.generateSlug (Store.d_name d))
           /\ Store.d_category d = DecorController.body_category b
           /\ Store.d_createdBy d = createdBy
           /\ Store.d_stock d = DecorController.raw_value (DecorController.body_stock b)
           /\ 0 <= Store.d_stock d
           /\ Store.d_status d
              = (if Store.d_stock d =? 0 then Types.OUT_OF_STOCK else Types.ACTIVE)
           /\ Store.d_createdAt d = now /\ Store.d_updatedAt d = now
           /\ Store.d_views d = 0 /\ Store.d_salesCount d = 0
           /\ Store.rating_count (Store.d_rating d) = 0).
Proof.
  cbv zeta. unfold DecorController.createDecor.
  destruct (Store.db_categories db !! DecorController.body_category b)
    as [c|] eqn:Hc; [|cbn [fst snd]; repeat split; discriminate].
  set (doc := DecorController.newDecor newId createdBy [] b).
  destruct (DecorModel.save now doc db) as [db' [saved|]] eqn:E; cbn [fst snd].
  - pose proof E as E'.
    apply ModelFacts.save_success in E as (Hv & -> & _ & ->).
    change (Mongoose.doc_id doc) with newId.
    split; [intros H; contradiction H; reflexivity|].
    split; [intros other Hne; simpl; apply lookup_insert_ne; congruence|].
    split; [reflexivity|]. intros _.
    split.
    { exact (CreateFacts.save_new_free now doc db _ _ eq_refl E'). }
    split; [eauto|].
    eexists. split; [simpl; apply lookup_insert_eq|].
    split; [simpl; rewrite lookup_insert_eq; reflexivity|].
    change (Mongoose.doc_fields (Mongoose.reset ?x)) with (Mongoose.doc_fields x).
    destruct (CreateFacts.new_document_saved now doc eq_refl)
      as (En & _ & Ecat & _ & Est & _ & _ & _ & _ & Er & Ev & Esc & Ecb & Eca & Eua).
    cbv zeta in *.
    assert (Hm : Mongoose.isModified DecorModel.P_name doc = true
                 /\ Mongoose.isModified DecorModel.P_stock doc = true)
      by apply CreateFacts.newDecor_modified.
    destruct Hm as [Hmn Hms].
    apply DecorFacts.validate_bounds in Hv as (_ & Hstock & _ & _).
    repeat match goal with |- _ /\ _ => split end.
    + rewrite En. reflexivity.
    + rewrite En. rewrite <- (ModelFacts.timestamps_name now doc).
      apply ModelFacts.preSave_slug_of_name.
      unfold Mongoose.isModified. rewrite ModelFacts.timestamps_modified.
      exact Hmn.
    + rewrite Ecat. reflexivity.
    + rewrite Ecb. reflexivity.
    + rewrite Est. reflexivity.
    + rewrite Est. exact Hstock.
    + rewrite ModelFacts.preSave_status_spec, Est.
      destruct (DecorFacts.timestamps_kept now doc) as (_ & _ & -> & _ & -> & _).
      unfold Mongoose.isModified in *.
      rewrite ModelFacts.timestamps_modified, Hms. simpl.
      destruct (_ =? 0); simpl; rewrite ?andb_false_r; reflexivity.
    + exact Eca.
    + exact Eua.
    + rewrite Ev. reflexivity.
    + rewrite Esc. reflexivity.
    + rewrite Er. reflexivity.
  - apply ModelFacts.save_failure in E. subst db'.
    repeat split; discriminate.
Qed.
Module RouteFacts.

(** Every refusal of [authenticate] is a 401. *)
Lemma authenticate_refusal env now req db code message :
  AuthMiddleware.authenticate env now req db
  = AuthMiddleware.Respond code message ->
  code = 401.
Proof.
  unfold AuthMiddleware.authenticate. intros Ha.
  destruct (AuthMiddleware.extractToken req);
    [|injection Ha as <- _; reflexivity].
  destruct (AuthUtils.verifyToken env now _);
    [|injection Ha as <- _; reflexivity].
  destruct (UserModel.findById _ db) as [u|];
    [|injection Ha as <- _; reflexivity].
  destruct (Types.u_isActive u); [discriminate Ha|].
  injection Ha as <- _. reflexivity.
Qed.

End RouteFacts.


(** X22.  The route that creates decors, for a request without files.  A
    request that [authenticate] refuses is answered with its 401 and writes
    nothing; one from a plain user is answered with the 403 of [adminOnly]
    and writes nothing; so is, with 400, a request of an administrator
    whose JSON body gives the price or the stock as the number zero, or
    whose category is not 24 hexadecimal digits.  After an answer of 201
    the request was authenticated as a stored, active account that is an
    administrator or the super administrator, and that account is recorded
    as the creator of the stored decor. *)
Theorem postDecor_route_guards env now newId req b db :
  let out := DecorRoutes.postDecor env now newId req b db in
  (forall code message,
      AuthMiddleware.authenticate env now req db
      = AuthMiddleware.Respond code message ->
      out = (db, Types.errorResponse code message) /\ code = 401)
  /\ (forall user,
        AuthMiddleware.authenticate env now req db = AuthMiddleware.Next user ->
        Types.au_role user = Types.USER ->
        out = (db, Types.errorResponse 403
                     "Access denied. You do not have permission to perform this action."))
  /\ (forall user,
        AuthMiddleware.authenticate env now req db = AuthMiddleware.Next user ->
        Types.au_role user <> Types.USER ->
        (exists q, DecorController.body_price b = DecorController.JsonNumber q
                   /\ (q == 0)%Q)
        \/ DecorController.body_stock b = DecorController.JsonNumber 0
        \/ DecorRoutes.isObjectIdText (DecorController.body_category b) = false ->
        fst out = db /\ Types.res_status (snd out) = 400)
  /\ (Types.res_status (snd out) = 201 ->
      exists user account d,
        AuthMiddleware.authenticate env now req db = AuthMiddleware.Next user
        /\ Types.au_role user <> Types.USER
        /\ UserModel.findById (Types.au_id user) db = Some account
        /\ Types.u_isActive account = true
        /\ Types.u_role account = Types.au_role user
        /\ DecorRoutes.isObjectIdText (DecorController.body_category b) = true
        /\ Store.db_decors (fst out) !! newId = Some d
        /\ Store.d_createdBy d = Types.au_id user).
Proof.
  cbv zeta. unfold DecorRoutes.postDecor.
  split.
  { intros code message Ha. rewrite Ha. split; [reflexivity|].
    exact (RouteFacts.authenticate_refusal _ _ _ _ _ _ Ha). }
  split.
  { intros user Ha Hr. rewrite Ha.
    unfold AuthMiddleware.adminOnly, AuthMiddleware.authorize.
    rewrite Hr. reflexivity. }
  split.
  { intros user Ha Hr Hbad. rewrite Ha.
    assert (Hadmin : AuthMiddleware.adminOnly (Some user) = AuthMiddleware.Next tt).
    { unfold AuthMiddleware.adminOnly, AuthMiddleware.authorize.
      destruct (Types.au_role user); [contradiction Hr| |]; reflexivity. }
    rewrite Hadmin.
    assert (Hv : exists message, DecorRoutes.validateCreateDecor b = Some message).
    { unfold DecorRoutes.validateCreateDecor.
      destruct (String.eqb (DecorController.body_name b) ""); simpl; [eauto|].
      destruct (String.eqb (DecorController.body_description b) "");
        simpl; [eauto|].
      destruct (String.eqb (DecorController.body_category b) "");
        simpl; [eauto|].
      destruct Hbad as [(q & -> & Hq) | [-> | ->]].
      - simpl. apply Qeq_bool_iff in Hq. rewrite Hq. simpl. eauto.
      - simpl. rewrite orb_true_r. eauto.
      - simpl. destruct (_ || _); eauto. }
    destruct Hv as [message ->]. simpl. auto. }
  intros H201.
  destruct (AuthMiddleware.authenticate env now req db) as [code message|user]
    eqn:Ha.
  { apply RouteFacts.authenticate_refusal in Ha. subst code.
    discriminate H201. }
  unfold AuthMiddleware.adminOnly, AuthMiddleware.authorize in H201 |- *.
  destruct (existsb _ _) eqn:Hrole; [|discriminate H201].
  unfold DecorRoutes.validateCreateDecor in H201 |- *.
  destruct (_ || _ || _ || _ || _); [discriminate H201|].
  destruct (DecorRoutes.isObjectIdText _) eqn:Hhex; simpl in H201 |- *;
    [|discriminate H201].
  destruct (CreateFacts.createDecor_201 now newId (Types.au_id user) b db H201)
    as (d & Hd & Hc).
  unfold AuthMiddleware.authenticate in Ha.
  destruct (AuthMiddleware.extractToken req); [|discriminate Ha].
  destruct (AuthUtils.verifyToken env now _) as [decoded|]; [|discriminate Ha].
  destruct (UserModel.findById _ db) as [account|] eqn:Hu; [|discriminate Ha].
  destruct (Types.u_isActive account) eqn:Hact; [|discriminate Ha].
  injection Ha as <-. simpl in *.
  exists {| Types.au_id := Types.au_id (Jwt.jwt_payload decoded);
            Types.au_email := Types.u_email account;
            Types.au_role := Types.u_role account |}, account, d.
  simpl. repeat split; try assumption; try reflexivity.
  intros Hr. rewrite Hr in Hrole. discriminate Hrole.
Qed.

(* ===================================================================== *)
(** ** Decors and their categories                                        *)
(* ===================================================================== *)

Module CatalogFacts.
Import Types Store Mongoose DecorModel DecorController DecorUpdates.
Import CategoryController Sessions CatalogShape ModelFacts DecorFacts.

(** *** Counting *)

Lemma countDocuments_zero {A} (p : A -> bool) (m : gmap string A) :
  countDocuments p m <= 0 ->
  forall k v, m !! k = Some v -> p v = false.
Proof.
  unfold countDocuments. intros Hz k v Hl.
  apply elem_of_map_to_list, list_elem_of_In in Hl.
  destruct (p v) eqn:E; [|reflexivity].
  assert (Hin : In (k, v) (List.filter (fun kv => p (snd kv)) (map_to_list m))).
  { apply filter_In. split; [exact Hl|exact E]. }
  destruct (List.filter _ _); [contradiction Hin|]. simpl in Hz. lia.
Qed.

Lemma countDocuments_positive {A} (p : A -> bool) (m : gmap string A) :
  0 < countDocuments p m ->
  exists k v, m !! k = Some v /\ p v = true.
Proof.
  unfold countDocuments. intros Hp.
  destruct (List.filter _ _) as [|[k v] l] eqn:E; [simpl in Hp; lia|].
  assert (Hin : In (k, v) (List.filter (fun kv => p (snd kv)) (map_to_list m))).
  { rewrite E. left. reflexivity. }
  apply filter_In in Hin as [Hin Hpv]. exists k, v. split; [|exact Hpv].
  apply elem_of_map_to_list, list_elem_of_In. exact Hin.
Qed.

(** *** [save] and the category of a decor *)

Lemma saved_category now (d : DecorDoc) :
  d_category (doc_fields (preSave (timestamps now d)))
  = d_category (doc_fields d).
Proof.
  destruct (preSave_kept (timestamps now d)) as [_ ->].
  destruct (timestamps_kept now d) as (_ & _ & _ & -> & _). reflexivity.
Qed.

Lemma save_categoriesExist now (d : DecorDoc) db :
  categoriesExist db ->
  is_Some (db_categories db !! d_category (doc_fields d)) ->
  categoriesExist (fst (save now d db)).
Proof.
  intros Hinv Hc.
  destruct (save now d db) as [db' [saved|]] eqn:E; cbn [fst].
  - apply save_success in E as (_ & -> & _ & ->).
    intros k v. simpl. unfold ObjectId in *.
    destruct (decide (k = doc_id d)) as [->|Hne].
    + rewrite lookup_insert_eq. intros [= <-].
      rewrite saved_category. exact Hc.
    + rewrite lookup_insert_ne by congruence. apply Hinv.
  - apply save_failure in E. subst db'. exact Hinv.
Qed.

(** *** The category that [updateDecor] assigns *)

Lemma applyUpdate_category (d : DecorDoc) u :
  d_category (doc_fields (applyUpdate d u))
  = match u with U_category v => v | _ => d_category (doc_fields d) end.
Proof.
  destruct u; simpl;
    unfold set_name, set_slug, set_category, set_price, set_originalPrice,
      set_stock, set_status, assign; reflexivity.
Qed.

Lemma fold_keeps_category us : forall d : DecorDoc,
  P_category ∉ map keyOf us ->
  d_category (doc_fields (fold_left applyUpdate us d))
  = d_category (doc_fields d).
Proof.
  induction us as [|u us IH]; intros d Hn; [reflexivity|].
  simpl in *. apply not_elem_of_cons in Hn as [Hu Hn].
  rewrite IH by exact Hn. rewrite applyUpdate_category.
  destruct u; try reflexivity. contradiction Hu. reflexivity.
Qed.

Lemma fold_category us : forall d : DecorDoc,
  distinctKeys us ->
  match categoryOf us with
  | Some c => d_category (doc_fields (fold_left applyUpdate us d)) = c
  | None =>
      d_category (doc_fields (fold_left applyUpdate us d)) = ""
      \/ d_category (doc_fields (fold_left applyUpdate us d))
         = d_category (doc_fields d)
  end.
Proof.
  unfold distinctKeys.
  induction us as [|u us IH]; intros d Hd; [right; reflexivity|].
  simpl in Hd. apply NoDup_cons in Hd as [Hu Hd].
  destruct u;
    lazymatch goal with
    | |- context [categoryOf (U_category ?v :: us)] => idtac
    | |- context [categoryOf (?u :: us)] =>
        change (categoryOf (u :: us)) with (categoryOf us);
        change (fold_left applyUpdate (u :: us) d)
          with (fold_left applyUpdate us (applyUpdate d u));
        specialize (IH (applyUpdate d u) Hd);
        destruct (categoryOf us); [exact IH|];
        destruct IH as [IH|IH]; [left; exact IH|right];
        rewrite IH; apply applyUpdate_category
    end.
  simpl categoryOf.
  change (fold_left applyUpdate (U_category v :: us) d)
    with (fold_left applyUpdate us (applyUpdate d (U_category v))).
  rewrite fold_keeps_category by exact Hu.
  rewrite applyUpdate_category.
  destruct (String.eqb v "") eqn:E; [|reflexivity].
  left. apply String.eqb_eq. exact E.
Qed.

Lemma validate_category f : validate f = true -> d_category f <> "".
Proof. intros H. apply validate_bounds in H. tauto. Qed.

Lemma save_invalid now (d : DecorDoc) db :
  d_category (doc_fields d) = "" -> fst (save now d db) = db.
Proof.
  intros Hc. unfold save.
  destruct (validate (doc_fields d)) eqn:Hv; [|reflexivity].
  apply validate_category in Hv. contradiction.
Qed.

(** *** One request *)

Lemma updateDecor_unfold now id us db d :
  db_decors db !! id = Some d ->
  updateDecor now id us db
  = if match categoryOf us with
       | Some c => negb (bool_decide (is_Some (db_categories db !! c)))
       | None => false
       end
    then (db, errorResponse 400 "Invalid category")
    else match save now (fold_left applyUpdate us (hydrate id d)) db with
         | (db', Some _) =>
             (db', successResponse 200 "Decor updated successfully"
                     (db_decors db' !! id))
         | (db', None) => (db', errorResponse 500 "Internal server error")
         end.
Proof.
  intros Hd. unfold updateDecor, findById. rewrite Hd. reflexivity.
Qed.

Lemma updateDecor_missing now id us db :
  db_decors db !! id = None ->
  updateDecor now id us db = (db, errorResponse 404 "Decor not found").
Proof.
  intros Hd. unfold updateDecor, findById. rewrite Hd. reflexivity.
Qed.

Lemma updateDecor_categoriesExist now id us db :
  distinctKeys us -> categoriesExist db ->
  categoriesExist (fst (updateDecor now id us db)).
Proof.
  intros Hk Hinv.
  destruct (db_decors db !! id) as [d|] eqn:Hd;
    [|rewrite (updateDecor_missing now id us db Hd); exact Hinv].
  rewrite (updateDecor_unfold now id us db d Hd).
  pose proof (fold_category us (hydrate id d) Hk) as Hcat.
  set (doc := fold_left applyUpdate us (hydrate id d)) in *.
  assert (Hsave : is_Some (db_categories db !! d_category (doc_fields doc))
                  \/ d_category (doc_fields doc) = "" ->
                  categoriesExist (fst (save now doc db))).
  { intros [Hc|Hc].
    - apply save_categoriesExist; assumption.
    - rewrite (save_invalid now doc db Hc). exact Hinv. }
  assert (Hout : is_Some (db_categories db !! d_category (doc_fields doc))
                 \/ d_category (doc_fields doc) = "" ->
                 categoriesExist
                   (fst (match save now doc db with
                         | (db', Some _) =>
                             (db', successResponse 200 "Decor updated successfully"
                                     (db_decors db' !! id))
                         | (db', None) =>
                             (db', errorResponse 500 "Internal server error")
                         end))).
  { intros Hc. specialize (Hsave Hc).
    destruct (save now doc db) as [db' [s|]]; exact Hsave. }
  destruct (categoryOf us) as [c|].
  - destruct (db_categories db !! c) as [cat|] eqn:Hc.
    + rewrite bool_decide_eq_true_2 by eauto. cbn [negb].
      apply Hout. left. rewrite Hcat. unfold ObjectId in *. rewrite Hc. eauto.
    + rewrite bool_decide_eq_false_2 by (intros [x Hx]; discriminate Hx).
      exact Hinv.
  - apply Hout. destruct Hcat as [Hcat|Hcat]; [right; exact Hcat|left].
    rewrite Hcat. apply (Hinv id d Hd).
Qed.

Lemma createDecor_categoriesExist now newId createdBy b db :
  categoriesExist db ->
  categoriesExist (fst (createDecor now newId createdBy b db)).
Proof.
  intros Hinv. unfold createDecor.
  destruct (db_categories db !! body_category b) as [c|] eqn:Hc;
    [|exact Hinv].
  assert (H : categoriesExist (fst (save now (newDecor newId createdBy [] b) db))).
  { apply save_categoriesExist; [exact Hinv|]. simpl.
    unfold ObjectId in *. rewrite Hc. eauto. }
  destruct (save now _ db) as [db' [s|]]; exact H.
Qed.

Lemma updateStock_categoriesExist now id stock db :
  categoriesExist db ->
  categoriesExist (fst (updateStock now id stock db)).
Proof.
  intros Hinv.
  destruct (db_decors db !! id) as [d|] eqn:Hd.
  - rewrite (StockFacts.updateStock_unfold now id stock db d Hd).
    assert (H : categoriesExist (fst (save now (StockFrame.stockEdit id stock d) db))).
    { apply save_categoriesExist; [exact Hinv|].
      destruct (StockFacts.stockEdit_fields id stock d) as (Hs & _ & _).
      destruct Hs as (_ & _ & _ & <- & _). apply (Hinv id d Hd). }
    destruct (save now _ db) as [db' [s|]]; exact H.
  - unfold updateStock, findById. rewrite Hd. exact Hinv.
Qed.

Lemma deleteDecor_categoriesExist id db :
  categoriesExist db -> categoriesExist (fst (deleteDecor id db)).
Proof.
  intros Hinv. unfold deleteDecor, findById.
  destruct (db_decors db !! id); [|exact Hinv]. simpl.
  intros k v Hl. simpl in Hl. apply lookup_delete_Some in Hl as [_ Hl].
  apply (Hinv k v Hl).
Qed.

Lemma deleteCategory_categoriesExist id db :
  categoriesExist db -> categoriesExist (fst (deleteCategory id db)).
Proof.
  intros Hinv. unfold deleteCategory.
  destruct (db_categories db !! id); [|exact Hinv].
  destruct (0 <? countDocuments _ _) eqn:E; [exact Hinv|].
  apply Z.ltb_ge in E. intros k v Hl. simpl in *.
  pose proof (countDocuments_zero _ _ E k v Hl) as Hp. simpl in Hp.
  apply String.eqb_neq in Hp.
  rewrite lookup_delete_ne by congruence. apply (Hinv k v Hl).
Qed.

Lemma runCatalogOp_categoriesExist op db :
  wellFormedOp op -> categoriesExist db ->
  categoriesExist (runCatalogOp db op).
Proof.
  destruct op; simpl; intros Hw Hinv.
  - apply createDecor_categoriesExist, Hinv.
  - apply updateDecor_categoriesExist; assumption.
  - apply updateStock_categoriesExist, Hinv.
  - apply deleteDecor_categoriesExist, Hinv.
  - apply deleteCategory_categoriesExist, Hinv.
Qed.

End CatalogFacts.

(** X23.  Referential integrity of the catalogue: when every stored decor
    belongs to a stored category, it still does after any sequence of
    requests that create, update, restock or delete decors and delete
    categories, whatever their answers are (the keys of the body of an
    update are distinct, as the keys of an object are). *)
Theorem catalogue_requests_keep_categories_of_decors ops db :
  Forall CatalogShape.wellFormedOp ops ->
  Sessions.categoriesExist db ->
  Sessions.categoriesExist (Sessions.runCatalogOps ops db).
Proof.
  unfold Sessions.runCatalogOps. revert db.
  induction ops as [|op ops IH]; intros db Hw Hinv; [exact Hinv|].
  apply Forall_cons in Hw as [Hop Hw]. simpl. apply IH; [exact Hw|].
  apply CatalogFacts.runCatalogOp_categoriesExist; assumption.
Qed.

(** The lamp is moved to the textiles, then both categories are asked to
    go: the one that still holds the lamp stays. *)
Lemma catalogue_requests_keep_categories_of_decors_witness :
  Sessions.categoriesExist
    (Sessions.runCatalogOps
       [Sessions.OpUpdateDecor 1000 Samples.lampId
          [DecorUpdates.U_category Samples.textilesId; DecorUpdates.U_stock 2];
        Sessions.OpDeleteCategory Samples.lightingId;
        Sessions.OpDeleteCategory Samples.textilesId]
       Samples.db0).
Proof.
  apply (catalogue_requests_keep_categories_of_decors
           [Sessions.OpUpdateDecor 1000 Samples.lampId
              [DecorUpdates.U_category Samples.textilesId; DecorUpdates.U_stock 2];
            Sessions.OpDeleteCategory Samples.lightingId;
            Sessions.OpDeleteCategory Samples.textilesId]
           Samples.db0).
  - apply Forall_cons. split; [|repeat constructor].
    apply NoDup_cons. split; [|apply NoDup_singleton].
    apply not_elem_of_cons. split; [discriminate|apply not_elem_of_nil].
  - intros k v Hl.
    change (Store.db_decors Samples.db0)
      with ({[Samples.lampId := Samples.lamp]} : gmap string Store.Decor) in Hl.
    apply lookup_singleton_Some in Hl as [_ <-].
    vm_compute. eauto.
Defined.

(** X24.  How the deletion of a category ends, for an identifier in the
    notation of the stores (24 lower-case hexadecimal digits): 404 exactly
    when the category is not stored, 400 exactly when it is stored and some
    decor belongs to it, and then, as after every answer other than 200,
    the store is as it was; after 200 the category is gone, no other
    category and no decor has changed, and no stored decor belonged to
    it. *)
Theorem deleteCategory_outcome (id : Types.ObjectId) db :
  Identifiers.isHexString id = true ->
  let out := CategoryController.deleteCategory id db in
  (Types.res_status (snd out) = 404 <-> Store.db_categories db !! id = None)
  /\ (Types.res_status (snd out) = 400
      <-> is_Some (Store.db_categories db !! id) /\ CatalogShape.referenced db id)
  /\ (Types.res_status (snd out) <> 200 -> fst out = db)
  /\ (Types.res_status (snd out) = 200 ->
      Store.db_categories (fst out) = delete id (Store.db_categories db)
      /\ Store.db_decors (fst out) = Store.db_decors db
      /\ Store.db_users (fst out) = Store.db_users db
      /\ ~ CatalogShape.referenced db id).
Proof.
  intros _. cbv zeta.
  unfold CategoryController.deleteCategory, CatalogShape.referenced.
  destruct (Store.db_categories db !! id) as [c|] eqn:Hc.
  - destruct (0 <? CategoryController.countDocuments _ _) eqn:E; cbn [fst snd].
    + apply Z.ltb_lt, CatalogFacts.countDocuments_positive in E
        as (k & d & Hl & Hp). apply String.eqb_eq in Hp.
      split; [split; discriminate|].
      split; [split; [intros _; split; eauto|reflexivity]|].
      split; [reflexivity|discriminate].
    + apply Z.ltb_ge in E.
      assert (Hno : ~ exists k d, Store.db_decors db !! k = Some d
                                  /\ Store.d_category d = id).
      { intros (k & d & Hl & Hd).
        pose proof (CatalogFacts.countDocuments_zero _ _ E k d Hl) as Hp.
        simpl in Hp. apply String.eqb_neq in Hp. contradiction. }
      split; [split; discriminate|].
      split; [split; [discriminate|intros [_ H]; contradiction]|].
      split; [intros H; contradiction H; reflexivity|].
      intros _. repeat split. exact Hno.
  - cbn [fst snd]. split; [tauto|].
    split; [split; [discriminate|intros [[x Hx] _]; discriminate Hx]|].
    split; [reflexivity|discriminate].
Qed.

(** The lamp belongs to the lighting category, which is therefore kept;
    the textiles category, to which nothing belongs, is deleted. *)
Lemma deleteCategory_outcome_witness :
  Types.res_status
    (snd (CategoryController.deleteCategory Samples.lightingId Samples.db0)) = 400
  /\ CatalogShape.referenced Samples.db0 Samples.lightingId
  /\ Store.db_categories
       (fst (CategoryController.deleteCategory Samples.textilesId Samples.db0))
     !! Samples.textilesId = None.
Proof.
  destruct (deleteCategory_outcome Samples.lightingId Samples.db0 eq_refl)
    as (_ & H400 & _).
  destruct (deleteCategory_outcome Samples.textilesId Samples.db0 eq_refl)
    as (_ & _ & _ & H200).
  split; [reflexivity|]. split.
  - apply H400. reflexivity.
  - destruct (H200 eq_refl) as (-> & _). apply lookup_delete_eq.
Defined.

(* ===================================================================== *)
(** ** The public identifier of an uploaded image                         *)
(* ===================================================================== *)

Module CloudinaryFacts.
Import Cloudinary.

Lemma splitOn_nonempty sep s : splitOn sep s <> [].
Proof.
  destruct s as [|c r]; simpl; [discriminate|].
  destruct (Ascii.eqb c sep); [discriminate|].
  destruct (splitOn sep r); discriminate.
Qed.

Lemma splitOn_word sep w : ~ In sep w -> splitOn sep w = [w].
Proof.
  induction w as [|c w IH]; intros Hn; [reflexivity|]. simpl.
  destruct (Ascii.eqb c sep) eqn:E.
  - apply Ascii.eqb_eq in E. contradiction Hn. left. exact E.
  - rewrite IH; [reflexivity|]. intros H. apply Hn. right. exact H.
Qed.

Lemma splitOn_app sep w rest :
  ~ In sep w ->
  splitOn sep (w ++ sep :: rest) = w :: splitOn sep rest.
Proof.
  induction w as [|c w IH]; intros Hn; simpl.
  - rewrite Ascii.eqb_refl. reflexivity.
  - destruct (Ascii.eqb c sep) eqn:E.
    + apply Ascii.eqb_eq in E. contradiction Hn. left. exact E.
    + rewrite IH; [reflexivity|]. intros H. apply Hn. right. exact H.
Qed.

(** Splitting undoes joining. *)
Lemma splitOn_joinWith sep parts :
  parts <> [] -> Forall (fun w => ~ In sep w) parts ->
  splitOn sep (joinWith sep parts) = parts.
Proof.
  induction parts as [|w ws IH]; intros Hne Hall; [contradiction Hne; reflexivity|].
  apply Forall_cons in Hall as [Hw Hws].
  destruct ws as [|w' ws'].
  - simpl. apply splitOn_word, Hw.
  - change (joinWith sep (w :: w' :: ws'))
      with (w ++ sep :: joinWith sep (w' :: ws'))%list.
    rewrite splitOn_app by exact Hw.
    rewrite IH; [reflexivity|discriminate|exact Hws].
Qed.

Lemma joinWith_snoc sep ws w :
  ws <> [] ->
  joinWith sep (ws ++ [w]) = (joinWith sep ws ++ sep :: w)%list.
Proof.
  induction ws as [|x xs IH]; intros Hne; [contradiction Hne; reflexivity|].
  destruct xs as [|y ys]; [reflexivity|].
  change (joinWith sep ((x :: y :: ys) ++ [w]))
    with (x ++ sep :: joinWith sep ((y :: ys) ++ [w]))%list.
  rewrite IH by discriminate.
  change (joinWith sep (x :: y :: ys))
    with (x ++ sep :: joinWith sep (y :: ys))%list.
  rewrite <- app_assoc. reflexivity.
Qed.

Lemma findIndex_app target pre rest :
  ~ In target pre ->
  findIndex target (pre ++ target :: rest) = Some (length pre).
Proof.
  induction pre as [|w ws IH]; intros Hn; simpl.
  - rewrite bool_decide_eq_true_2 by reflexivity. reflexivity.
  - rewrite bool_decide_eq_false_2
      by (intros E; apply Hn; left; exact E).
    rewrite IH; [reflexivity|]. intros H. apply Hn. right. exact H.
Qed.

(** The parts of the URL of an image that was uploaded to a folder. *)
Lemma extract_parts pre version folders name ext :
  ~ In upload pre -> ~ In "."%char name ->
  let file := (name ++ "."%char :: ext)%list in
  let parts := (pre ++ upload :: version :: folders ++ [file])%list in
  List.last parts [] = file
  /\ List.hd [] (splitOn "." file) = name
  /\ findIndex upload parts = Some (length pre)
  /\ Nat.ltb (length pre) (length parts - 2) = true
  /\ removelast (skipn (length pre + 2) parts) = folders.
Proof.
  intros Hu Hn file parts. subst parts.
  repeat match goal with |- _ /\ _ => split end.
  - replace (pre ++ upload :: version :: folders ++ [file])%list
      with ((pre ++ upload :: version :: folders) ++ [file])%list
      by (rewrite <- app_assoc; reflexivity).
    apply last_last.
  - subst file. rewrite splitOn_app by exact Hn. reflexivity.
  - apply findIndex_app, Hu.
  - apply Nat.ltb_lt. rewrite length_app. simpl. rewrite length_app. simpl.
    lia.
  - replace (pre ++ upload :: version :: folders ++ [file])%list
      with ((pre ++ [upload; version]) ++ folders ++ [file])%list
      by (rewrite <- app_assoc; reflexivity).
    replace (length pre + 2)%nat with (length (pre ++ [upload; version]))
      by (rewrite length_app; reflexivity).
    rewrite skipn_app, Nat.sub_diag, skipn_all. simpl.
    apply removelast_last.
Qed.

End CloudinaryFacts.

(** X25.  The public identifier is recovered from the URL of an uploaded
    image: for a URL whose path is some leading parts, [upload], a version,
    the folders and a file name with an extension, where no part holds a
    slash, no leading part is [upload] and the name holds no dot,
    [extractPublicIdFromUrl] returns the folders and the name, joined by
    slashes. *)
Theorem extractPublicIdFromUrl_recovers_public_id pre version folders name ext :
  Forall (fun w => ~ In "/"%char w)
         (pre ++ version :: folders ++ [name ++ "."%char :: ext])%list ->
  ~ In Cloudinary.upload pre ->
  ~ In "."%char name ->
  Cloudinary.extractPublicIdFromUrl
    (string_of_list_ascii
       (Cloudinary.joinWith "/"
          (pre ++ Cloudinary.upload :: version :: folders
               ++ [name ++ "."%char :: ext])%list))
  = string_of_list_ascii (Cloudinary.joinWith "/" (folders ++ [name])%list).
Proof.
  intros Hs Hu Hn.
  unfold Cloudinary.extractPublicIdFromUrl.
  rewrite list_ascii_of_string_of_list_ascii. f_equal.
  unfold Cloudinary.extractPublicIdChars.
  rewrite CloudinaryFacts.splitOn_joinWith.
  - destruct (CloudinaryFacts.extract_parts pre version folders name ext Hu Hn)
      as (-> & -> & -> & -> & ->).
    destruct folders as [|f fs] eqn:Ef; [reflexivity|].
    rewrite <- Ef. symmetry. apply CloudinaryFacts.joinWith_snoc.
    rewrite Ef. discriminate.
  - destruct pre; discriminate.
  - apply Forall_app in Hs as [Hpre Hrest].
    apply Forall_app. split; [exact Hpre|].
    apply Forall_cons. split; [|exact Hrest].
    intros H. vm_compute in H. decompose [or] H; try discriminate; contradiction.
Qed.

(** An image of the samples folder. *)
Lemma extractPublicIdFromUrl_recovers_public_id_witness :
  Cloudinary.extractPublicIdFromUrl
    "https://res.cloudinary.com/demo/image/upload/v1712/craftopia/decors/lamp.jpg"
  = "craftopia/decors/lamp".
Proof.
  apply (extractPublicIdFromUrl_recovers_public_id
           (map list_ascii_of_string
                ["https:"; ""; "res.cloudinary.com"; "demo"; "image"])
           (list_ascii_of_string "v1712")
           (map list_ascii_of_string ["craftopia"; "decors"])
           (list_ascii_of_string "lamp") (list_ascii_of_string "jpg")).
  - repeat (apply Forall_cons; split;
            [intros H; vm_compute in H; decompose [or] H; try discriminate; contradiction|]).
    apply Forall_nil. exact I.
  - intros H. vm_compute in H. decompose [or] H; try discriminate; contradiction.
  - intros H. vm_compute in H. decompose [or] H; try discriminate; contradiction.
Defined.

(* ===================================================================== *)
(** ** Updating a decor                                                   *)
(* ===================================================================== *)

Module UpdateFacts.
Import Types Store Mongoose Utils DecorModel DecorController DecorUpdates.
Import CatalogShape ModelFacts DecorFacts.

Lemma isModified_assign_mono (q p : Path) changed f (d : DecorDoc) :
  isModified q d = true -> isModified q (assign p changed f d) = true.
Proof.
  intros H. destruct (decide (q = p)) as [->|Hne].
  - rewrite isModified_assign_eq, H. reflexivity.
  - rewrite isModified_assign_ne by exact Hne. exact H.
Qed.

Ltac setters :=
  unfold applyUpdate, set_name, set_slug, set_category, set_price,
    set_originalPrice, set_stock, set_status.

Lemma applyUpdate_modified (q : Path) (d : DecorDoc) u :
  isModified q d = true -> isModified q (applyUpdate d u) = true.
Proof.
  intros H. destruct u; setters; cbv zeta;
    apply isModified_assign_mono; exact H.
Qed.

Lemma applyUpdate_name (d : DecorDoc) u :
  keyOf u <> P_name ->
  d_name (doc_fields (applyUpdate d u)) = d_name (doc_fields d).
Proof.
  destruct u; intros Hk; try (contradiction Hk; reflexivity);
    setters; reflexivity.
Qed.

Lemma applyUpdate_id (d : DecorDoc) u :
  doc_id (applyUpdate d u) = doc_id d
  /\ doc_isNew (applyUpdate d u) = doc_isNew d.
Proof. destruct u; setters; split; reflexivity. Qed.

Lemma fold_id us : forall d : DecorDoc,
  doc_id (fold_left applyUpdate us d) = doc_id d
  /\ doc_isNew (fold_left applyUpdate us d) = doc_isNew d.
Proof.
  induction us as [|u us IH]; intros d; [split; reflexivity|]. simpl.
  destruct (IH (applyUpdate d u)) as [-> ->]. apply applyUpdate_id.
Qed.

Lemma fold_modified (q : Path) us : forall d : DecorDoc,
  isModified q d = true -> isModified q (fold_left applyUpdate us d) = true.
Proof.
  induction us as [|u us IH]; intros d H; [exact H|]. simpl.
  apply IH, applyUpdate_modified, H.
Qed.

Lemma fold_name us : forall d : DecorDoc,
  P_name ∉ map keyOf us ->
  d_name (doc_fields (fold_left applyUpdate us d)) = d_name (doc_fields d).
Proof.
  induction us as [|u us IH]; intros d Hn; [reflexivity|].
  simpl in *. apply not_elem_of_cons in Hn as [Hu Hn].
  rewrite IH by exact Hn. apply applyUpdate_name. congruence.
Qed.

(** The document that [updateDecor] hands to [save] when the body
    renames the decor. *)
Lemma renamed us name id d :
  distinctKeys us -> In (U_name name) us ->
  CategoryModel.trimString name <> d_name d ->
  let doc := fold_left applyUpdate us (hydrate id d) in
  d_name (doc_fields doc) = CategoryModel.trimString name
  /\ isModified P_name doc = true.
Proof.
  unfold distinctKeys. intros Hk Hin Hne.
  apply in_split in Hin as (l1 & l2 & ->).
  rewrite map_app in Hk. simpl in Hk.
  apply NoDup_app in Hk as (_ & H1 & Hk).
  apply NoDup_cons in Hk as [H2 _].
  assert (Hl1 : P_name ∉ map keyOf l1).
  { intros H. apply (H1 _ H). left. }
  cbv zeta. rewrite fold_left_app. simpl.
  set (d1 := fold_left applyUpdate l1 (hydrate id d)).
  assert (En : d_name (doc_fields d1) = d_name d)
    by (apply (fold_name l1 (hydrate id d) Hl1)).
  assert (Hset : d_name (doc_fields (set_name name d1))
                 = CategoryModel.trimString name
                 /\ isModified P_name (set_name name d1) = true).
  { unfold set_name. split; [reflexivity|].
    rewrite isModified_assign_eq, En.
    rewrite (proj2 (String.eqb_neq _ _) Hne). simpl.
    apply orb_true_r. }
  destruct Hset as [Hn Hm]. split.
  - rewrite fold_name by exact H2. exact Hn.
  - apply fold_modified, Hm.
Qed.

(** A successful update stores what [save] has made of the edited
    document, and answers with it. *)
Lemma updateDecor_200 now id us db d :
  db_decors db !! id = Some d ->
  res_status (snd (updateDecor now id us db)) = 200 ->
  let doc := fold_left applyUpdate us (hydrate id d) in
  let f := doc_fields (preSave (timestamps now doc)) in
  validate (doc_fields doc) = true
  /\ updateDecor now id us db
     = (with_decors (<[id := f]> (db_decors db)) db,
        successResponse 200 "Decor updated successfully" (Some f)).
Proof.
  intros Hd. rewrite (CatalogFacts.updateDecor_unfold now id us db d Hd).
  destruct (match categoryOf us with Some _ => _ | None => _ end);
    [discriminate|].
  destruct (save now _ db) as [db' [saved|]] eqn:E; [|discriminate].
  intros _. apply save_success in E as (Hv & -> & _ & ->).
  destruct (fold_id us (hydrate id d)) as [-> _]. cbv zeta.
  split; [exact Hv|]. simpl. rewrite lookup_insert_eq. reflexivity.
Qed.

End UpdateFacts.

(** X26.  How an update of a decor ends, for an identifier in the
    notation of the stores (24 lower-case hexadecimal digits): 404 exactly
    when no decor has the identifier; an answer other than 200 leaves the
    store as it was; no answer touches another decor or a user; after 200
    the decor that is returned is the one that is stored, and its price
    and stock are not negative. *)
Theorem updateDecor_outcome now (id : Types.ObjectId) updates db :
  Identifiers.isHexString id = true ->
  let out := DecorUpdates.updateDecor now id updates db in
  (Types.res_status (snd out) = 404 <-> Store.db_decors db !! id = None)
  /\ (Types.res_status (snd out) <> 200 -> fst out = db)
  /\ (forall other, other <> id ->
        Store.db_decors (fst out) !! other = Store.db_decors db !! other)
  /\ Store.db_users (fst out) = Store.db_users db
  /\ (Types.res_status (snd out) = 200 ->
      exists d', Store.db_decors (fst out) !! id = Some d'
                 /\ Types.res_data (snd out) = Some d'
                 /\ (0 <= Store.d_price d')%Q /\ 0 <= Store.d_stock d').
Proof.
  intros _. cbv zeta. destruct (Store.db_decors db !! id) as [d|] eqn:Hd.
  - destruct (Z.eq_dec
                (Types.res_status (snd (DecorUpdates.updateDecor now id updates db)))
                200) as [H200|Hn].
    + destruct (UpdateFacts.updateDecor_200 now id updates db d Hd H200)
        as [Hv E]. cbv zeta in E. rewrite E. cbn [fst snd].
      split; [split; discriminate|].
      split; [intros H; contradiction H; reflexivity|].
      split; [intros other Hne; simpl; apply lookup_insert_ne; congruence|].
      split; [reflexivity|]. intros _. eexists.
      split; [simpl; apply lookup_insert_eq|]. split; [reflexivity|].
      apply DecorFacts.validate_bounds in Hv as (Hp & Hs & _ & _).
      set (doc := fold_left DecorUpdates.applyUpdate updates
                    (Mongoose.hydrate id d)) in *.
      destruct (ModelFacts.preSave_prices (DecorModel.timestamps now doc))
        as [-> _].
      destruct (DecorFacts.preSave_kept (DecorModel.timestamps now doc))
        as [-> _].
      destruct (DecorFacts.timestamps_kept now doc) as (-> & _ & -> & _).
      split; assumption.
    + revert Hn. rewrite (CatalogFacts.updateDecor_unfold now id updates db d Hd).
      destruct (match DecorUpdates.categoryOf updates with
                | Some _ => _ | None => _ end).
      * intros _. cbn [fst snd]. split; [split; discriminate|].
        repeat split; discriminate.
      * destruct (DecorModel.save now _ db) as [db' [saved|]] eqn:E;
          cbn [fst snd]; [intros H; contradiction H; reflexivity|].
        intros _. apply ModelFacts.save_failure in E. subst db'.
        split; [split; discriminate|]. repeat split; discriminate.
  - rewrite (CatalogFacts.updateDecor_missing now id updates db Hd).
    cbn [fst snd]. split; [simpl; tauto|]. repeat split; discriminate.
Qed.

(** Two lamps are left and the price is 39.90: the update is answered
    with 200 and returns what it has stored; a negative stock is answered
    with 500 and changes nothing. *)
Lemma updateDecor_outcome_witness :
  (exists d',
      Store.db_decors
        (fst (DecorUpdates.updateDecor 1000 Samples.lampId
                [DecorUpdates.U_stock 2; DecorUpdates.U_price (399 # 10)]
                Samples.db0)) !! Samples.lampId = Some d'
      /\ Store.d_stock d' = 2 /\ (Store.d_price d' == 399 # 10)%Q)
  /\ fst (DecorUpdates.updateDecor 1000 Samples.lampId
            [DecorUpdates.U_stock (-2)] Samples.db0) = Samples.db0.
Proof.
  split.
  - destruct (updateDecor_outcome 1000 Samples.lampId
                [DecorUpdates.U_stock 2; DecorUpdates.U_price (399 # 10)]
                Samples.db0 eq_refl) as (_ & _ & _ & _ & H).
    destruct (H eq_refl) as (d' & Hl & _ & _ & _).
    exists d'. split; [exact Hl|].
    vm_compute in Hl. injection Hl as <-. split; reflexivity.
  - apply (updateDecor_outcome 1000 Samples.lampId
             [DecorUpdates.U_stock (-2)] Samples.db0 eq_refl).
    vm_compute. discriminate.
Defined.

(** X27.  Renaming a decor through an update re-derives its slug: when
    the body gives a name that differs, once trimmed, from the stored one,
    a successful update stores the trimmed name and the slug generated
    from it, also when the same body gives a slug of its own. *)
Theorem updateDecor_rename_rederives_slug now id updates db d name :
  Store.db_decors db !! id = Some d ->
  CatalogShape.distinctKeys updates ->
  In (DecorUpdates.U_name name) updates ->
  CategoryModel.trimString name <> Store.d_name d ->
  Types.res_status (snd (DecorUpdates.updateDecor now id updates db)) = 200 ->
  exists d',
    Store.db_decors (fst (DecorUpdates.updateDecor now id updates db)) !! id
    = Some d'
    /\ Types.res_data (snd (DecorUpdates.updateDecor now id updates db)) = Some d'
    /\ Store.d_name d' = CategoryModel.trimString name
    /\ Store.d_slug d'
       = Some (Utils.generateSlug (CategoryModel.trimString name)).
Proof.
  intros Hd Hk Hin Hne H200.
  destruct (UpdateFacts.updateDecor_200 now id updates db d Hd H200) as [_ E].
  cbv zeta in E. rewrite E. cbn [fst snd].
  destruct (UpdateFacts.renamed updates name id d Hk Hin Hne) as [Hn Hm].
  cbv zeta in Hn, Hm.
  set (doc := fold_left DecorUpdates.applyUpdate updates (Mongoose.hydrate id d)) in *.
  eexists. split; [simpl; apply lookup_insert_eq|]. split; [reflexivity|].
  assert (En : Store.d_name (Mongoose.doc_fields
                               (DecorModel.preSave (DecorModel.timestamps now doc)))
               = CategoryModel.trimString name).
  { rewrite ModelFacts.preSave_name, ModelFacts.timestamps_name. exact Hn. }
  split; [exact En|].
  rewrite <- Hn, <- (ModelFacts.timestamps_name now doc).
  apply ModelFacts.preSave_slug_of_name.
  unfold Mongoose.isModified in *. rewrite ModelFacts.timestamps_modified.
  exact Hm.
Qed.

(** The lamp is renamed, and the body brings a slug of its own. *)
Lemma updateDecor_rename_rederives_slug_witness :
  exists d',
    Store.db_decors
      (fst (DecorUpdates.updateDecor 1000 Samples.lampId
              [DecorUpdates.U_slug "my-own-slug";
               DecorUpdates.U_name "  Copper Lamp "] Samples.db0))
      !! Samples.lampId = Some d'
    /\ Store.d_name d' = "Copper Lamp"
    /\ Store.d_slug d' = Some "copper-lamp".
Proof.
  destruct (updateDecor_rename_rederives_slug 1000 Samples.lampId
              [DecorUpdates.U_slug "my-own-slug";
               DecorUpdates.U_name "  Copper Lamp "]
              Samples.db0 Samples.lamp "  Copper Lamp ")
    as (d' & Hl & _ & Hn & Hs).
  - reflexivity.
  - apply NoDup_cons. split; [|apply NoDup_singleton].
    apply not_elem_of_cons. split; [discriminate|apply not_elem_of_nil].
  - right. left. reflexivity.
  - vm_compute. discriminate.
  - vm_compute. reflexivity.
  - exists d'. split; [exact Hl|]. split; [exact Hn|exact Hs].
Defined.
